(** * QR Code Studio: a shallow embedding of [main.py], the single-file
    application, with the properties of it that the specification states.

    [qrstudio/ui/tk_app.py], the second front-end, is built on modules of
    its package (config, events, domain, services, commands). What the
    development covers of it is the arithmetic of [_Preview.show], which
    is the arithmetic of [QRApp.set_preview] ([preview_size]).

    Conventions.
    - A Python [str] is a [string]; a character stands for the code point
      of the same number, so the strings of the model are the Python
      strings whose code points are below 256.
    - The QR and image libraries ([qrcode], Pillow, [ImageTk]) and the
      file system are not part of the program: they are a parameter of
      the development ([External]), and every call the program makes into
      them is recorded in a trace of events together with its arguments.
    - Python [float] arithmetic is IEEE-754 binary64 with rounding to
      nearest, ties to even ([Float64]).
    - An exception is the name of its class and its text. A clause
      [except Exception] takes every exception but those of the built-in
      classes that do not derive from [Exception] (KeyboardInterrupt,
      SystemExit, GeneratorExit, ...), which go on ([is_Exception]). *)

From Stdlib Require Import ZArith QArith Qround Lia String Ascii List Bool.
From Stdlib Require Import DecimalString Qpower Lqa Floats.SpecFloat.
From stdpp Require Import base list gmap strings.
Import ListNotations.

Local Open Scope string_scope.

(** ** Python string operations *)

Module PyStr.

(** [str.isspace] on one character, for the code points below 256:
    TAB, LF, VT, FF, CR, the separators FS, GS, RS, US, the space, NEL
    and the no-break space. *)
Definition isspace (c : ascii) : bool :=
  let n := N_of_ascii c in
  ((9 <=? n) && (n <=? 13) || (28 <=? n) && (n <=? 32)
   || (n =? 133) || (n =? 160))%N.

(** [str.lower] on one character, for the code points below 256: the
    letters A-Z and the Latin-1 capitals (all of 192..222 but the
    multiplication sign 215) move up by 32. *)
Definition lower_char (c : ascii) : ascii :=
  let n := N_of_ascii c in
  if ((65 <=? n) && (n <=? 90)
      || (192 <=? n) && (n <=? 222) && negb (n =? 215))%N
  then ascii_of_N (n + 32) else c.

Fixpoint lower (s : string) : string :=
  match s with
  | EmptyString => EmptyString
  | String c r => String (lower_char c) (lower r)
  end.

(** [s.lstrip(chars)] for a one-character [chars]. *)
Fixpoint lstrip_char (d : ascii) (s : string) : string :=
  match s with
  | String c r => if Ascii.eqb c d then lstrip_char d r else s
  | EmptyString => EmptyString
  end.

(** [s.lstrip()], [s.rstrip()] and [s.strip()]: whitespace removed at
    the left end, at the right end, at both. *)
Fixpoint lstrip (s : string) : string :=
  match s with
  | String c r => if isspace c then lstrip r else s
  | EmptyString => EmptyString
  end.

Fixpoint rstrip (s : string) : string :=
  match s with
  | EmptyString => EmptyString
  | String c r =>
      match rstrip r with
      | EmptyString => if isspace c then EmptyString else String c EmptyString
      | r' => String c r'
      end
  end.

Definition strip (s : string) : string := rstrip (lstrip s).

(** Truth value of a string: [bool(s)], false for the empty string only. *)
Definition truthy (s : string) : bool :=
  match s with EmptyString => false | _ => true end.

(** [a or b] on strings. *)
Definition or_else (a b : string) : string := if truthy a then a else b.

(** [s.split(sep)] for a one-character separator: the list of the
    pieces between the separators, never empty. *)
Fixpoint split (sep : ascii) (s : string) : list string :=
  match s with
  | EmptyString => [EmptyString]
  | String c r =>
      if Ascii.eqb c sep then EmptyString :: split sep r
      else match split sep r with
           | h :: t => String c h :: t
           | [] => [String c EmptyString]
           end
  end.

(** [l[-1]] on a list of strings; Python raises IndexError on the empty
    list, which [split] never returns. *)
Definition last_item (l : list string) : option string := last l.

(** [str(n)] for an integer. *)
Definition of_Z (z : Z) : string :=
  DecimalString.NilZero.string_of_int (Z.to_int z).

End PyStr.

(** ** Exceptions and results of fallible calls *)

(** A Python exception: its class and [str(e)]. *)
Inductive Exn := Exception (cls : string) (msg : string).

Definition exn_class (e : Exn) : string := let 'Exception c _ := e in c.
Definition exn_str (e : Exn) : string := let 'Exception _ m := e in m.

(** The built-in classes that do not derive from [Exception]. A class is
    known by its name; a class that is not listed counts as derived from
    [Exception], as the exception classes of qrcode, Pillow and tkinter
    are. *)
Definition base_only_classes : list string :=
  ["BaseException"; "KeyboardInterrupt"; "SystemExit"; "GeneratorExit";
   "BaseExceptionGroup"].

(** [isinstance(e, Exception)]: what a clause [except Exception] takes. *)
Definition is_Exception (e : Exn) : bool :=
  negb (existsb (String.eqb (exn_class e)) base_only_classes).

(** What a call that may raise gives back. *)
Inductive Result (A : Type) :=
| Ok (a : A)
| Err (e : Exn).
Arguments Ok {A} a.
Arguments Err {A} e.

(** ** Python floats: IEEE-754 binary64, rounding to nearest even *)

Module Float64.

Local Open Scope Q_scope.

Definition pow2 (k : Z) : Q := Qpower 2 k.

(** [floor (log2 x)] for a positive rational. *)
Definition ilog2 (x : Q) : Z :=
  let k := (Z.log2 (Qnum x) - Z.log2 (Zpos (Qden x)))%Z in
  if Qle_bool (pow2 k) x then k else (k - 1)%Z.

(** Nearest integer of a non-negative rational, ties to the even one. *)
Definition round_half_even (y : Q) : Z :=
  let f := Qfloor y in
  match Qcompare (y - inject_Z f) (1 # 2) with
  | Lt => f
  | Gt => (f + 1)%Z
  | Eq => if Z.even f then f else (f + 1)%Z
  end.

(** Exponent of the last place of the binary64 format at a positive
    [x]: 53 significant bits, and the subnormal floor of -1074. *)
Definition ulp_exp (x : Q) : Z := Z.max (ilog2 x - 52) (-1074).

Definition round_pos (x : Q) : Q :=
  let e := ulp_exp x in
  Qred (inject_Z (round_half_even (x / pow2 e)) * pow2 e).

(** A rounded value: a finite float or an infinity. *)
Inductive rounded :=
| Finite (q : Q)
| Infinity (negative : bool).

(** Round a real (here rational) value to binary64. *)
Definition round (x : Q) : rounded :=
  match Qcompare x 0 with
  | Eq => Finite 0
  | Gt => let r := round_pos x in
          if Qle_bool (pow2 1024) r then Infinity false else Finite r
  | Lt => let r := round_pos (- x) in
          if Qle_bool (pow2 1024) r then Infinity true else Finite (- r)
  end.

(** [a / b] on Python integers: the correctly rounded quotient. *)
Definition int_truediv (a b : Z) : Result Q :=
  if (b =? 0)%Z then Err (Exception "ZeroDivisionError" "division by zero")
  else match round (inject_Z a / inject_Z b) with
       | Finite q => Ok q
       | Infinity _ =>
           Err (Exception "OverflowError"
                  "integer division result too large for a float")
       end.

(** [float(n)] on a Python integer. *)
Definition of_int (n : Z) : Result Q :=
  match round (inject_Z n) with
  | Finite q => Ok q
  | Infinity _ =>
      Err (Exception "OverflowError" "int too large to convert to float")
  end.

(** [x * y] on two finite floats. *)
Definition mul (x y : Q) : rounded := round (x * y).

(** [min(x, y)] on two finite floats: [y] when [y < x], else [x]. *)
Definition min (x y : Q) : Q :=
  match Qcompare y x with Lt => y | _ => x end.

(** [int(x)]: truncation toward zero. *)
Definition truncate (q : Q) : Z :=
  if Qle_bool 0 q then Qfloor q else Qceiling q.

Definition to_int (x : rounded) : Result Z :=
  match x with
  | Finite q => Ok (truncate q)
  | Infinity _ =>
      Err (Exception "OverflowError"
             "cannot convert float infinity to integer")
  end.

(** [n * x] for an integer [n] and a finite float [x]: [n] is converted
    first. *)
Definition int_mul (n : Z) (x : Q) : Result rounded :=
  match of_int n with
  | Ok f => Ok (mul f x)
  | Err e => Err e
  end.

End Float64.

(** ** Static configuration ([AppConfig]) *)

Module AppConfig.
Definition title : string := "QR Code Studio".
Definition min_size : Z * Z := (760, 560)%Z.
Definition preview_max : Z := 360.
Definition default_box_size : Z := 10.
Definition default_border : Z := 4.
End AppConfig.

(** ** The external libraries *)

(** The four constants of [qrcode.constants]. *)
Inductive ErrorCorrect :=
| ERROR_CORRECT_L
| ERROR_CORRECT_M
| ERROR_CORRECT_Q
| ERROR_CORRECT_H.

(** The [image_factory] argument of [qrcode.QRCode]: left out (the
    library's Pillow images) or [SvgImage]. *)
Inductive ImageFactory :=
| DefaultFactory
| SvgImage.

(** What the program asks of [qrcode], Pillow, [ImageTk] and the file
    system. Mutating methods give back the updated object; every call
    may raise. *)
Class External := {
  QRCode : Type;
  QRDataList : Type;
  Image : Type;
  PhotoImage : Type;
  (** [qrcode.QRCode(version, error_correction, box_size, border,
      image_factory)] *)
  qr_new : option Z -> ErrorCorrect -> Z -> Z -> ImageFactory -> Result QRCode;
  (** [qr.add_data(text)] and [qr.add_data(data_list)] *)
  qr_add_text : QRCode -> string -> Result QRCode;
  qr_add_list : QRCode -> QRDataList -> Result QRCode;
  (** [qr.make(fit=True)] *)
  qr_make : QRCode -> Result QRCode;
  (** [qr.make_image(fill_color, back_color)], [back_color] possibly [None] *)
  qr_make_image : QRCode -> string -> option string -> Result Image;
  (** the attributes [qr.version], [qr.error_correction], [qr.data_list] *)
  qr_version : QRCode -> option Z;
  qr_error_correction : QRCode -> ErrorCorrect;
  qr_data_list : QRCode -> QRDataList;
  (** [img.mode], [img.size], [img.convert(mode)],
      [img.resize(size, Image.NEAREST)] *)
  img_mode : Image -> string;
  img_size : Image -> Z * Z;
  img_convert : Image -> string -> Result Image;
  img_resize : Image -> Z * Z -> Result Image;
  (** [ImageTk.PhotoImage(img)] *)
  photo_image : Image -> Result PhotoImage;
  (** [img.save(path, format="PNG")] *)
  img_save_png : Image -> string -> Result unit;
  (** [open(path, "wb")] and, inside it, [img.save(f)] *)
  file_open_wb : string -> Result unit;
  img_save_file : Image -> string -> Result unit;
}.

(** ** Strategy: background *)

Inductive BackgroundStrategy :=
| WhiteBackground
| TransparentBackground.

Definition name (b : BackgroundStrategy) : string :=
  match b with
  | WhiteBackground => "White"
  | TransparentBackground => "Transparent"
  end.

Definition back_color (b : BackgroundStrategy) : string :=
  match b with
  | WhiteBackground => "white"
  | TransparentBackground => "transparent"
  end.

(** ** Factory: encoders *)

Inductive ImageEncoder :=
| PNGEncoder
| SVGEncoder.

Definition ext (e : ImageEncoder) : string :=
  match e with
  | PNGEncoder => "png"
  | SVGEncoder => "svg"
  end.

Definition for_extension (ext : string) : ImageEncoder :=
  let e := PyStr.lstrip_char "." (PyStr.lower ext) in
  if String.eqb e "png" then PNGEncoder
  else if String.eqb e "svg" then SVGEncoder
  else PNGEncoder.

(** ** The parameter struct *)

Record QRSpec := {
  data : string;
  error_level : string;
  box_size : Z;
  border : Z;
  fill_color : string;
  background : BackgroundStrategy;
}.

(** [err_map.get(level, ERROR_CORRECT_M)] of both commands. *)
Definition err_map : list (string * ErrorCorrect) :=
  [("L", ERROR_CORRECT_L); ("M", ERROR_CORRECT_M);
   ("Q", ERROR_CORRECT_Q); ("H", ERROR_CORRECT_H)].

Fixpoint dict_get {V : Type} (d : list (string * V)) (k : string) (default : V) : V :=
  match d with
  | [] => default
  | (k', v) :: r => if String.eqb k k' then v else dict_get r k default
  end.

Definition err_map_get (level : string) : ErrorCorrect :=
  dict_get err_map level ERROR_CORRECT_M.

(** ** Preview size *)

(** The arithmetic of [set_preview] and of [_Preview.show]:
    [scale = min(max_side / max(w, h), 1.0)] and
    [(max(1, int(w * scale)), max(1, int(h * scale)))]. *)
Definition scaled_side (side : Z) (scale : Q) : Result Z :=
  match Float64.int_mul side scale with
  | Err e => Err e
  | Ok p =>
      match Float64.to_int p with
      | Err e => Err e
      | Ok n => Ok (Z.max 1 n)
      end
  end.

Definition preview_scale (max_side w h : Z) : Result Q :=
  match Float64.int_truediv max_side (Z.max w h) with
  | Err e => Err e
  | Ok r => Ok (Float64.min r 1)
  end.

Definition preview_size (max_side w h : Z) : Result (Z * Z) :=
  match preview_scale max_side w h with
  | Err e => Err e
  | Ok scale =>
      match scaled_side w scale with
      | Err e => Err e
      | Ok w' =>
          match scaled_side h scale with
          | Err e => Err e
          | Ok h' => Ok (w', h')
          end
      end
  end.

(** The same two formulas as the specification words them, in exact
    arithmetic, to compare the computation with:
    [min(max_side / max(w, h), 1)] and [max(1, floor(side * scale))]. *)
Definition exact_scale (max_side w h : Z) : Q :=
  let r := (inject_Z max_side / inject_Z (Z.max w h))%Q in
  if Qle_bool r 1 then r else 1%Q.

Definition exact_side (side : Z) (scale : Q) : Z :=
  Z.max 1 (Qfloor (inject_Z side * scale)).

(** ** The application: state, events and the monad of its methods *)

(** A [tk.IntVar] is modelled by what its [get] gives: the integer the
    widget's text stands for, or the [TclError] raised when the text is
    not a number. *)
Definition IntVar := Result Z.

(** References to [QRSpec] objects: indices in the store of the specs
    built so far. *)
Definition ref := nat.

(** A callback registered on the event bus; the application registers
    one, the console's [write]. *)
Inductive Subscriber :=
| ConsoleWrite.

(** How a method ends: it returns, it raises, or it follows a reference
    to no object (which no Python run does). *)
Inductive Outcome (A : Type) :=
| Returns (a : A)
| Raises (e : Exn)
| Stuck.
Arguments Returns {A} a.
Arguments Raises {A} e.
Arguments Stuck {A}.

Section Application.

Context {lib : External}.

Record QRApp := {
  (** widget variables *)
  input_var : string;
  ec_var : string;
  box_var : IntVar;
  border_var : IntVar;
  fill_var : string;
  bg_var : string;
  status_var : string;
  (** the preview label and the console pane *)
  label_image : option PhotoImage;
  label_text : string;
  console_text : string;
  (** attributes *)
  current_image : option Image;
  current_qr : option QRCode;
  current_spec : option ref;
  preview_photo : option PhotoImage;
  bus_subs : list Subscriber;
  (** the [QRSpec] objects allocated so far *)
  specs : list QRSpec;
}.

(** What the program does to the outside: dialogs, bus messages and
    calls into the libraries, in order. *)
Inductive Event :=
| ShowWarning (title message : string)
| ShowInfo (title message : string)
| ShowError (title message : string)
| AskSaveAsFilename (answer : string)
| Publish (message : string)
| CallQRCode (version : option Z) (ec : ErrorCorrect) (box border : Z)
             (factory : ImageFactory)
| CallAddText (qr : QRCode) (text : string)
| CallAddList (qr : QRCode) (l : QRDataList)
| CallMake (qr : QRCode)
| CallMakeImage (qr : QRCode) (fill : string) (back : option string)
| CallConvert (img : Image) (mode : string)
| CallResize (img : Image) (size : Z * Z)
| CallPhotoImage (img : Image)
| CallSavePNG (img : Image) (path : string)
| CallOpenWB (path : string)
| CallSaveFile (img : Image) (path : string).

(** A method of the application: from the state, how it ends, the state
    it leaves and the events it caused. What a method has changed and
    caused before it raises stays. *)
Definition M (A : Type) : Type := QRApp -> Outcome A * QRApp * list Event.

Definition ret {A} (a : A) : M A := fun st => (Returns a, st, []).

Definition bind {A B} (m : M A) (k : A -> M B) : M B :=
  fun st =>
    match m st with
    | (Returns a, st1, t1) =>
        let '(o, st2, t2) := k a st1 in (o, st2, (t1 ++ t2)%list)
    | (Raises e, st1, t1) => (Raises e, st1, t1)
    | (Stuck, st1, t1) => (Stuck, st1, t1)
    end.

Definition raise {A} (e : Exn) : M A := fun st => (Raises e, st, []).

Definition emit (ev : Event) : M unit := fun st => (Returns tt, st, [ev]).

Definition read {A} (f : QRApp -> A) : M A := fun st => (Returns (f st), st, []).

Definition modify (f : QRApp -> QRApp) : M unit :=
  fun st => (Returns tt, f st, []).

Definition lift {A} (r : Result A) : M A :=
  match r with
  | Ok a => ret a
  | Err e => raise e
  end.

(** [try: body except Exception as e: handler(e)]: an exception of a
    class outside [Exception] is not taken and goes on. *)
Definition try_except {A} (body : M A) (handler : Exn -> M A) : M A :=
  fun st =>
    match body st with
    | (Raises e, st1, t1) =>
        if is_Exception e then
          let '(o, st2, t2) := handler e st1 in (o, st2, (t1 ++ t2)%list)
        else (Raises e, st1, t1)
    | r => r
    end.

End Application.

Declare Scope py_scope.
Delimit Scope py_scope with py.
Notation "x <- m ;; k" := (bind m (fun x => k))
  (at level 100, m at next level, right associativity) : py_scope.
Notation "m ;; k" := (bind m (fun _ => k))
  (at level 100, right associativity) : py_scope.

Section Methods.

Context {lib : External}.
Local Open Scope py_scope.

(** A library call: it is recorded, then it returns or raises. *)
Definition call {A} (ev : Event) (r : Result A) : M A :=
  emit ev ;; lift r.

(** *** Field updates *)

Definition set_input_var (v : string) (a : QRApp) : QRApp :=
  {| input_var := v; ec_var := ec_var a; box_var := box_var a;
     border_var := border_var a; fill_var := fill_var a; bg_var := bg_var a;
     status_var := status_var a; label_image := label_image a;
     label_text := label_text a; console_text := console_text a;
     current_image := current_image a; current_qr := current_qr a;
     current_spec := current_spec a; preview_photo := preview_photo a;
     bus_subs := bus_subs a; specs := specs a |}.

Definition set_ec_var (v : string) (a : QRApp) : QRApp :=
  {| input_var := input_var a; ec_var := v; box_var := box_var a;
     border_var := border_var a; fill_var := fill_var a; bg_var := bg_var a;
     status_var := status_var a; label_image := label_image a;
     label_text := label_text a; console_text := console_text a;
     current_image := current_image a; current_qr := current_qr a;
     current_spec := current_spec a; preview_photo := preview_photo a;
     bus_subs := bus_subs a; specs := specs a |}.

Definition set_box_var (v : IntVar) (a : QRApp) : QRApp :=
  {| input_var := input_var a; ec_var := ec_var a; box_var := v;
     border_var := border_var a; fill_var := fill_var a; bg_var := bg_var a;
     status_var := status_var a; label_image := label_image a;
     label_text := label_text a; console_text := console_text a;
     current_image := current_image a; current_qr := current_qr a;
     current_spec := current_spec a; preview_photo := preview_photo a;
     bus_subs := bus_subs a; specs := specs a |}.

Definition set_border_var (v : IntVar) (a : QRApp) : QRApp :=
  {| input_var := input_var a; ec_var := ec_var a; box_var := box_var a;
     border_var := v; fill_var := fill_var a; bg_var := bg_var a;
     status_var := status_var a; label_image := label_image a;
     label_text := label_text a; console_text := console_text a;
     current_image := current_image a; current_qr := current_qr a;
     current_spec := current_spec a; preview_photo := preview_photo a;
     bus_subs := bus_subs a; specs := specs a |}.

Definition set_fill_var (v : string) (a : QRApp) : QRApp :=
  {| input_var := input_var a; ec_var := ec_var a; box_var := box_var a;
     border_var := border_var a; fill_var := v; bg_var := bg_var a;
     status_var := status_var a; label_image := label_image a;
     label_text := label_text a; console_text := console_text a;
     current_image := current_image a; current_qr := current_qr a;
     current_spec := current_spec a; preview_photo := preview_photo a;
     bus_subs := bus_subs a; specs := specs a |}.

Definition set_bg_var (v : string) (a : QRApp) : QRApp :=
  {| input_var := input_var a; ec_var := ec_var a; box_var := box_var a;
     border_var := border_var a; fill_var := fill_var a; bg_var := v;
     status_var := status_var a; label_image := label_image a;
     label_text := label_text a; console_text := console_text a;
     current_image := current_image a; current_qr := current_qr a;
     current_spec := current_spec a; preview_photo := preview_photo a;
     bus_subs := bus_subs a; specs := specs a |}.

Definition set_status_var (v : string) (a : QRApp) : QRApp :=
  {| input_var := input_var a; ec_var := ec_var a; box_var := box_var a;
     border_var := border_var a; fill_var := fill_var a; bg_var := bg_var a;
     status_var := v; label_image := label_image a;
     label_text := label_text a; console_text := console_text a;
     current_image := current_image a; current_qr := current_qr a;
     current_spec := current_spec a; preview_photo := preview_photo a;
     bus_subs := bus_subs a; specs := specs a |}.

Definition set_label (i : option PhotoImage) (t : string) (a : QRApp) : QRApp :=
  {| input_var := input_var a; ec_var := ec_var a; box_var := box_var a;
     border_var := border_var a; fill_var := fill_var a; bg_var := bg_var a;
     status_var := status_var a; label_image := i;
     label_text := t; console_text := console_text a;
     current_image := current_image a; current_qr := current_qr a;
     current_spec := current_spec a; preview_photo := preview_photo a;
     bus_subs := bus_subs a; specs := specs a |}.

Definition set_console_text (v : string) (a : QRApp) : QRApp :=
  {| input_var := input_var a; ec_var := ec_var a; box_var := box_var a;
     border_var := border_var a; fill_var := fill_var a; bg_var := bg_var a;
     status_var := status_var a; label_image := label_image a;
     label_text := label_text a; console_text := v;
     current_image := current_image a; current_qr := current_qr a;
     current_spec := current_spec a; preview_photo := preview_photo a;
     bus_subs := bus_subs a; specs := specs a |}.

Definition set_current_image (v : option Image) (a : QRApp) : QRApp :=
  {| input_var := input_var a; ec_var := ec_var a; box_var := box_var a;
     border_var := border_var a; fill_var := fill_var a; bg_var := bg_var a;
     status_var := status_var a; label_image := label_image a;
     label_text := label_text a; console_text := console_text a;
     current_image := v; current_qr := current_qr a;
     current_spec := current_spec a; preview_photo := preview_photo a;
     bus_subs := bus_subs a; specs := specs a |}.

Definition set_current_qr (v : option QRCode) (a : QRApp) : QRApp :=
  {| input_var := input_var a; ec_var := ec_var a; box_var := box_var a;
     border_var := border_var a; fill_var := fill_var a; bg_var := bg_var a;
     status_var := status_var a; label_image := label_image a;
     label_text := label_text a; console_text := console_text a;
     current_image := current_image a; current_qr := v;
     current_spec := current_spec a; preview_photo := preview_photo a;
     bus_subs := bus_subs a; specs := specs a |}.

Definition set_current_spec (v : option ref) (a : QRApp) : QRApp :=
  {| input_var := input_var a; ec_var := ec_var a; box_var := box_var a;
     border_var := border_var a; fill_var := fill_var a; bg_var := bg_var a;
     status_var := status_var a; label_image := label_image a;
     label_text := label_text a; console_text := console_text a;
     current_image := current_image a; current_qr := current_qr a;
     current_spec := v; preview_photo := preview_photo a;
     bus_subs := bus_subs a; specs := specs a |}.

Definition set_preview_photo (v : option PhotoImage) (a : QRApp) : QRApp :=
  {| input_var := input_var a; ec_var := ec_var a; box_var := box_var a;
     border_var := border_var a; fill_var := fill_var a; bg_var := bg_var a;
     status_var := status_var a; label_image := label_image a;
     label_text := label_text a; console_text := console_text a;
     current_image := current_image a; current_qr := current_qr a;
     current_spec := current_spec a; preview_photo := v;
     bus_subs := bus_subs a; specs := specs a |}.

Definition set_bus_subs (v : list Subscriber) (a : QRApp) : QRApp :=
  {| input_var := input_var a; ec_var := ec_var a; box_var := box_var a;
     border_var := border_var a; fill_var := fill_var a; bg_var := bg_var a;
     status_var := status_var a; label_image := label_image a;
     label_text := label_text a; console_text := console_text a;
     current_image := current_image a; current_qr := current_qr a;
     current_spec := current_spec a; preview_photo := preview_photo a;
     bus_subs := v; specs := specs a |}.

Definition set_specs (v : list QRSpec) (a : QRApp) : QRApp :=
  {| input_var := input_var a; ec_var := ec_var a; box_var := box_var a;
     border_var := border_var a; fill_var := fill_var a; bg_var := bg_var a;
     status_var := status_var a; label_image := label_image a;
     label_text := label_text a; console_text := console_text a;
     current_image := current_image a; current_qr := current_qr a;
     current_spec := current_spec a; preview_photo := preview_photo a;
     bus_subs := bus_subs a; specs := v |}.

(** *** The store of [QRSpec] objects *)

(** [QRSpec(...)]: a new object, after the ones that exist. *)
Definition new_spec (s : QRSpec) : M ref :=
  fun st => (Returns (length (specs st)), set_specs (specs st ++ [s]) st, []).

(** Following a reference, to read the fields of the object. *)
Definition deref (l : ref) : M QRSpec :=
  fun st =>
    match specs st !! l with
    | Some s => (Returns s, st, [])
    | None => (Stuck, st, [])
    end.

(** *** Observer: the event bus and the console *)

Definition nl : string := String (ascii_of_nat 10) EmptyString.

(** [GuiLogger.write] *)
Definition GuiLogger_write (msg : string) : M unit :=
  t <- read console_text ;;
  modify (set_console_text (t ++ (msg ++ nl))).

Definition notify (fn : Subscriber) (message : string) : M unit :=
  match fn with
  | ConsoleWrite => GuiLogger_write message
  end.

(** [EventBus.subscribe] and [EventBus.publish] *)
Definition subscribe (fn : Subscriber) : M unit :=
  subs <- read bus_subs ;;
  modify (set_bus_subs (subs ++ [fn])).

Fixpoint publish_to (subs : list Subscriber) (message : string) : M unit :=
  match subs with
  | [] => ret tt
  | fn :: rest => notify fn message ;; publish_to rest message
  end.

Definition publish (message : string) : M unit :=
  emit (Publish message) ;;
  subs <- read bus_subs ;;
  publish_to subs message.

(** *** Encoders *)

Definition PNGEncoder_save (qr : QRCode) (path fill_color back_color : string)
    (box_size border : Z) : M unit :=
  img <- call (CallMakeImage qr fill_color (Some back_color))
              (qr_make_image qr fill_color (Some back_color)) ;;
  img <- (if String.eqb back_color "transparent"
          then call (CallConvert img "RGBA") (img_convert img "RGBA")
          else ret img) ;;
  call (CallSavePNG img path) (img_save_png img path).

Definition SVGEncoder_save (qr : QRCode) (path fill_color back_color : string)
    (box_size border : Z) : M unit :=
  svg_qr <- call (CallQRCode (qr_version qr) (qr_error_correction qr)
                    box_size border SvgImage)
                 (qr_new (qr_version qr) (qr_error_correction qr)
                    box_size border SvgImage) ;;
  svg_qr <- call (CallAddList svg_qr (qr_data_list qr))
                 (qr_add_list svg_qr (qr_data_list qr)) ;;
  svg_qr <- call (CallMake svg_qr) (qr_make svg_qr) ;;
  img <- call (CallMakeImage svg_qr fill_color None)
              (qr_make_image svg_qr fill_color None) ;;
  call (CallOpenWB path) (file_open_wb path) ;;
  call (CallSaveFile img path) (img_save_file img path).

Definition save (encoder : ImageEncoder) :
    QRCode -> string -> string -> string -> Z -> Z -> M unit :=
  match encoder with
  | PNGEncoder => PNGEncoder_save
  | SVGEncoder => SVGEncoder_save
  end.

(** *** [QRApp._build_spec] *)

Definition _build_spec : M ref :=
  bg <- read bg_var ;;
  let bg_strategy :=
    if String.eqb bg "white" then WhiteBackground else TransparentBackground in
  d <- read input_var ;;
  level <- read ec_var ;;
  bs <- (v <- read box_var ;; lift v) ;;
  bd <- (v <- read border_var ;; lift v) ;;
  fc <- read fill_var ;;
  new_spec {| data := d; error_level := level; box_size := bs; border := bd;
              fill_color := PyStr.or_else fc "black";
              background := bg_strategy |}.

(** *** [QRApp.set_preview] *)

Definition times : string := String (ascii_of_nat 215) EmptyString.

Definition set_preview (img : option Image) (qr : option QRCode) : M unit :=
  modify (set_current_image img) ;;
  modify (set_current_qr qr) ;;
  match img with
  | Some _ => l <- _build_spec ;; modify (set_current_spec (Some l))
  | None => modify (set_current_spec None)
  end ;;
  match img with
  | None =>
      modify (set_label None "No preview") ;;
      modify (set_preview_photo None)
  | Some i =>
      let max_side := AppConfig.preview_max in
      let '(w, h) := img_size i in
      new_size <- lift (preview_size max_side w h) ;;
      display_img <- call (CallResize i new_size) (img_resize i new_size) ;;
      photo <- call (CallPhotoImage display_img) (photo_image display_img) ;;
      modify (set_preview_photo (Some photo)) ;;
      t <- read label_text ;;
      modify (set_label (Some photo) t) ;;
      modify (set_status_var
                ("Preview " ++ PyStr.of_Z (fst new_size) ++ times
                 ++ PyStr.of_Z (snd new_size)))
  end.

(** *** Commands *)

(** [GenerateQRCommand(app, spec, bus).execute()] *)
Definition GenerateQRCommand_execute (spec : ref) : M unit :=
  s <- deref spec ;;
  if negb (PyStr.truthy (PyStr.strip (data s))) then
    emit (ShowWarning "No input" "Please enter some text/URL to encode.")
  else
    let ec := err_map_get (error_level s) in
    qr <- call (CallQRCode None ec (box_size s) (border s) DefaultFactory)
               (qr_new None ec (box_size s) (border s) DefaultFactory) ;;
    qr <- call (CallAddText qr (data s)) (qr_add_text qr (data s)) ;;
    qr <- call (CallMake qr) (qr_make qr) ;;
    img <- call (CallMakeImage qr (fill_color s)
                   (Some (back_color (background s))))
                (qr_make_image qr (fill_color s)
                   (Some (back_color (background s)))) ;;
    img <- try_except
             (call (CallConvert img "RGBA") (img_convert img "RGBA"))
             (fun _ => call (CallConvert img "RGB") (img_convert img "RGB")) ;;
    set_preview (Some img) (Some qr) ;;
    publish ("Generated QR (EC=" ++ error_level s
             ++ ", box=" ++ PyStr.of_Z (box_size s)
             ++ ", border=" ++ PyStr.of_Z (border s)
             ++ ", bg=" ++ name (background s) ++ ").").

(** [SaveQRCommand(app, bus).execute()]; [answer] is what the user gives
    to the save dialog, the empty string when the dialog is cancelled. *)
Definition SaveQRCommand_execute (answer : string) : M unit :=
  cq <- read current_qr ;;
  match cq with
  | None => emit (ShowInfo "Nothing to save" "Generate a QR code first.")
  | Some _ =>
      emit (AskSaveAsFilename answer) ;;
      let path := answer in
      if negb (PyStr.truthy path) then ret tt
      else
        e <- match PyStr.last_item (PyStr.split "." path) with
             | Some e => ret e
             | None => raise (Exception "IndexError" "list index out of range")
             end ;;
        let encoder := for_extension e in
        try_except
          (cs <- read current_spec ;;
           s <- match cs with
                | Some l => deref l
                | None =>
                    raise (Exception "AttributeError"
                      "'NoneType' object has no attribute 'error_level'")
                end ;;
           let ec := err_map_get (error_level s) in
           qr <- call (CallQRCode None ec (box_size s) (border s) DefaultFactory)
                      (qr_new None ec (box_size s) (border s) DefaultFactory) ;;
           qr <- call (CallAddText qr (data s)) (qr_add_text qr (data s)) ;;
           qr <- call (CallMake qr) (qr_make qr) ;;
           save encoder qr path (fill_color s) (back_color (background s))
             (box_size s) (border s) ;;
           publish ("Saved QR to " ++ path) ;;
           emit (ShowInfo "Saved" ("QR code saved:" ++ nl ++ path)))
          (fun e =>
             publish ("ERROR saving: " ++ exn_str e) ;;
             emit (ShowError "Save failed"
                     ("Could not save file:" ++ nl ++ exn_str e)))
  end.

(** *** Actions of [QRApp] *)

Definition on_generate : M unit :=
  spec <- _build_spec ;;
  GenerateQRCommand_execute spec.

Definition on_save (answer : string) : M unit :=
  SaveQRCommand_execute answer.

Definition on_clear : M unit :=
  modify (set_input_var "") ;;
  set_preview None None ;;
  publish "Cleared." ;;
  modify (set_status_var "Cleared").

(** *** [QRApp.__init__] *)

(** The attributes and the widgets as [__init__] and [_build_ui] create
    them, before anything is subscribed or published. *)
Definition blank : QRApp :=
  {| input_var := ""; ec_var := "M";
     box_var := Ok AppConfig.default_box_size;
     border_var := Ok AppConfig.default_border;
     fill_var := "black"; bg_var := "white"; status_var := "Ready";
     label_image := None; label_text := ""; console_text := "";
     current_image := None; current_qr := None; current_spec := None;
     preview_photo := None; bus_subs := []; specs := [] |}.

Definition __init__ : M unit :=
  subscribe ConsoleWrite ;;
  publish "Ready. Enter your text (e.g., https://github.com/your-username) and press Generate.".

Definition initial : QRApp := snd (fst (__init__ blank)).

End Methods.

(** ** The user interface as a transition system *)

(** What the user can do to the window of [_build_ui]: edit the entry
    fields, pick an entry of the read-only combobox, press a radio
    button, and trigger the three actions (buttons or shortcuts). *)
Inductive UserAction :=
| TypeInput (text : string)
| SelectErrorCorrection (index : nat)
| EditBoxSize (content : IntVar)
| EditBorder (content : IntVar)
| TypeFill (text : string)
| ChooseBackground (b : BackgroundStrategy)
| PressGenerate
| PressSave (answer : string)
| PressClear.

(** The [values] of the error-correction combobox. *)
Definition ec_values : list string := ["L"; "M"; "Q"; "H"].

Section Interface.

Context {lib : External}.

(** Tk runs a callback and goes back to its main loop, also when the
    callback raises. *)
Definition run_callback (m : M unit) (st : QRApp) : QRApp * list Event :=
  let '(_, st', tr) := m st in (st', tr).

Definition step (a : UserAction) (st : QRApp) : QRApp * list Event :=
  match a with
  | TypeInput text => (set_input_var text st, [])
  | SelectErrorCorrection i =>
      match ec_values !! i with
      | Some v => (set_ec_var v st, [])
      | None => (st, [])
      end
  | EditBoxSize c => (set_box_var c st, [])
  | EditBorder c => (set_border_var c st, [])
  | TypeFill text => (set_fill_var text st, [])
  | ChooseBackground b => (set_bg_var (back_color b) st, [])
  | PressGenerate => run_callback on_generate st
  | PressSave answer => run_callback (on_save answer) st
  | PressClear => run_callback on_clear st
  end.

(** The state after a sequence of actions, and what was observed. *)
Fixpoint run (acts : list UserAction) (st : QRApp) : QRApp * list Event :=
  match acts with
  | [] => (st, [])
  | a :: rest =>
      let '(st1, t1) := step a st in
      let '(st2, t2) := run rest st1 in
      (st2, (t1 ++ t2)%list)
  end.

Inductive reachable : QRApp -> Prop :=
| reachable_initial : reachable initial
| reachable_step (a : UserAction) (st : QRApp) :
    reachable st -> reachable (fst (step a st)).

End Interface.

(** ** A small stand-in for the libraries

    It keeps what the program can observe of [qrcode] and Pillow: the
    arguments a QR object was made with, the pieces of data added, and for
    an image its mode and size. The mode of a new image is chosen as
    [qrcode]'s Pillow factory chooses it: ["1"] for black on white,
    ["RGBA"] on a transparent background, ["RGB"] otherwise. Writing under
    the directory [/missing/] fails. *)

Module Stub.

Record qr := {
  version : option Z;
  error_correction : ErrorCorrect;
  qr_box_size : Z;
  qr_border : Z;
  factory : ImageFactory;
  data_list : list string;
}.

Record image := {
  mode : string;
  size : Z * Z;
}.

Definition new (v : option Z) (ec : ErrorCorrect) (box border : Z)
    (f : ImageFactory) : Result qr :=
  if (box <=? 0)%Z then
    Err (Exception "ValueError" ("Invalid box size (was " ++ PyStr.of_Z box
                                 ++ ", expected larger than 0)"))
  else if (border <? 0)%Z then
    Err (Exception "ValueError" ("Invalid border value (was " ++ PyStr.of_Z border
                                 ++ ", expected 0 or larger than that)"))
  else Ok {| version := v; error_correction := ec; qr_box_size := box;
             qr_border := border; factory := f; data_list := [] |}.

Definition add (q : qr) (l : list string) : Result qr :=
  Ok {| version := version q; error_correction := error_correction q;
        qr_box_size := qr_box_size q; qr_border := qr_border q;
        factory := factory q; data_list := (data_list q ++ l)%list |}.

(** [make(fit=True)]: the smallest version, here always 1. *)
Definition make (q : qr) : Result qr :=
  Ok {| version := Some (match version q with Some v => v | None => 1%Z end);
        error_correction := error_correction q;
        qr_box_size := qr_box_size q; qr_border := qr_border q;
        factory := factory q; data_list := data_list q |}.

Definition modules (q : qr) : Z :=
  (match version q with Some v => 4 * v + 17 | None => 21 end)%Z.

Definition make_image (q : qr) (fill : string) (back : option string)
    : Result image :=
  let side := ((modules q + 2 * qr_border q) * qr_box_size q)%Z in
  match factory q with
  | SvgImage => Ok {| mode := "svg"; size := (side, side) |}
  | DefaultFactory =>
      let back := match back with Some b => PyStr.lower b | None => "white" end in
      let m := if String.eqb (PyStr.lower fill) "black" && String.eqb back "white"
               then "1"
               else if String.eqb back "transparent" then "RGBA" else "RGB" in
      Ok {| mode := m; size := (side, side) |}
  end.

Definition convert (i : image) (m : string) : Result image :=
  Ok {| mode := m; size := size i |}.

Definition resize (i : image) (s : Z * Z) : Result image :=
  Ok {| mode := mode i; size := s |}.

Definition write (path : string) : Result unit :=
  if String.prefix "/missing/" path then
    Err (Exception "FileNotFoundError"
           ("[Errno 2] No such file or directory: '" ++ path ++ "'"))
  else Ok tt.

#[export] Instance external : External := {|
  QRCode := qr;
  QRDataList := list string;
  Image := image;
  PhotoImage := image;
  qr_new := new;
  qr_add_text q s := add q [s];
  qr_add_list := add;
  qr_make := make;
  qr_make_image := make_image;
  qr_version := version;
  qr_error_correction := error_correction;
  qr_data_list := data_list;
  img_mode := mode;
  img_size := size;
  img_convert := convert;
  img_resize := resize;
  photo_image i := Ok i;
  img_save_png _ path := write path;
  file_open_wb path := write path;
  img_save_file _ _ := Ok tt;
|}.

End Stub.

(** ** Reading traces and states

    What the properties below say of a run: the messages, dialogs and
    calls of a trace, and how a state relates to the one before. *)

Section Observations.

Context {lib : External}.

(** The dialog of Generate on a blank text. *)
Definition no_input_warning : Event :=
  ShowWarning "No input" "Please enter some text/URL to encode.".

(** The messages put on the bus, in order. *)
Fixpoint published (tr : list Event) : list string :=
  match tr with
  | [] => []
  | Publish m :: r => m :: published r
  | _ :: r => published r
  end.

(** The dialogs shown to the user, in order. *)
Fixpoint dialogs (tr : list Event) : list Event :=
  match tr with
  | [] => []
  | ShowWarning t m :: r => ShowWarning t m :: dialogs r
  | ShowInfo t m :: r => ShowInfo t m :: dialogs r
  | ShowError t m :: r => ShowError t m :: dialogs r
  | AskSaveAsFilename a :: r => AskSaveAsFilename a :: dialogs r
  | _ :: r => dialogs r
  end.

(** The error-correction constants that the QR objects were asked
    with, in order. *)
Fixpoint requested_levels (tr : list Event) : list ErrorCorrect :=
  match tr with
  | [] => []
  | CallQRCode _ ec _ _ _ :: r => ec :: requested_levels r
  | _ :: r => requested_levels r
  end.

(** An event that is a call into the libraries. *)
Definition is_call (ev : Event) : bool :=
  match ev with
  | ShowWarning _ _ | ShowInfo _ _ | ShowError _ _
  | AskSaveAsFilename _ | Publish _ => false
  | _ => true
  end.

(** The images written as PNG files, in order. *)
Fixpoint saved_png (tr : list Event) : list Image :=
  match tr with
  | [] => []
  | CallSavePNG img _ :: r => img :: saved_png r
  | _ :: r => saved_png r
  end.

(** The outcome of a call whose result is [r]. *)
Definition outcome {A} (r : Result A) : Outcome A :=
  match r with
  | Ok a => Returns a
  | Err e => Raises e
  end.

(** The console after a message went to the bus of the running
    application, whose one subscriber is the console. *)
Definition logged (message : string) (st : QRApp) : QRApp :=
  set_console_text (console_text st ++ (message ++ nl)) st.

(** The calls both commands make to set up the QR object. *)
Definition setup_calls (s : QRSpec) (q1 q2 : QRCode) : list Event :=
  [CallQRCode None (err_map_get (error_level s)) (box_size s) (border s)
     DefaultFactory;
   CallAddText q1 (data s);
   CallMake q2].

(** The dialogs that end a save: the failure of [e], the success. *)
Definition save_failed_dialog (e : Exn) : Event :=
  ShowError "Save failed" ("Could not save file:" ++ nl ++ exn_str e).

Definition saved_dialog (path : string) : Event :=
  ShowInfo "Saved" ("QR code saved:" ++ nl ++ path).

(** The spec that [_build_spec] builds from the widgets, when both number
    fields hold numbers. *)
Definition widget_spec (st : QRApp) : option QRSpec :=
  match box_var st, border_var st with
  | Ok bs, Ok bd =>
      Some {| data := input_var st; error_level := ec_var st;
              box_size := bs; border := bd;
              fill_color := PyStr.or_else (fill_var st) "black";
              background := if String.eqb (bg_var st) "white"
                            then WhiteBackground else TransparentBackground |}
  | _, _ => None
  end.

(** The console after [message] went to each subscriber of [subs]. *)
Fixpoint log_lines (subs : list Subscriber) (message text : string) : string :=
  match subs with
  | [] => text
  | ConsoleWrite :: rest => log_lines rest message (text ++ (message ++ nl))
  end.

(** How the state after a method relates to the state before: the option
    widgets and the subscribers are the same, and the store of specs has
    grown by specs that hold the values of the widgets. *)
Definition extends_with (added : list QRSpec) (st st' : QRApp) : Prop :=
  input_var st' = input_var st
  /\ ec_var st' = ec_var st
  /\ box_var st' = box_var st
  /\ border_var st' = border_var st
  /\ fill_var st' = fill_var st
  /\ bg_var st' = bg_var st
  /\ bus_subs st' = bus_subs st
  /\ specs st' = (specs st ++ added)%list.

End Observations.

(** ** Sample states and sentences of the specification *)

(** The state in which the user has generated a code for "hello" at level
    L and has then moved the error-correction box to H. *)
Definition level_changed_after_generate : @QRApp Stub.external :=
  fst (run [TypeInput "hello"; SelectErrorCorrection 0; PressGenerate;
            SelectErrorCorrection 3] initial).

(** A spec with the level "h", which the combobox does not offer. *)
Definition lowercase_level_spec : QRSpec :=
  {| data := "hello"; error_level := "h"; box_size := 10; border := 4;
     fill_color := "black"; background := WhiteBackground |}.

(** A state that holds it, which no sequence of user actions reaches. *)
Definition lowercase_level_state : @QRApp Stub.external :=
  set_specs [lowercase_level_spec] initial.

(** The sentence that every PNG the program writes is in mode RGB or
    RGBA, whatever the libraries are. *)
Definition every_png_rgb_or_rgba : Prop :=
  forall (lib : External) (acts : list UserAction) (img : Image),
    In img (saved_png (snd (run acts initial))) ->
    img_mode img = "RGB" \/ img_mode img = "RGBA".

(** The stand-in with images that have no RGBA form: the conversion to
    RGBA raises, the others are as before. *)
Definition stub_without_alpha : External := {|
  QRCode := Stub.qr;
  QRDataList := list string;
  Image := Stub.image;
  PhotoImage := Stub.image;
  qr_new := Stub.new;
  qr_add_text q s := Stub.add q [s];
  qr_add_list := Stub.add;
  qr_make := Stub.make;
  qr_make_image := Stub.make_image;
  qr_version := Stub.version;
  qr_error_correction := Stub.error_correction;
  qr_data_list := Stub.data_list;
  img_mode := Stub.mode;
  img_size := Stub.size;
  img_convert i m :=
    if String.eqb m "RGBA"
    then Err (Exception "ValueError" "conversion not supported")
    else Stub.convert i m;
  img_resize := Stub.resize;
  photo_image i := Ok i;
  img_save_png _ path := Stub.write path;
  file_open_wb path := Stub.write path;
  img_save_file _ _ := Ok tt;
|}.

(** The stand-in in which the writing of a PNG file is interrupted:
    [img.save] raises KeyboardInterrupt, the others are as before. *)
Definition stub_interrupted : External := {|
  QRCode := Stub.qr;
  QRDataList := list string;
  Image := Stub.image;
  PhotoImage := Stub.image;
  qr_new := Stub.new;
  qr_add_text q s := Stub.add q [s];
  qr_add_list := Stub.add;
  qr_make := Stub.make;
  qr_make_image := Stub.make_image;
  qr_version := Stub.version;
  qr_error_correction := Stub.error_correction;
  qr_data_list := Stub.data_list;
  img_mode := Stub.mode;
  img_size := Stub.size;
  img_convert := Stub.convert;
  img_resize := Stub.resize;
  photo_image i := Ok i;
  img_save_png _ _ := Err (Exception "KeyboardInterrupt" "");
  file_open_wb path := Stub.write path;
  img_save_file _ _ := Ok tt;
|}.

(** The state with one spec in the store: the text "hello", and the
    box size [bs]. *)
Definition one_spec_state (lib : External) (bs : Z) : @QRApp lib :=
  set_specs [{| data := "hello"; error_level := "M"; box_size := bs;
                border := 4; fill_color := "black";
                background := WhiteBackground |}]
    (set_box_var (Ok bs) (set_input_var "hello" initial)).

(** ** The Standard Library's IEEE-754 floats, to compare with *)

(** The value of a finite float of [SpecFloat]. *)
Definition spec_float_value (x : spec_float) : option Q :=
  match x with
  | S754_zero _ => Some 0%Q
  | S754_finite s m e =>
      Some (Qred ((if s then -1 else 1) * inject_Z (Zpos m) * Float64.pow2 e))
  | _ => None
  end.

(** The binary64 float of an integer, and the binary64 quotient and
    product of two integers' floats, in [SpecFloat]. *)
Definition binary64_of_Z (z : Z) : spec_float :=
  binary_normalize 53 1024 z 0 false.

Definition binary64_div (a b : Z) : option Q :=
  spec_float_value (SFdiv 53 1024 (binary64_of_Z a) (binary64_of_Z b)).

Definition binary64_scaled (side a b : Z) : option Q :=
  spec_float_value
    (SFmul 53 1024 (binary64_of_Z side)
       (SFdiv 53 1024 (binary64_of_Z a) (binary64_of_Z b))).

(** The value of a result of [Float64], when there is one. *)
Definition result_value (r : Result Q) : option Q :=
  match r with Ok q => Some q | Err _ => None end.

Definition rounded_value (r : Result Float64.rounded) : option Q :=
  match r with Ok (Float64.Finite q) => Some q | _ => None end.

(** ** More of the program *)

(** *** The singleton metaclass

    [_Singleton] keeps one dictionary [_instances], from a class to its
    one instance. Classes are known by their names and objects by their
    identities; [next_object] is the identity that the next object
    created gets. *)

Module Singleton.

Record World := {
  _instances : gmap string nat;
  next_object : nat;
}.

Definition empty : World := {| _instances := ∅; next_object := 0 |}.

(** [_Singleton.__call__(cls)]: what [cls()] evaluates to. *)
Definition __call__ (cls : string) (w : World) : nat * World :=
  match _instances w !! cls with
  | Some o => (o, w)
  | None =>
      let o := next_object w in
      (o, {| _instances := <[cls := o]> (_instances w);
             next_object := S o |})
  end.

(** The objects that a sequence of calls evaluates to, and the world
    after them. *)
Fixpoint calls (classes : list string) (w : World) : list nat * World :=
  match classes with
  | [] => ([], w)
  | cls :: rest =>
      let '(o, w1) := __call__ cls w in
      let '(os, w2) := calls rest w1 in
      (o :: os, w2)
  end.

(** Every recorded instance is an object that has been created, and no
    two classes share one. *)
Definition consistent (w : World) : Prop :=
  (forall c o, _instances w !! c = Some o -> o < next_object w)
  /\ (forall c c' o,
        _instances w !! c = Some o -> _instances w !! c' = Some o -> c = c').

End Singleton.

(** *** The event bus, whatever the callbacks are *)

Section Bus.

Context {lib : External}.

(** A subscriber: any callable on the message. *)
Definition Callback : Type := string -> M unit.

(** The loop of [EventBus.publish]: [for fn in self._subs: fn(message)]. *)
Fixpoint call_each (subs : list Callback) (message : string) : M unit :=
  match subs with
  | [] => ret tt
  | fn :: rest => bind (fn message) (fun _ => call_each rest message)
  end.

(** An event that creates or writes a file. *)
Definition is_file_write (ev : Event) : bool :=
  match ev with
  | CallSavePNG _ _ | CallOpenWB _ | CallSaveFile _ _ => true
  | _ => false
  end.

(** The three attributes of the preview are all unset, or all set with
    [current_spec] referring to a spec of the store. *)
Definition preview_consistent (st : QRApp) : Prop :=
  (current_image st = None /\ current_qr st = None /\ current_spec st = None)
  \/ (exists img qr l s,
         current_image st = Some img /\ current_qr st = Some qr
         /\ current_spec st = Some l /\ specs st !! l = Some s).

(** The state that [set_preview] leaves when it has shown the image
    [img] of the QR object [qr] through the photo [ph], at the size
    [size], after building the spec [s]. *)
Definition previewed (img : Image) (qr : QRCode) (s : QRSpec)
    (ph : PhotoImage) (size : Z * Z) (st : QRApp) : QRApp :=
  set_status_var
    ("Preview " ++ PyStr.of_Z (fst size) ++ times ++ PyStr.of_Z (snd size))
    (set_label (Some ph) (label_text st)
       (set_preview_photo (Some ph)
          (set_current_spec (Some (length (specs st)))
             (set_specs (specs st ++ [s])
                (set_current_qr (Some qr)
                   (set_current_image (Some img) st)))))).

(** The state that [set_preview] leaves when a step after the building
    of the spec has raised: the attributes are set, the photo, the label
    and the status line are the old ones. *)
Definition preview_interrupted (img : Image) (qr : QRCode) (s : QRSpec)
    (st : QRApp) : QRApp :=
  set_current_spec (Some (length (specs st)))
    (set_specs (specs st ++ [s])
       (set_current_qr (Some qr) (set_current_image (Some img) st))).

(** The line that Generate puts on the bus. *)
Definition generated_message (s : QRSpec) : string :=
  "Generated QR (EC=" ++ error_level s
  ++ ", box=" ++ PyStr.of_Z (box_size s)
  ++ ", border=" ++ PyStr.of_Z (border s)
  ++ ", bg=" ++ name (background s) ++ ").".

(** The first of the four calls that make the image to raise. *)
Inductive image_failure (s : QRSpec) (e : Exn) : list Event -> Prop :=
| fails_new :
    qr_new None (err_map_get (error_level s)) (box_size s) (border s)
      DefaultFactory = Err e ->
    image_failure s e
      [CallQRCode None (err_map_get (error_level s)) (box_size s) (border s)
         DefaultFactory]
| fails_add_data q1 :
    qr_new None (err_map_get (error_level s)) (box_size s) (border s)
      DefaultFactory = Ok q1 ->
    qr_add_text q1 (data s) = Err e ->
    image_failure s e
      [CallQRCode None (err_map_get (error_level s)) (box_size s) (border s)
         DefaultFactory;
       CallAddText q1 (data s)]
| fails_make q1 q2 :
    qr_new None (err_map_get (error_level s)) (box_size s) (border s)
      DefaultFactory = Ok q1 ->
    qr_add_text q1 (data s) = Ok q2 ->
    qr_make q2 = Err e ->
    image_failure s e (setup_calls s q1 q2)
| fails_make_image q1 q2 q3 :
    qr_new None (err_map_get (error_level s)) (box_size s) (border s)
      DefaultFactory = Ok q1 ->
    qr_add_text q1 (data s) = Ok q2 ->
    qr_make q2 = Ok q3 ->
    qr_make_image q3 (fill_color s) (Some (back_color (background s))) = Err e ->
    image_failure s e
      (setup_calls s q1 q2
       ++ [CallMakeImage q3 (fill_color s)
             (Some (back_color (background s)))])%list.

(** A trace in which no file is created or written. *)
Definition writes_no_file (tr : list Event) : bool :=
  forallb (fun ev => negb (is_file_write ev)) tr.

(** The console of [st'] is the console of [st] with text added at its
    end. *)
Definition console_grown (st st' : QRApp) : Prop :=
  exists suffix, console_text st' = console_text st ++ suffix.

(** The state that Clear leaves. *)
Definition cleared (st : QRApp) : QRApp :=
  set_status_var "Cleared"
    (set_console_text
       (log_lines (bus_subs st) "Cleared." (console_text st))
       (set_preview_photo None
          (set_label None "No preview"
             (set_current_spec None
                (set_current_qr None
                   (set_current_image None (set_input_var "" st))))))).

(** The action is a save. *)
Definition is_save (a : UserAction) : bool :=
  match a with
  | PressSave _ => true
  | _ => false
  end.

End Bus.

(** *** Paths and extensions *)



(** *** Files and options *)

Section FileObservations.

Context {lib : External}.

(** The paths of the files that a trace creates or writes, in order. *)
Fixpoint written_paths (tr : list Event) : list string :=
  match tr with
  | [] => []
  | CallSavePNG _ p :: r => p :: written_paths r
  | CallOpenWB p :: r => p :: written_paths r
  | CallSaveFile _ p :: r => p :: written_paths r
  | _ :: r => written_paths r
  end.

(** The option widgets of [st'] hold what they hold in [st]. *)
Definition same_options (st st' : QRApp) : Prop :=
  ec_var st' = ec_var st
  /\ box_var st' = box_var st
  /\ border_var st' = border_var st
  /\ fill_var st' = fill_var st
  /\ bg_var st' = bg_var st.

End FileObservations.

(** The paths that the save dialog gave in a sequence of actions. *)
Fixpoint save_answers (acts : list UserAction) : list string :=
  match acts with
  | [] => []
  | PressSave answer :: rest => answer :: save_answers rest
  | _ :: rest => save_answers rest
  end.

(** The stand-in with a Tk that cannot take the image: [PhotoImage]
    raises, the others are as before. *)
Definition stub_without_photo : External := {|
  QRCode := Stub.qr;
  QRDataList := list string;
  Image := Stub.image;
  PhotoImage := Stub.image;
  qr_new := Stub.new;
  qr_add_text q s := Stub.add q [s];
  qr_add_list := Stub.add;
  qr_make := Stub.make;
  qr_make_image := Stub.make_image;
  qr_version := Stub.version;
  qr_error_correction := Stub.error_correction;
  qr_data_list := Stub.data_list;
  img_mode := Stub.mode;
  img_size := Stub.size;
  img_convert := Stub.convert;
  img_resize := Stub.resize;
  photo_image _ :=
    Err (Exception "TclError" "not enough free memory for image buffer");
  img_save_png _ path := Stub.write path;
  file_open_wb path := Stub.write path;
  img_save_file _ _ := Ok tt;
|}.

(** * Properties *)

(** Unfolds the plumbing of the monad and reduces what is decided. *)
Ltac run_m :=
  cbv beta iota delta
    [bind ret raise emit read modify lift call try_except].

(** The two cases of [except Exception] on the exception in the goal: a
    given exception is looked up, for any other both cases are kept. *)
Ltac exn_cases :=
  match goal with
  | |- context [is_Exception ?e] =>
      first [ is_var e; destruct (is_Exception e) eqn:?
            | let b := eval vm_compute in (is_Exception e) in
              change (is_Exception e) with b ];
      cbv beta iota
  end.

(** ** The encoder factory *)

Lemma for_extension_cases (x : string) :
  for_extension x =
    if String.eqb (PyStr.lstrip_char "." (PyStr.lower x)) "svg"
    then SVGEncoder else PNGEncoder.
Proof.
  unfold for_extension.
  destruct (String.eqb_spec (PyStr.lstrip_char "." (PyStr.lower x)) "png") as [E|E].
  - rewrite E. reflexivity.
  - reflexivity.
Qed.

(** C5. The factory has two cases: an extension that reads "png" once
    lowercased and stripped of its leading dots gives the PNG encoder and
    its save routine, one that reads "svg" gives the SVG encoder and its
    save routine. *)
Theorem for_extension_png_svg `{External} (x : string) :
  (PyStr.lstrip_char "." (PyStr.lower x) = "png" ->
   for_extension x = PNGEncoder /\ save (for_extension x) = PNGEncoder_save)
  /\
  (PyStr.lstrip_char "." (PyStr.lower x) = "svg" ->
   for_extension x = SVGEncoder /\ save (for_extension x) = SVGEncoder_save).
Proof.
  split; intros E; rewrite for_extension_cases, E; split; reflexivity.
Qed.

Lemma for_extension_png_svg_witness :
  (for_extension ".PNG" = PNGEncoder
   /\ save (for_extension ".PNG") = @PNGEncoder_save Stub.external)
  /\ (for_extension "Svg" = SVGEncoder
      /\ save (for_extension "Svg") = @SVGEncoder_save Stub.external).
Proof.
  split.
  - apply (proj1 (@for_extension_png_svg Stub.external ".PNG")). reflexivity.
  - apply (proj2 (@for_extension_png_svg Stub.external "Svg")). reflexivity.
Defined.

(** ** Python string operations on samples *)

Example strip_blank : PyStr.strip (" " ++ String (ascii_of_nat 9) " ") = "".
Proof. reflexivity. Qed.

Example strip_inner : PyStr.strip "  a b  " = "a b".
Proof. reflexivity. Qed.

Example split_path : PyStr.split "." "a.b/c.tar.GZ" = ["a"; "b/c"; "tar"; "GZ"].
Proof. reflexivity. Qed.

Example split_no_dot : PyStr.split "." "qr" = ["qr"].
Proof. reflexivity. Qed.

Example split_trailing_dot :
  PyStr.last_item (PyStr.split "." "qr.") = Some "".
Proof. reflexivity. Qed.

Example for_extension_empty : for_extension "" = PNGEncoder.
Proof. reflexivity. Qed.

Example of_Z_negative : PyStr.of_Z (-36) = "-36".
Proof. reflexivity. Qed.

(** ** Running the monad *)

Section MonadFacts.

Context {lib : External}.

Lemma bind_returns {A B} (m : M A) (k : A -> M B) st a st1 t1 :
  m st = (Returns a, st1, t1) ->
  bind m k st =
    (fst (fst (k a st1)), snd (fst (k a st1)), (t1 ++ snd (k a st1))%list).
Proof.
  intros E. unfold bind. rewrite E.
  destruct (k a st1) as [[o st2] t2]. reflexivity.
Qed.

Lemma bind_raises {A B} (m : M A) (k : A -> M B) st e st1 t1 :
  m st = (Raises e, st1, t1) -> bind m k st = (Raises e, st1, t1).
Proof. intros E. unfold bind. rewrite E. reflexivity. Qed.

Lemma deref_some l s st :
  specs st !! l = Some s -> deref l st = (Returns s, st, []).
Proof. intros E. unfold deref. rewrite E. reflexivity. Qed.

End MonadFacts.

(** ** Generate *)

Section GenerateFacts.

Context {lib : External}.

(** A text that is blank once stripped is refused with the warning,
    before any call into the libraries. *)
Lemma generate_blank (st : QRApp) (l : ref) (s : QRSpec) :
  specs st !! l = Some s ->
  PyStr.strip (data s) = "" ->
  GenerateQRCommand_execute l st = (Returns tt, st, [no_input_warning]).
Proof.
  intros Hl Hd. unfold GenerateQRCommand_execute.
  rewrite (bind_returns _ _ _ _ _ _ (deref_some _ _ _ Hl)).
  rewrite Hd. reflexivity.
Qed.

End GenerateFacts.

(** C1. When the text of the spec is empty, [GenerateQRCommand.execute]
    shows the warning dialog and returns: the warning is the only event,
    so no library call is made, and the application state, with its
    [current_image], [current_qr] and [current_spec], is the one before. *)
Theorem generate_empty_input_warns `{External} (st : QRApp) (l : ref) (s : QRSpec) :
  specs st !! l = Some s ->
  data s = "" ->
  GenerateQRCommand_execute l st
  = (Returns tt, st, [ShowWarning "No input" "Please enter some text/URL to encode."]).
Proof.
  intros Hl Hd. apply (generate_blank st l s Hl). rewrite Hd. reflexivity.
Qed.

Lemma generate_empty_input_warns_witness :
  let st := fst (@run Stub.external [PressGenerate] initial) in
  GenerateQRCommand_execute 0 st
  = (Returns tt, st, [ShowWarning "No input" "Please enter some text/URL to encode."]).
Proof.
  intros st.
  apply (@generate_empty_input_warns Stub.external st 0%nat
           {| data := ""; error_level := "M"; box_size := 10; border := 4;
              fill_color := "black"; background := WhiteBackground |});
    reflexivity.
Defined.

(** ** Traces *)

Section Traces.

Context {lib : External}.

Lemma published_app t1 t2 : published (t1 ++ t2) = (published t1 ++ published t2)%list.
Proof.
  induction t1 as [|ev t1 IH]; [reflexivity|].
  destruct ev; simpl; rewrite ?IH; reflexivity.
Qed.

Lemma dialogs_app t1 t2 : dialogs (t1 ++ t2) = (dialogs t1 ++ dialogs t2)%list.
Proof.
  induction t1 as [|ev t1 IH]; [reflexivity|].
  destruct ev; simpl; rewrite ?IH; reflexivity.
Qed.

Lemma calls_published tr : forallb is_call tr = true -> published tr = [].
Proof.
  induction tr as [|ev tr IH]; [reflexivity|].
  simpl. intros [Hev Htr]%andb_prop. destruct ev; try discriminate; auto.
Qed.

Lemma calls_dialogs tr : forallb is_call tr = true -> dialogs tr = [].
Proof.
  induction tr as [|ev tr IH]; [reflexivity|].
  simpl. intros [Hev Htr]%andb_prop. destruct ev; try discriminate; auto.
Qed.

(** An encoder talks to the libraries only: it leaves the application
    state alone, publishes nothing and shows no dialog. *)
Lemma save_calls_only enc qr path fill back bs bd st :
  snd (fst (save enc qr path fill back bs bd st)) = st
  /\ forallb is_call (snd (save enc qr path fill back bs bd st)) = true.
Proof.
  destruct enc; simpl.
  - unfold PNGEncoder_save, call, bind, emit, lift, ret, raise.
    destruct (qr_make_image qr fill (Some back)) as [img|e]; simpl; [|auto].
    destruct (String.eqb back "transparent"); simpl.
    + destruct (img_convert img "RGBA") as [img'|e]; simpl; [|auto].
      destruct (img_save_png img' path); simpl; auto.
    + destruct (img_save_png img path); simpl; auto.
  - unfold SVGEncoder_save, call, bind, emit, lift, ret, raise.
    destruct (qr_new _ _ bs bd SvgImage) as [q1|e]; simpl; [|auto].
    destruct (qr_add_list q1 _) as [q2|e]; simpl; [|auto].
    destruct (qr_make q2) as [q3|e]; simpl; [|auto].
    destruct (qr_make_image q3 fill None) as [img|e]; simpl; [|auto].
    destruct (file_open_wb path) as [u|e]; simpl; [|auto].
    destruct (img_save_file img path); simpl; auto.
Qed.

End Traces.

(** ** Save *)

Lemma split_not_nil (sep : ascii) (s : string) : PyStr.split sep s <> [].
Proof.
  induction s as [|c r IH]; simpl; [discriminate|].
  destruct (Ascii.eqb c sep); [discriminate|].
  destruct (PyStr.split sep r); [contradiction|discriminate].
Qed.

(** [path.split(".")[-1]] never raises. *)
Lemma split_last_item (sep : ascii) (s : string) :
  exists x, PyStr.last_item (PyStr.split sep s) = Some x.
Proof.
  unfold PyStr.last_item.
  destruct (last (PyStr.split sep s)) as [x|] eqn:E; [eauto|].
  apply last_None in E. destruct (split_not_nil _ _ E).
Qed.

Lemma truthy_nonempty (s : string) : s <> "" -> PyStr.truthy s = true.
Proof. destruct s; [contradiction|reflexivity]. Qed.

Section SaveFacts.

Context {lib : External}.

Lemma publish_console message st :
  bus_subs st = [ConsoleWrite] ->
  publish message st = (Returns tt, logged message st, [Publish message]).
Proof.
  intros Hs. unfold publish, bind, emit, read. rewrite Hs. reflexivity.
Qed.

(** A save whose encoder raises: the run, step by step. *)
Lemma save_raises_run st answer x l s q0 q1 q2 q3 e :
  current_qr st = Some q0 ->
  answer <> "" ->
  PyStr.last_item (PyStr.split "." answer) = Some x ->
  current_spec st = Some l ->
  specs st !! l = Some s ->
  bus_subs st = [ConsoleWrite] ->
  qr_new None (err_map_get (error_level s)) (box_size s) (border s)
    DefaultFactory = Ok q1 ->
  qr_add_text q1 (data s) = Ok q2 ->
  qr_make q2 = Ok q3 ->
  fst (fst (save (for_extension x) q3 answer (fill_color s)
              (back_color (background s)) (box_size s) (border s) st))
  = Raises e ->
  is_Exception e = true ->
  SaveQRCommand_execute answer st
  = (Returns tt,
     logged ("ERROR saving: " ++ exn_str e) st,
     (AskSaveAsFilename answer :: setup_calls s q1 q2
      ++ snd (save (for_extension x) q3 answer (fill_color s)
                (back_color (background s)) (box_size s) (border s) st)
      ++ [Publish ("ERROR saving: " ++ exn_str e); save_failed_dialog e])%list).
Proof.
  intros Hq Ha Hx Hc Hl Hb H1 H2 H3 Hs He.
  destruct (save_calls_only (for_extension x) q3 answer (fill_color s)
              (back_color (background s)) (box_size s) (border s) st)
    as [Hst _].
  destruct (save (for_extension x) q3 answer (fill_color s)
              (back_color (background s)) (box_size s) (border s) st)
    as [[o st'] tr] eqn:Es.
  simpl in Hs, Hst. subst o st'.
  unfold SaveQRCommand_execute. run_m.
  rewrite Hq, (truthy_nonempty _ Ha), Hx. cbn [negb]. run_m.
  rewrite Hc. unfold deref. rewrite Hl. run_m.
  rewrite H1. run_m. rewrite H2. run_m. rewrite H3. run_m.
  rewrite Es. run_m. rewrite He.
  rewrite (publish_console _ _ Hb). cbn [app fst snd setup_calls].
  reflexivity.
Qed.

(** A save whose encoder raises an exception of a class outside
    [Exception]: the handler does not take it. *)
Lemma save_escapes_run st answer x l s q0 q1 q2 q3 e :
  current_qr st = Some q0 ->
  answer <> "" ->
  PyStr.last_item (PyStr.split "." answer) = Some x ->
  current_spec st = Some l ->
  specs st !! l = Some s ->
  qr_new None (err_map_get (error_level s)) (box_size s) (border s)
    DefaultFactory = Ok q1 ->
  qr_add_text q1 (data s) = Ok q2 ->
  qr_make q2 = Ok q3 ->
  fst (fst (save (for_extension x) q3 answer (fill_color s)
              (back_color (background s)) (box_size s) (border s) st))
  = Raises e ->
  is_Exception e = false ->
  SaveQRCommand_execute answer st
  = (Raises e, st,
     (AskSaveAsFilename answer :: setup_calls s q1 q2
      ++ snd (save (for_extension x) q3 answer (fill_color s)
                (back_color (background s)) (box_size s) (border s) st))%list).
Proof.
  intros Hq Ha Hx Hc Hl H1 H2 H3 Hs He.
  destruct (save_calls_only (for_extension x) q3 answer (fill_color s)
              (back_color (background s)) (box_size s) (border s) st)
    as [Hst _].
  destruct (save (for_extension x) q3 answer (fill_color s)
              (back_color (background s)) (box_size s) (border s) st)
    as [[o st'] tr] eqn:Es.
  simpl in Hs, Hst. subst o st'.
  unfold SaveQRCommand_execute. run_m.
  rewrite Hq, (truthy_nonempty _ Ha), Hx. cbn [negb]. run_m.
  rewrite Hc. unfold deref. rewrite Hl. run_m.
  rewrite H1. run_m. rewrite H2. run_m. rewrite H3. run_m.
  rewrite Es. run_m. rewrite He. cbn [app fst snd setup_calls].
  reflexivity.
Qed.

End SaveFacts.

(** C2. When the save routine of the encoder raises [e] during a save
    and [e] is of a class derived from [Exception],
    [SaveQRCommand.execute] returns normally: the exception is caught.
    One message goes to the bus, "ERROR saving: " followed by [str(e)],
    and one line of the console holds it; no success message is published.
    The dialogs are the file dialog and then the error dialog; the
    "Saved" dialog is not shown. [current_image], [current_qr],
    [current_spec] and the stored specs are unchanged, the state differs
    by the console line only. When [e] is of a class outside [Exception]
    (KeyboardInterrupt, SystemExit, GeneratorExit), the clause
    [except Exception] does not take it: [e] leaves the command, no
    message is published, no error dialog is shown and the state is
    unchanged. *)
Theorem save_failure_reported `{External}
    (st : QRApp) (answer x : string) (l : ref) (s : QRSpec)
    (q0 q1 q2 q3 : QRCode) (e : Exn) :
  current_qr st = Some q0 ->
  answer <> "" ->
  PyStr.last_item (PyStr.split "." answer) = Some x ->
  current_spec st = Some l ->
  specs st !! l = Some s ->
  bus_subs st = [ConsoleWrite] ->
  qr_new None (err_map_get (error_level s)) (box_size s) (border s)
    DefaultFactory = Ok q1 ->
  qr_add_text q1 (data s) = Ok q2 ->
  qr_make q2 = Ok q3 ->
  fst (fst (save (for_extension x) q3 answer (fill_color s)
              (back_color (background s)) (box_size s) (border s) st))
  = Raises e ->
  let r := SaveQRCommand_execute answer st in
  let st' := snd (fst r) in
  (is_Exception e = true ->
   fst (fst r) = Returns tt
   /\ published (snd r) = ["ERROR saving: " ++ exn_str e]
   /\ dialogs (snd r)
      = [AskSaveAsFilename answer;
         ShowError "Save failed" ("Could not save file:" ++ nl ++ exn_str e)]
   /\ st' = set_console_text
              (console_text st ++ (("ERROR saving: " ++ exn_str e) ++ nl)) st
   /\ current_image st' = current_image st
   /\ current_qr st' = current_qr st
   /\ current_spec st' = current_spec st
   /\ specs st' = specs st)
  /\ (is_Exception e = false ->
      fst (fst r) = Raises e
      /\ published (snd r) = []
      /\ dialogs (snd r) = [AskSaveAsFilename answer]
      /\ st' = st).
Proof.
  intros Hq Ha Hx Hc Hl Hb H1 H2 H3 Hs r st'. subst r st'.
  destruct (save_calls_only (for_extension x) q3 answer (fill_color s)
              (back_color (background s)) (box_size s) (border s) st)
    as [_ Hcalls].
  split; intros He.
  - rewrite (save_raises_run st answer x l s q0 q1 q2 q3 e) by assumption.
    cbn [fst snd].
    repeat split.
    + cbn [published setup_calls app]. rewrite published_app.
      rewrite (calls_published _ Hcalls). reflexivity.
    + cbn [dialogs setup_calls app]. rewrite dialogs_app.
      rewrite (calls_dialogs _ Hcalls). reflexivity.
  - rewrite (save_escapes_run st answer x l s q0 q1 q2 q3 e) by assumption.
    cbn [fst snd].
    repeat split.
    + cbn [published setup_calls app].
      exact (calls_published _ Hcalls).
    + cbn [dialogs setup_calls app].
      rewrite (calls_dialogs _ Hcalls). reflexivity.
Qed.

Lemma save_failure_reported_witness :
  let st := fst (@run Stub.external [TypeInput "hello"; PressGenerate] initial) in
  let r := SaveQRCommand_execute "/missing/out.png" st in
  let e := Exception "FileNotFoundError"
             "[Errno 2] No such file or directory: '/missing/out.png'" in
  let st' := snd (fst r) in
  fst (fst r) = Returns tt
  /\ published (snd r) = ["ERROR saving: " ++ exn_str e]
  /\ dialogs (snd r)
     = [AskSaveAsFilename "/missing/out.png";
        ShowError "Save failed" ("Could not save file:" ++ nl ++ exn_str e)]
  /\ st' = set_console_text
             (console_text st ++ (("ERROR saving: " ++ exn_str e) ++ nl)) st
  /\ current_image st' = current_image st
  /\ current_qr st' = current_qr st
  /\ current_spec st' = current_spec st
  /\ specs st' = specs st.
Proof.
  intros st r e.
  pose (s := {| data := "hello"; error_level := "M"; box_size := 10;
                border := 4; fill_color := "black";
                background := WhiteBackground |}).
  pose (q1 := {| Stub.version := None; Stub.error_correction := ERROR_CORRECT_M;
                 Stub.qr_box_size := 10; Stub.qr_border := 4;
                 Stub.factory := DefaultFactory; Stub.data_list := [] |}).
  pose (q2 := {| Stub.version := None; Stub.error_correction := ERROR_CORRECT_M;
                 Stub.qr_box_size := 10; Stub.qr_border := 4;
                 Stub.factory := DefaultFactory; Stub.data_list := ["hello"] |}).
  pose (q3 := {| Stub.version := Some 1%Z; Stub.error_correction := ERROR_CORRECT_M;
                 Stub.qr_box_size := 10; Stub.qr_border := 4;
                 Stub.factory := DefaultFactory; Stub.data_list := ["hello"] |}).
  apply (@save_failure_reported Stub.external st "/missing/out.png" "png"
           1%nat s q3 q1 q2 q3 e);
    first [reflexivity | discriminate].
Defined.

(** A save that is interrupted is not reported: with the stand-in whose
    [img.save] raises KeyboardInterrupt, the routine of the encoder
    raises, and the command raises too; nothing is published, and the one
    dialog is the file dialog. *)
Lemma interrupted_save_not_reported :
  let st := fst (@run stub_interrupted [TypeInput "hello"; PressGenerate]
                   initial) in
  let q := {| Stub.version := Some 1%Z; Stub.error_correction := ERROR_CORRECT_M;
              Stub.qr_box_size := 10; Stub.qr_border := 4;
              Stub.factory := DefaultFactory; Stub.data_list := ["hello"] |} in
  let r := SaveQRCommand_execute "out.png" st in
  fst (fst (@PNGEncoder_save stub_interrupted q "out.png" "black" "white"
              10 4 st))
  = Raises (Exception "KeyboardInterrupt" "")
  /\ fst (fst r) = Raises (Exception "KeyboardInterrupt" "")
  /\ published (snd r) = []
  /\ dialogs (snd r) = [AskSaveAsFilename "out.png"].
Proof.
  intros st q r.
  split; [|split; [|split]]; vm_compute; reflexivity.
Qed.

(** ** What the actions leave alone *)

Section Frames.

Context {lib : External}.

Lemma publish_to_run subs message st :
  publish_to subs message st
  = (Returns tt,
     set_console_text (log_lines subs message (console_text st)) st, []).
Proof.
  revert st. induction subs as [|fn rest IH]; intros st.
  - destruct st; reflexivity.
  - destruct fn. cbn [publish_to notify]. unfold GuiLogger_write. run_m.
    rewrite IH. destruct st; reflexivity.
Qed.

Lemma publish_run message st :
  publish message st
  = (Returns tt,
     set_console_text (log_lines (bus_subs st) message (console_text st)) st,
     [Publish message]).
Proof. unfold publish. run_m. rewrite publish_to_run. reflexivity. Qed.

Lemma build_spec_ok st bs bd :
  box_var st = Ok bs -> border_var st = Ok bd ->
  exists s, widget_spec st = Some s
    /\ _build_spec st
       = (Returns (length (specs st)), set_specs (specs st ++ [s]) st, []).
Proof.
  intros Hb Hd. unfold widget_spec, _build_spec, new_spec. run_m.
  rewrite Hb, Hd. eexists. split; reflexivity.
Qed.

Lemma build_spec_raises st :
  widget_spec st = None ->
  exists e, _build_spec st = (Raises e, st, []).
Proof.
  unfold widget_spec, _build_spec, new_spec. run_m.
  destruct (box_var st) as [bs|e]; [|eauto].
  destruct (border_var st) as [bd|e]; [discriminate|eauto].
Qed.

(** Clear empties the text and drops the preview; the store of specs
    and the other widgets stay. *)
Lemma on_clear_frame st :
  extends_with [] (set_input_var "" st) (fst (run_callback on_clear st)).
Proof.
  unfold run_callback, on_clear, set_preview. run_m.
  rewrite publish_run. cbn. unfold extends_with.
  rewrite app_nil_r. repeat split; reflexivity.
Qed.

Lemma extends_with_trans a b st1 st2 st3 :
  extends_with a st1 st2 -> extends_with b st2 st3 ->
  extends_with (a ++ b) st1 st3.
Proof.
  unfold extends_with.
  intros (A1 & A2 & A3 & A4 & A5 & A6 & A7 & A8)
         (B1 & B2 & B3 & B4 & B5 & B6 & B7 & B8).
  rewrite B8, A8, <- app_assoc. repeat split; congruence.
Qed.

Lemma extends_with_widget_spec added st st' :
  extends_with added st st' -> widget_spec st' = widget_spec st.
Proof.
  unfold extends_with, widget_spec.
  intros (A1 & A2 & A3 & A4 & A5 & A6 & A7 & A8).
  rewrite A1, A2, A3, A4, A5, A6. reflexivity.
Qed.

(** [set_preview] with an image builds one spec from the widgets, unless
    a number field holds no number. *)
Lemma set_preview_some_frame img qr st :
  extends_with (match widget_spec st with Some s => [s] | None => [] end)
    st (snd (fst (set_preview (Some img) (Some qr) st))).
Proof.
  unfold set_preview, _build_spec, new_spec, widget_spec. run_m. cbn.
  destruct (box_var st) as [bs|e]; cbn.
  2:{ unfold extends_with. cbn. rewrite app_nil_r. repeat split; reflexivity. }
  destruct (border_var st) as [bd|e]; cbn.
  2:{ unfold extends_with. cbn. rewrite app_nil_r. repeat split; reflexivity. }
  destruct (img_size img) as [w h].
  destruct (preview_size AppConfig.preview_max w h) as [sz|e]; cbn;
    [|repeat split; reflexivity].
  destruct (img_resize img sz) as [d|e]; cbn; [|repeat split; reflexivity].
  destruct (photo_image d) as [ph|e]; cbn; repeat split; reflexivity.
Qed.

(** A save changes the console and nothing else. *)
Lemma save_command_state answer st :
  exists text,
    snd (fst (SaveQRCommand_execute answer st)) = set_console_text text st.
Proof.
  assert (Hid : st = set_console_text (console_text st) st)
    by (destruct st; reflexivity).
  assert (Hset : forall t1 t2,
    set_console_text t2 (set_console_text t1 st) = set_console_text t2 st)
    by reflexivity.
  unfold SaveQRCommand_execute. run_m.
  destruct (current_qr st); cbn [fst snd]; [|eauto].
  destruct (PyStr.truthy answer); cbn [negb fst snd]; [|eauto].
  destruct (PyStr.last_item (PyStr.split "." answer)) as [x|];
    cbn [fst snd]; [|eauto].
  destruct (current_spec st) as [l|]; cbn [fst snd].
  2:{ exn_cases. rewrite publish_run. cbn [fst snd]. eauto. }
  unfold deref. destruct (specs st !! l) as [s|]; cbn [fst snd]; [|eauto].
  destruct (qr_new _ _ _ _ _) as [q1|e]; cbn [fst snd].
  2:{ exn_cases; [|eauto]. rewrite publish_run. cbn [fst snd]. eauto. }
  destruct (qr_add_text q1 _) as [q2|e]; cbn [fst snd].
  2:{ exn_cases; [|eauto]. rewrite publish_run. cbn [fst snd]. eauto. }
  destruct (qr_make q2) as [q3|e]; cbn [fst snd].
  2:{ exn_cases; [|eauto]. rewrite publish_run. cbn [fst snd]. eauto. }
  destruct (save_calls_only (for_extension x) q3 answer (fill_color s)
              (back_color (background s)) (box_size s) (border s) st)
    as [Hst _].
  destruct (save _ _ _ _ _ _ _ st) as [[o st1] t1]. cbn [fst snd] in Hst.
  subst st1. destruct o as [[]|e|]; cbn [fst snd].
  - rewrite publish_run. cbn [fst snd]. eauto.
  - exn_cases; [|eauto]. rewrite publish_run. cbn [fst snd]. eauto.
  - eauto.
Qed.

Lemma on_save_frame answer st :
  extends_with [] st (fst (run_callback (on_save answer) st)).
Proof.
  unfold run_callback, on_save.
  destruct (save_command_state answer st) as [text E].
  destruct (SaveQRCommand_execute answer st) as [[o st'] tr].
  cbn [fst snd] in *. subst st'. unfold extends_with. cbn.
  rewrite app_nil_r. repeat split; reflexivity.
Qed.

Lemma lookup_new_spec (l : list QRSpec) (s : QRSpec) :
  ((l ++ [s])%list) !! length l = Some s.
Proof. apply list_lookup_middle. reflexivity. Qed.

(** Generate builds its spec from the widgets, and a second one when the
    preview is set; without numbers in the number fields it builds none. *)
Lemma on_generate_frame st :
  exists added,
    extends_with added st (fst (run_callback on_generate st))
    /\ (added = []
        \/ exists s, widget_spec st = Some s
                     /\ (added = [s] \/ added = [s; s])).
Proof.
  assert (Hrefl : extends_with [] st st)
    by (unfold extends_with; rewrite app_nil_r; repeat split; reflexivity).
  unfold run_callback, on_generate.
  destruct (widget_spec st) as [s|] eqn:Ew.
  2:{ destruct (build_spec_raises st Ew) as [e E].
      rewrite (bind_raises _ _ _ _ _ _ E). exists []. auto. }
  assert (exists bs bd, box_var st = Ok bs /\ border_var st = Ok bd)
    as (bs & bd & Hb & Hd).
  { unfold widget_spec in Ew. destruct (box_var st); [|discriminate].
    destruct (border_var st); [eauto|discriminate]. }
  destruct (build_spec_ok st bs bd Hb Hd) as (s' & Ew' & E).
  rewrite Ew in Ew'. injection Ew' as <-.
  rewrite (bind_returns _ _ _ _ _ _ E).
  set (st1 := set_specs (specs st ++ [s]) st).
  assert (H1 : extends_with [s] st st1) by (repeat split; reflexivity).
  assert (Hone : exists added, extends_with added st st1
            /\ (added = [] \/ exists s0, Some s = Some s0
                                /\ (added = [s0] \/ added = [s0; s0])))
    by (exists [s]; split; [exact H1|right; exists s; auto]).
  unfold GenerateQRCommand_execute.
  rewrite (bind_returns _ _ _ _ _ _ (deref_some _ _ st1 (lookup_new_spec _ _))).
  destruct (negb (PyStr.truthy (PyStr.strip (data s)))); [exact Hone|].
  run_m.
  destruct (qr_new _ _ _ _ _) as [q1|e]; cbn [fst snd]; [|exact Hone].
  destruct (qr_add_text q1 _) as [q2|e]; cbn [fst snd]; [|exact Hone].
  destruct (qr_make q2) as [q3|e]; cbn [fst snd]; [|exact Hone].
  destruct (qr_make_image q3 _ _) as [img|e]; cbn [fst snd]; [|exact Hone].
  assert (Hpre : forall img', exists added,
            extends_with added st
              (snd (fst (set_preview (Some img') (Some q3) st1)))
            /\ (added = [] \/ exists s0, Some s = Some s0
                                /\ (added = [s0] \/ added = [s0; s0]))).
  { intros img'. exists [s; s]. split; [|eauto].
    pose proof (set_preview_some_frame img' q3 st1) as H2.
    rewrite (extends_with_widget_spec _ _ _ H1), Ew in H2.
    exact (extends_with_trans _ _ _ _ _ H1 H2). }
  assert (Hlog : forall img', exists added,
            extends_with added st
              (fst (run_callback
                 (bind (set_preview (Some img') (Some q3))
                    (fun _ => publish
                       ("Generated QR (EC=" ++ error_level s
                        ++ ", box=" ++ PyStr.of_Z (box_size s)
                        ++ ", border=" ++ PyStr.of_Z (border s)
                        ++ ", bg=" ++ name (background s) ++ ").")))
                 st1))
            /\ (added = [] \/ exists s0, Some s = Some s0
                                /\ (added = [s0] \/ added = [s0; s0]))).
  { intros img'. destruct (Hpre img') as (added & Hext & Hadd).
    exists added. split; [|exact Hadd].
    unfold run_callback, bind.
    destruct (set_preview (Some img') (Some q3) st1) as [[o st2] t2].
    cbn [fst snd] in Hext.
    destruct o as [[]|e|]; cbn [fst snd]; [|exact Hext|exact Hext].
    rewrite publish_run. cbn [fst snd].
    destruct Hext as (A1 & A2 & A3 & A4 & A5 & A6 & A7 & A8).
    repeat split; assumption. }
  unfold run_callback, bind in Hlog.
  destruct (img_convert img "RGBA") as [img1|e]; cbn [fst snd app].
  - specialize (Hlog img1).
    destruct (set_preview (Some img1) (Some q3) st1) as [[o st2] t2].
    destruct o as [[]|e|]; cbn [fst snd] in *; try exact Hlog.
    destruct (publish _ st2) as [[o3 st3] t3]. exact Hlog.
  - exn_cases; [|exact Hone].
    destruct (img_convert img "RGB") as [img1|e']; cbn [fst snd app];
      [|exact Hone].
    specialize (Hlog img1).
    destruct (set_preview (Some img1) (Some q3) st1) as [[o st2] t2].
    destruct o as [[]|e0|]; cbn [fst snd] in *; try exact Hlog.
    destruct (publish _ st2) as [[o3 st3] t3]. exact Hlog.
Qed.

(** Pressing Generate on an empty text field: a spec is built from the
    widgets, the warning is shown, and nothing else happens. *)
Lemma on_generate_empty_input (st : QRApp) (bs bd : Z) :
  input_var st = "" -> box_var st = Ok bs -> border_var st = Ok bd ->
  exists s,
    widget_spec st = Some s
    /\ on_generate st
       = (Returns tt, set_specs (specs st ++ [s]) st, [no_input_warning]).
Proof.
  intros Hi Hb Hd.
  destruct (build_spec_ok st bs bd Hb Hd) as (s & Hw & Hbuild).
  exists s. split; [exact Hw|].
  unfold on_generate. rewrite (bind_returns _ _ _ _ _ _ Hbuild).
  rewrite (generate_blank _ (length (specs st)) s).
  - reflexivity.
  - apply list_lookup_middle. reflexivity.
  - unfold widget_spec in Hw. rewrite Hb, Hd in Hw.
    injection Hw as <-. cbn [data]. rewrite Hi. reflexivity.
Qed.

End Frames.

(** ** The store of specs *)

Section Store.

Context {lib : External}.

(** The store after an action: the one before, followed by the specs the
    action has built. *)
Lemma step_specs (a : UserAction) (st : QRApp) :
  exists added,
    specs (fst (step a st)) = (specs st ++ added)%list
    /\ ec_var (fst (step a st))
       = match a with
         | SelectErrorCorrection i => default (ec_var st) (ec_values !! i)
         | _ => ec_var st
         end
    /\ bus_subs (fst (step a st)) = bus_subs st
    /\ match a with
       | PressGenerate =>
           added = []
           \/ exists s, widget_spec st = Some s
                        /\ (added = [s] \/ added = [s; s])
       | _ => added = []
       end.
Proof.
  destruct a; cbn [step].
  1-6: exists []; rewrite app_nil_r;
       try (destruct (ec_values !! index)); repeat split; reflexivity.
  - destruct (on_generate_frame st) as (added & Hext & Hadd).
    exists added. destruct Hext as (A1 & A2 & A3 & A4 & A5 & A6 & A7 & A8).
    auto.
  - pose proof (on_save_frame answer st)
      as (A1 & A2 & A3 & A4 & A5 & A6 & A7 & A8).
    exists []. auto.
  - pose proof (on_clear_frame st)
      as (A1 & A2 & A3 & A4 & A5 & A6 & A7 & A8).
    exists []. auto.
Qed.

End Store.

(** Save does not rebuild the spec from the widgets: in that state the
    widgets stand for a spec of level H, Save builds no spec, and the one
    code it asks the library for is at level L, the level of the spec
    stored by Generate. *)
Lemma save_reuses_stored_spec :
  let st := level_changed_after_generate in
  let r := step (PressSave "out.png") st in
  (error_level <$> widget_spec st) = Some "H"
  /\ specs (fst r) = specs st
  /\ (error_level <$> (current_spec st ≫= (specs st !!.))) = Some "L"
  /\ requested_levels (snd r) = [ERROR_CORRECT_L].
Proof.
  intros st r. split; [|split; [|split]]; vm_compute; reflexivity.
Qed.

(** ** Error-correction levels *)

Section Levels.

Context {lib : External}.

(** The trace of a computation that starts with a library call starts
    with that call. *)
Lemma bind_call_trace {A B} ev (r : Result A) (k : A -> M B) st :
  exists rest, snd (bind (call ev r) k st) = ev :: rest.
Proof.
  run_m. destruct r as [a|e]; cbn [fst snd app]; [|eauto].
  destruct (k a st) as [[o st2] t2]. cbn [fst snd app]. eauto.
Qed.

Lemma try_except_trace {A} (body : M A) (h : Exn -> M A) st ev :
  (exists rest, snd (body st) = ev :: rest) ->
  exists rest', snd (try_except body h st) = ev :: rest'.
Proof.
  unfold try_except. destruct (body st) as [[o st1] t1]. cbn [snd].
  intros [rest ->]. destruct o as [a|e|]; [eauto| |eauto].
  destruct (is_Exception e); [|eauto].
  destruct (h e st1) as [[o2 st2] t2]. cbn [snd app]. eauto.
Qed.

(** Generate, on a text that is not blank, starts by asking the library
    for a QR object at the level that [err_map] gives for the spec. *)
Lemma generate_first_call st l s :
  specs st !! l = Some s ->
  PyStr.strip (data s) <> "" ->
  exists rest,
    snd (GenerateQRCommand_execute l st)
    = CallQRCode None (err_map_get (error_level s)) (box_size s) (border s)
        DefaultFactory :: rest.
Proof.
  intros Hl Hd. unfold GenerateQRCommand_execute.
  rewrite (bind_returns _ _ _ _ _ _ (deref_some _ _ _ Hl)).
  rewrite (truthy_nonempty _ Hd). cbn [negb fst snd app].
  apply bind_call_trace.
Qed.

(** Save, once the dialog has given a path, does the same with the
    stored spec. *)
Lemma save_first_calls st answer l s q0 :
  current_qr st = Some q0 ->
  answer <> "" ->
  current_spec st = Some l ->
  specs st !! l = Some s ->
  exists rest,
    snd (SaveQRCommand_execute answer st)
    = AskSaveAsFilename answer
      :: CallQRCode None (err_map_get (error_level s)) (box_size s) (border s)
           DefaultFactory :: rest.
Proof.
  intros Hq Ha Hc Hl.
  destruct (split_last_item "." answer) as [x Hx].
  unfold SaveQRCommand_execute.
  unfold bind at 1. unfold read at 1. rewrite Hq.
  rewrite (truthy_nonempty _ Ha), Hx. cbn [negb].
  unfold bind at 1. unfold emit at 1.
  unfold bind at 1. unfold ret at 1.
  match goal with
  | |- context [try_except ?b ?h st] =>
      destruct (try_except_trace b h st
                  (CallQRCode None (err_map_get (error_level s)) (box_size s)
                     (border s) DefaultFactory)) as [rest Hrest];
        [|destruct (try_except b h st) as [[o st2] t2]]
  end.
  - unfold bind at 1. unfold read at 1. rewrite Hc.
    rewrite (bind_returns _ _ _ _ _ _ (deref_some _ _ _ Hl)).
    cbn [snd app]. apply bind_call_trace.
  - cbn [snd] in Hrest. subst t2. cbn [fst snd app]. eauto.
Qed.

Lemma err_map_get_default level :
  level <> "L" -> level <> "M" -> level <> "Q" -> level <> "H" ->
  err_map_get level = ERROR_CORRECT_M.
Proof.
  intros HL HM HQ HH. unfold err_map_get, err_map. cbn [dict_get].
  rewrite (proj2 (String.eqb_neq _ _) HL), (proj2 (String.eqb_neq _ _) HM),
    (proj2 (String.eqb_neq _ _) HQ), (proj2 (String.eqb_neq _ _) HH).
  reflexivity.
Qed.

(** In every state the user can reach, the error-correction box holds
    one of its four values, and so does every spec built so far. *)
Lemma reachable_levels st :
  reachable st ->
  In (ec_var st) ec_values
  /\ Forall (fun s => In (error_level s) ec_values) (specs st)
  /\ bus_subs st = [ConsoleWrite].
Proof.
  induction 1 as [|a st Hr (IHe & IHs & IHb)].
  - split; [|split]; [right; left; reflexivity|constructor|reflexivity].
  - destruct (step_specs a st) as (added & Hs & He & Hb & Ha).
    assert (Hnew : In (ec_var (fst (step a st))) ec_values).
    { rewrite He. destruct a; try exact IHe.
      destruct (ec_values !! index) as [v|] eqn:Ev; [|exact IHe].
      apply list_elem_of_In, list_elem_of_lookup_2 with index. exact Ev. }
    split; [exact Hnew|]. split; [|congruence].
    rewrite Hs. apply Forall_app. split; [exact IHs|].
    assert (Hw : forall s, widget_spec st = Some s ->
                           In (error_level s) ec_values).
    { unfold widget_spec. intros s Hsome.
      destruct (box_var st); [|discriminate].
      destruct (border_var st); [|discriminate].
      injection Hsome as <-. exact IHe. }
    destruct a; try (rewrite Ha; constructor).
    destruct Ha as [->|(s & Hsome & [->| ->])];
      repeat (apply Forall_cons_2; [apply Hw; exact Hsome|]);
      apply Forall_nil_2.
Qed.

End Levels.

Lemma reachable_run `{External} (acts : list UserAction) (st : QRApp) :
  reachable st -> reachable (fst (run acts st)).
Proof.
  revert st. induction acts as [|a rest IH]; intros st Hr; [exact Hr|].
  cbn [run]. pose proof (IH _ (reachable_step a st Hr)) as Hrest.
  destruct (step a st) as [st1 t1]. cbn [fst] in Hrest.
  destruct (run rest st1) as [st2 t2]. exact Hrest.
Qed.

(** C4. In every state the user can reach, each spec that has been built
    and the spec that the widgets stand for have one of the four letters
    L, M, Q, H as error level. [err_map] sends each letter to the library
    constant of the same letter, and Generate asks the library for a QR
    object with the constant that [err_map] gives for the level of its
    spec. *)
Theorem error_level_enumerated_and_mapped `{External} (st : QRApp) :
  reachable st ->
  (forall l s, specs st !! l = Some s ->
               In (error_level s) ["L"; "M"; "Q"; "H"])
  /\ (forall s, widget_spec st = Some s ->
                In (error_level s) ["L"; "M"; "Q"; "H"])
  /\ err_map_get "L" = ERROR_CORRECT_L
  /\ err_map_get "M" = ERROR_CORRECT_M
  /\ err_map_get "Q" = ERROR_CORRECT_Q
  /\ err_map_get "H" = ERROR_CORRECT_H
  /\ (forall l s, specs st !! l = Some s ->
        PyStr.strip (data s) <> "" ->
        exists rest,
          snd (GenerateQRCommand_execute l st)
          = CallQRCode None (err_map_get (error_level s)) (box_size s)
              (border s) DefaultFactory :: rest).
Proof.
  intros Hr. destruct (reachable_levels st Hr) as (He & Hs & _).
  split; [|split; [|repeat split]].
  - intros l s Hl. rewrite Forall_forall in Hs. apply Hs.
    apply list_elem_of_lookup_2 with l. exact Hl.
  - unfold widget_spec. intros s Hsome.
    destruct (box_var st); [|discriminate].
    destruct (border_var st); [|discriminate].
    injection Hsome as <-. exact He.
  - intros l s Hl Hd. exact (generate_first_call st l s Hl Hd).
Qed.

Lemma error_level_enumerated_and_mapped_witness :
  let st := fst (@run Stub.external
                   [TypeInput "hello"; SelectErrorCorrection 3; PressGenerate]
                   initial) in
  let s := {| data := "hello"; error_level := "H"; box_size := 10; border := 4;
              fill_color := "black"; background := WhiteBackground |} in
  specs st !! 0%nat = Some s
  /\ In (error_level s) ["L"; "M"; "Q"; "H"]
  /\ exists rest,
       snd (GenerateQRCommand_execute 0 st)
       = CallQRCode None ERROR_CORRECT_H 10 4 DefaultFactory :: rest.
Proof.
  intros st s.
  assert (Hl : specs st !! 0%nat = Some s) by reflexivity.
  destruct (@error_level_enumerated_and_mapped Stub.external st
              (reachable_run _ _ reachable_initial))
    as (Hstore & _ & _ & _ & _ & _ & Hgen).
  split; [exact Hl|]. split; [exact (Hstore 0%nat s Hl)|].
  apply (Hgen 0%nat s Hl). discriminate.
Defined.

(** C8. A level that is none of L, M, Q, H is not refused: [err_map]
    gives the medium constant for it, Generate starts by asking the
    library for a QR object at that constant, with no dialog before, and
    Save does so once the file dialog has given a path. *)
Theorem unknown_level_falls_back_to_medium `{External} (level : string) :
  level <> "L" -> level <> "M" -> level <> "Q" -> level <> "H" ->
  err_map_get level = ERROR_CORRECT_M
  /\ (forall st l s,
        specs st !! l = Some s -> error_level s = level ->
        PyStr.strip (data s) <> "" ->
        exists rest,
          snd (GenerateQRCommand_execute l st)
          = CallQRCode None ERROR_CORRECT_M (box_size s) (border s)
              DefaultFactory :: rest)
  /\ (forall st answer l s q0,
        current_qr st = Some q0 -> answer <> "" ->
        current_spec st = Some l -> specs st !! l = Some s ->
        error_level s = level ->
        exists rest,
          snd (SaveQRCommand_execute answer st)
          = AskSaveAsFilename answer
            :: CallQRCode None ERROR_CORRECT_M (box_size s) (border s)
                 DefaultFactory :: rest).
Proof.
  intros HL HM HQ HH.
  pose proof (err_map_get_default level HL HM HQ HH) as Hm.
  split; [exact Hm|]. split.
  - intros st l s Hl He Hd. rewrite <- Hm, <- He.
    exact (generate_first_call st l s Hl Hd).
  - intros st answer l s q0 Hq Ha Hc Hl He. rewrite <- Hm, <- He.
    exact (save_first_calls st answer l s q0 Hq Ha Hc Hl).
Qed.

Lemma unknown_level_falls_back_to_medium_witness :
  err_map_get "h" = ERROR_CORRECT_M
  /\ exists rest,
       snd (GenerateQRCommand_execute 0 lowercase_level_state)
       = CallQRCode None ERROR_CORRECT_M 10 4 DefaultFactory :: rest.
Proof.
  destruct (@unknown_level_falls_back_to_medium Stub.external "h")
    as (Hm & Hgen & _); try discriminate.
  split; [exact Hm|].
  apply (Hgen lowercase_level_state 0%nat lowercase_level_spec);
    first [reflexivity | discriminate].
Defined.

(** ** PNG and SVG files *)

Section Files.

Context {lib : External}.

(** The PNG encoder on a transparent background: the image of the
    library is converted to RGBA, and the converted image is written. *)
Lemma png_save_transparent qr path fill bs bd st img img' :
  qr_make_image qr fill (Some "transparent") = Ok img ->
  img_convert img "RGBA" = Ok img' ->
  PNGEncoder_save qr path fill "transparent" bs bd st
  = (outcome (img_save_png img' path), st,
     [CallMakeImage qr fill (Some "transparent"); CallConvert img "RGBA";
      CallSavePNG img' path]).
Proof.
  intros Hm Hc. unfold PNGEncoder_save. run_m. rewrite Hm. cbn.
  rewrite Hc. cbn. destruct (img_save_png img' path); reflexivity.
Qed.

(** On any other background the image of the library is written as it
    is: no conversion is asked for. *)
Lemma png_save_opaque qr path fill back bs bd st img :
  back <> "transparent" ->
  qr_make_image qr fill (Some back) = Ok img ->
  PNGEncoder_save qr path fill back bs bd st
  = (outcome (img_save_png img path), st,
     [CallMakeImage qr fill (Some back); CallSavePNG img path]).
Proof.
  intros Hb Hm. unfold PNGEncoder_save. run_m. rewrite Hm. cbn.
  rewrite (proj2 (String.eqb_neq _ _) Hb). cbn.
  destruct (img_save_png img path); reflexivity.
Qed.

(** The SVG encoder builds a second QR object with the SVG factory from
    the version, the level and the data of the first, and hands the image
    the library makes of it to the library's own writer: the bytes of the
    file are the library's. *)
Lemma svg_save_run qr path fill back bs bd st q1 q2 q3 img :
  qr_new (qr_version qr) (qr_error_correction qr) bs bd SvgImage = Ok q1 ->
  qr_add_list q1 (qr_data_list qr) = Ok q2 ->
  qr_make q2 = Ok q3 ->
  qr_make_image q3 fill None = Ok img ->
  file_open_wb path = Ok tt ->
  SVGEncoder_save qr path fill back bs bd st
  = (outcome (img_save_file img path), st,
     [CallQRCode (qr_version qr) (qr_error_correction qr) bs bd SvgImage;
      CallAddList q1 (qr_data_list qr); CallMake q2;
      CallMakeImage q3 fill None; CallOpenWB path; CallSaveFile img path]).
Proof.
  intros H1 H2 H3 H4 H5. unfold SVGEncoder_save. run_m.
  rewrite H1. cbn. rewrite H2. cbn. rewrite H3. cbn. rewrite H4. cbn.
  rewrite H5. cbn. destruct (img_save_file img path); reflexivity.
Qed.

(** When the PNG encoder returns, its last call has written a PNG file
    at the path. *)
Lemma png_save_returns qr path fill back bs bd st st' tr :
  PNGEncoder_save qr path fill back bs bd st = (Returns tt, st', tr) ->
  st' = st /\ exists img, last tr = Some (CallSavePNG img path).
Proof.
  unfold PNGEncoder_save. run_m.
  destruct (qr_make_image qr fill (Some back)) as [img|e]; cbn;
    [|discriminate].
  destruct (String.eqb back "transparent"); cbn.
  - destruct (img_convert img "RGBA") as [img'|e]; cbn; [|discriminate].
    destruct (img_save_png img' path) as [[]|e]; cbn; [|discriminate].
    intros [= <- <-]. eauto.
  - destruct (img_save_png img path) as [[]|e]; cbn; [|discriminate].
    intros [= <- <-]. eauto.
Qed.

(** A save whose encoder returns: the run, step by step. *)
Lemma save_returns_run st answer x l s q0 q1 q2 q3 tr :
  current_qr st = Some q0 ->
  answer <> "" ->
  PyStr.last_item (PyStr.split "." answer) = Some x ->
  current_spec st = Some l ->
  specs st !! l = Some s ->
  bus_subs st = [ConsoleWrite] ->
  qr_new None (err_map_get (error_level s)) (box_size s) (border s)
    DefaultFactory = Ok q1 ->
  qr_add_text q1 (data s) = Ok q2 ->
  qr_make q2 = Ok q3 ->
  save (for_extension x) q3 answer (fill_color s)
    (back_color (background s)) (box_size s) (border s) st
  = (Returns tt, st, tr) ->
  SaveQRCommand_execute answer st
  = (Returns tt,
     logged ("Saved QR to " ++ answer) st,
     (AskSaveAsFilename answer :: setup_calls s q1 q2
      ++ tr ++ [Publish ("Saved QR to " ++ answer); saved_dialog answer])%list).
Proof.
  intros Hq Ha Hx Hc Hl Hb H1 H2 H3 Es.
  unfold SaveQRCommand_execute. run_m.
  rewrite Hq, (truthy_nonempty _ Ha), Hx. cbn [negb]. run_m.
  rewrite Hc. unfold deref. rewrite Hl. run_m.
  rewrite H1. run_m. rewrite H2. run_m. rewrite H3. run_m.
  rewrite Es. run_m.
  rewrite (publish_console _ _ Hb). cbn [app fst snd setup_calls].
  reflexivity.
Qed.

End Files.

(** C9. An extension that reads neither "png" nor "svg" once lowercased
    and stripped of its leading dots (the empty extension too) gives the
    PNG encoder and its save routine. A save to a path with such an
    extension runs that routine: when it returns, its last call has
    written a PNG file at the path, and the command reports the save. *)
Theorem unknown_extension_saves_png `{External} (x : string) :
  PyStr.lstrip_char "." (PyStr.lower x) <> "png" ->
  PyStr.lstrip_char "." (PyStr.lower x) <> "svg" ->
  for_extension x = PNGEncoder
  /\ save (for_extension x) = PNGEncoder_save
  /\ (forall st answer l s q0 q1 q2 q3 tr,
        current_qr st = Some q0 ->
        answer <> "" ->
        PyStr.last_item (PyStr.split "." answer) = Some x ->
        current_spec st = Some l ->
        specs st !! l = Some s ->
        bus_subs st = [ConsoleWrite] ->
        qr_new None (err_map_get (error_level s)) (box_size s) (border s)
          DefaultFactory = Ok q1 ->
        qr_add_text q1 (data s) = Ok q2 ->
        qr_make q2 = Ok q3 ->
        PNGEncoder_save q3 answer (fill_color s) (back_color (background s))
          (box_size s) (border s) st = (Returns tt, st, tr) ->
        SaveQRCommand_execute answer st
        = (Returns tt,
           logged ("Saved QR to " ++ answer) st,
           (AskSaveAsFilename answer :: setup_calls s q1 q2
            ++ tr ++ [Publish ("Saved QR to " ++ answer);
                      ShowInfo "Saved" ("QR code saved:" ++ nl ++ answer)])%list)
        /\ exists img, last tr = Some (CallSavePNG img answer)).
Proof.
  intros Hpng Hsvg.
  assert (Hx : for_extension x = PNGEncoder).
  { rewrite for_extension_cases, (proj2 (String.eqb_neq _ _) Hsvg).
    reflexivity. }
  split; [exact Hx|]. split; [rewrite Hx; reflexivity|].
  intros st answer l s q0 q1 q2 q3 tr Hq Ha Hl Hc Hs Hb H1 H2 H3 Hsave.
  split.
  - apply (save_returns_run st answer x l s q0 q1 q2 q3 tr); try assumption.
    rewrite Hx. exact Hsave.
  - destruct (png_save_returns _ _ _ _ _ _ _ _ _ Hsave) as [_ Himg].
    exact Himg.
Qed.

Lemma unknown_extension_saves_png_witness :
  let st := fst (@run Stub.external [TypeInput "hello"; PressGenerate] initial) in
  for_extension "JPG" = PNGEncoder
  /\ exists tr img,
       snd (SaveQRCommand_execute "qr.JPG" st)
       = (AskSaveAsFilename "qr.JPG" :: tr
          ++ [CallSavePNG img "qr.JPG"; Publish "Saved QR to qr.JPG";
              ShowInfo "Saved" ("QR code saved:" ++ nl ++ "qr.JPG")])%list.
Proof.
  intros st.
  destruct (@unknown_extension_saves_png Stub.external "JPG")
    as (Hx & _ & Hsave); try discriminate.
  split; [exact Hx|].
  pose (s := {| data := "hello"; error_level := "M"; box_size := 10;
                border := 4; fill_color := "black";
                background := WhiteBackground |}).
  pose (q1 := {| Stub.version := None; Stub.error_correction := ERROR_CORRECT_M;
                 Stub.qr_box_size := 10; Stub.qr_border := 4;
                 Stub.factory := DefaultFactory; Stub.data_list := [] |}).
  pose (q2 := {| Stub.version := None; Stub.error_correction := ERROR_CORRECT_M;
                 Stub.qr_box_size := 10; Stub.qr_border := 4;
                 Stub.factory := DefaultFactory; Stub.data_list := ["hello"] |}).
  pose (q3 := {| Stub.version := Some 1%Z; Stub.error_correction := ERROR_CORRECT_M;
                 Stub.qr_box_size := 10; Stub.qr_border := 4;
                 Stub.factory := DefaultFactory; Stub.data_list := ["hello"] |}).
  pose (img := {| Stub.mode := "1"; Stub.size := (290, 290)%Z |}).
  pose (tr := [@CallMakeImage Stub.external q3 "black" (Some "white");
               @CallSavePNG Stub.external img "qr.JPG"]).
  assert (H1 : current_qr st = Some q3) by reflexivity.
  assert (H2 : "qr.JPG" <> "") by discriminate.
  assert (H3 : PyStr.last_item (PyStr.split "." "qr.JPG") = Some "JPG")
    by reflexivity.
  assert (H4 : current_spec st = Some 1%nat) by reflexivity.
  assert (H5 : specs st !! 1%nat = Some s) by reflexivity.
  assert (H6 : bus_subs st = [ConsoleWrite]) by reflexivity.
  assert (H7 : @PNGEncoder_save Stub.external q3 "qr.JPG" (fill_color s)
                 (back_color (background s)) (box_size s) (border s) st
               = (Returns tt, st, tr)) by reflexivity.
  destruct (Hsave st "qr.JPG" 1%nat s q3 q1 q2 q3 tr
              H1 H2 H3 H4 H5 H6 eq_refl eq_refl eq_refl H7) as [Hrun _].
  exists (@setup_calls Stub.external s q1 q2
          ++ [@CallMakeImage Stub.external q3 "black" (Some "white")])%list.
  exists img. rewrite Hrun. reflexivity.
Defined.

(** C6. The PNG encoder asks for the conversion to RGBA exactly when the
    background asked for is "transparent", and then writes the converted
    image, which is in mode RGBA when the library's [convert] gives the
    mode it is asked. On any other background it asks for no conversion
    and writes the image in the mode the library has made it. *)
Theorem png_converted_exactly_when_transparent `{External}
    (qr : QRCode) (path fill back : string) (bs bd : Z) (st : QRApp)
    (img : Image) :
  qr_make_image qr fill (Some back) = Ok img ->
  (back = "transparent" ->
   forall img', img_convert img "RGBA" = Ok img' ->
     PNGEncoder_save qr path fill back bs bd st
     = (outcome (img_save_png img' path), st,
        [CallMakeImage qr fill (Some back); CallConvert img "RGBA";
         CallSavePNG img' path])
     /\ ((forall i m i', img_convert i m = Ok i' -> img_mode i' = m) ->
         img_mode img' = "RGBA"))
  /\ (back <> "transparent" ->
      PNGEncoder_save qr path fill back bs bd st
      = (outcome (img_save_png img path), st,
         [CallMakeImage qr fill (Some back); CallSavePNG img path])).
Proof.
  intros Hm. split.
  - intros -> img' Hc. split.
    + exact (png_save_transparent qr path fill bs bd st img img' Hm Hc).
    + intros Hmode. exact (Hmode _ _ _ Hc).
  - intros Hb. exact (png_save_opaque qr path fill back bs bd st img Hb Hm).
Qed.

Lemma png_converted_exactly_when_transparent_witness :
  let q := {| Stub.version := Some 1%Z; Stub.error_correction := ERROR_CORRECT_M;
              Stub.qr_box_size := 10; Stub.qr_border := 4;
              Stub.factory := DefaultFactory; Stub.data_list := ["hello"] |} in
  let rgba := {| Stub.mode := "RGBA"; Stub.size := (290, 290)%Z |} in
  @PNGEncoder_save Stub.external q "out.png" "black" "transparent" 10 4 initial
  = (Returns tt, initial,
     [@CallMakeImage Stub.external q "black" (Some "transparent");
      @CallConvert Stub.external rgba "RGBA";
      @CallSavePNG Stub.external rgba "out.png"])
  /\ Stub.mode rgba = "RGBA".
Proof.
  intros q rgba.
  destruct (@png_converted_exactly_when_transparent Stub.external
              q "out.png" "black" "transparent" 10 4 initial rgba eq_refl)
    as [Ht _].
  destruct (Ht eq_refl rgba eq_refl) as [Hrun Hmode].
  split; [exact Hrun|].
  apply Hmode. intros i m i' [= <-]. reflexivity.
Defined.

(** With a library that, as the Pillow factory of [qrcode] does, makes a
    black on white image in mode "1", the default settings write a PNG
    file in mode "1": on a white background the encoder writes the image
    of the library as it is. *)
Lemma default_png_keeps_library_mode : ~ every_png_rgb_or_rgba.
Proof.
  intros Hall.
  destruct (Hall Stub.external
              [TypeInput "hello"; PressGenerate; PressSave "out.png"]
              {| Stub.mode := "1"; Stub.size := (290, 290)%Z |})
    as [Hm|Hm]; [|discriminate Hm|discriminate Hm].
  vm_compute. left. reflexivity.
Qed.

(** ** Rounding to binary64 *)

Section Rounding.

Import Float64.
Local Open Scope Q_scope.

Lemma pow2_pos (k : Z) : 0 < pow2 k.
Proof. apply Qpower_0_lt. reflexivity. Qed.

Lemma pow2_add (a b : Z) : pow2 (a + b) == pow2 a * pow2 b.
Proof. apply Qpower_plus. discriminate. Qed.

Lemma pow2_le (a b : Z) : (a <= b)%Z -> pow2 a <= pow2 b.
Proof. intros H. apply Qpower_le_compat_l; [exact H|discriminate]. Qed.

Lemma pow2_lt_inv (a b : Z) : pow2 a < pow2 b -> (a < b)%Z.
Proof. intros H. apply (Qpower_lt_compat_l_inv 2); [exact H|reflexivity]. Qed.

Lemma pow2_inject (k : Z) : (0 <= k)%Z -> inject_Z (2 ^ k) == pow2 k.
Proof. intros H. apply (Zpower_Qpower 2 k H). Qed.

Lemma inject_log2 (n : Z) :
  (0 < n)%Z ->
  pow2 (Z.log2 n) <= inject_Z n /\ inject_Z n < pow2 (Z.log2 n + 1).
Proof.
  intros Hn. pose proof (Z.log2_nonneg n) as H0.
  destruct (Z.log2_spec n Hn) as [Hlo Hhi].
  rewrite <- !pow2_inject by lia.
  rewrite <- Zle_Qle, <- Zlt_Qlt. rewrite <- Z.add_1_r in Hhi. auto.
Qed.

(** [ilog2 x] is the exponent of the power of two at or just below [x]. *)
Lemma ilog2_spec (x : Q) :
  0 < x -> pow2 (ilog2 x) <= x /\ x < pow2 (ilog2 x + 1).
Proof.
  intros Hx. destruct x as [n d].
  assert (Hn : (0 < n)%Z) by (unfold Qlt in Hx; simpl in Hx; lia).
  destruct (inject_log2 n Hn) as [Hn1 Hn2].
  destruct (inject_log2 (Zpos d) eq_refl) as [Hd1 Hd2].
  set (ln := Z.log2 n) in *. set (ld := Z.log2 (Zpos d)) in *.
  assert (HD : 0 < inject_Z (Zpos d)) by reflexivity.
  assert (Ex : (n # d) * inject_Z (Zpos d) == inject_Z n).
  { rewrite (Qmake_Qdiv n d). field. discriminate. }
  assert (Hlow : pow2 (ln - ld - 1) <= n # d).
  { apply (Qmult_le_r _ _ (inject_Z (Zpos d)) HD). rewrite Ex.
    apply Qle_trans with (pow2 (ln - ld - 1) * pow2 (ld + 1)).
    - apply Qmult_le_l; [apply pow2_pos|apply Qlt_le_weak; exact Hd2].
    - rewrite <- pow2_add. replace (ln - ld - 1 + (ld + 1))%Z with ln by ring.
      exact Hn1. }
  assert (Hhigh : n # d < pow2 (ln - ld + 1)).
  { apply (Qmult_lt_r _ _ (inject_Z (Zpos d)) HD). rewrite Ex.
    apply Qlt_le_trans with (pow2 (ln - ld + 1) * pow2 ld).
    - rewrite <- pow2_add. replace (ln - ld + 1 + ld)%Z with (ln + 1)%Z by ring.
      exact Hn2.
    - apply Qmult_le_l; [apply pow2_pos|exact Hd1]. }
  unfold ilog2. cbn [Qnum Qden]. fold ln ld.
  destruct (Qle_bool (pow2 (ln - ld)) (n # d)) eqn:E.
  - apply Qle_bool_iff in E. split; [exact E|exact Hhigh].
  - split; [exact Hlow|].
    replace (ln - ld - 1 + 1)%Z with (ln - ld)%Z by ring.
    apply Qnot_le_lt. intros H. apply Qle_bool_iff in H. congruence.
Qed.

Lemma ilog2_lt (x : Q) (b : Z) : 0 < x -> x < pow2 b -> (ilog2 x < b)%Z.
Proof.
  intros Hx Hb. apply pow2_lt_inv.
  apply Qle_lt_trans with x; [apply ilog2_spec; exact Hx|exact Hb].
Qed.

Lemma ilog2_ge (x : Q) (b : Z) : pow2 b <= x -> (b <= ilog2 x)%Z.
Proof.
  intros Hb.
  assert (Hx : 0 < x) by (apply Qlt_le_trans with (pow2 b); [apply pow2_pos|exact Hb]).
  assert (H : (b < ilog2 x + 1)%Z); [|lia].
  apply pow2_lt_inv.
  apply Qle_lt_trans with x; [exact Hb|apply ilog2_spec; exact Hx].
Qed.

(** The nearest integer is within a half, and not below the floor. *)
Lemma round_half_even_spec (y : Q) :
  y - (1 # 2) <= inject_Z (round_half_even y)
  /\ inject_Z (round_half_even y) <= y + (1 # 2)
  /\ (Qfloor y <= round_half_even y)%Z.
Proof.
  unfold round_half_even.
  pose proof (Qfloor_le y) as Hlo. pose proof (Qlt_floor y) as Hhi.
  rewrite inject_Z_plus in Hhi. change (inject_Z 1) with 1 in Hhi.
  set (f := Qfloor y) in *.
  destruct (Qcompare (y - inject_Z f) (1 # 2)) eqn:E.
  - apply Qeq_alt in E.
    destruct (Z.even f); rewrite ?inject_Z_plus; change (inject_Z 1) with 1;
      repeat split; try lra; lia.
  - apply Qlt_alt in E. repeat split; try lra; lia.
  - apply Qgt_alt in E. rewrite inject_Z_plus. change (inject_Z 1) with 1.
    repeat split; try lra; lia.
Qed.

Lemma round_half_even_exact (y : Q) (n : Z) :
  y == inject_Z n -> round_half_even y = n.
Proof.
  intros E. unfold round_half_even.
  assert (Hf : Qfloor y = n) by (rewrite E; apply Qfloor_Z).
  rewrite Hf.
  assert (Hc : Qcompare (y - inject_Z n) (1 # 2) = Lt).
  { apply Qlt_alt. rewrite E.
    assert (H0 : inject_Z n - inject_Z n == 0) by ring.
    rewrite H0. reflexivity. }
  rewrite Hc. reflexivity.
Qed.

Lemma round_pos_eq (x : Q) :
  round_pos x
  == inject_Z (round_half_even (x / pow2 (ulp_exp x))) * pow2 (ulp_exp x).
Proof. unfold round_pos. apply Qred_correct. Qed.

Lemma scaled_back (x : Q) (e : Z) : x / pow2 e * pow2 e == x.
Proof. field. pose proof (pow2_pos e). lra. Qed.

(** Rounding moves a positive value by half a unit of its last place at
    most, and never below zero. *)
Lemma round_pos_error (x : Q) :
  x - pow2 (ulp_exp x) * (1 # 2) <= round_pos x
  /\ round_pos x <= x + pow2 (ulp_exp x) * (1 # 2).
Proof.
  rewrite round_pos_eq.
  destruct (round_half_even_spec (x / pow2 (ulp_exp x))) as (Hlo & Hhi & _).
  pose proof (pow2_pos (ulp_exp x)) as Hp.
  pose proof (scaled_back x (ulp_exp x)) as Hs.
  set (y := x / pow2 (ulp_exp x)) in *.
  set (r := inject_Z (round_half_even y)) in *.
  set (p := pow2 (ulp_exp x)) in *.
  split; nra.
Qed.

Lemma ulp_exp_le (x : Q) (b : Z) :
  0 < x -> x < pow2 b -> (-1074 <= b - 53)%Z -> (ulp_exp x <= b - 53)%Z.
Proof.
  intros Hx Hb Hmin. pose proof (ilog2_lt x b Hx Hb). unfold ulp_exp. lia.
Qed.

(** A value of at least one is not rounded to less than one. *)
Lemma round_pos_ge_1 (x : Q) : 1 <= x -> 1 <= round_pos x.
Proof.
  intros Hx.
  assert (H0 : (0 <= ilog2 x)%Z) by (apply ilog2_ge; exact Hx).
  assert (Hx0 : 0 < x) by lra.
  assert (He : ulp_exp x = (ilog2 x - 52)%Z) by (unfold ulp_exp; lia).
  rewrite round_pos_eq, He.
  destruct (round_half_even_spec (x / pow2 (ilog2 x - 52))) as (_ & _ & Hfl).
  assert (Hy : pow2 52 <= x / pow2 (ilog2 x - 52)).
  { apply (Qmult_le_r _ _ (pow2 (ilog2 x - 52)) (pow2_pos _)).
    rewrite scaled_back, <- pow2_add.
    replace (52 + (ilog2 x - 52))%Z with (ilog2 x) by ring.
    apply ilog2_spec. exact Hx0. }
  assert (Hf : (2 ^ 52 <= Qfloor (x / pow2 (ilog2 x - 52)))%Z).
  { rewrite <- (Qfloor_Z (2 ^ 52)). apply Qfloor_resp_le.
    rewrite pow2_inject by lia. exact Hy. }
  apply Qle_trans with (inject_Z (2 ^ 52) * pow2 (ilog2 x - 52)).
  - rewrite pow2_inject by lia. rewrite <- pow2_add.
    replace (52 + (ilog2 x - 52))%Z with (ilog2 x) by ring.
    change 1 with (pow2 0). apply pow2_le. exact H0.
  - apply Qmult_le_r; [apply pow2_pos|].
    rewrite <- Zle_Qle. lia.
Qed.

(** An integer below 2^53 is a binary64 value. *)
Lemma round_pos_integer (z : Q) (n : Z) :
  z == inject_Z n -> (1 <= n < 2 ^ 53)%Z -> round_pos z == inject_Z n.
Proof.
  intros Ez Hn.
  assert (Hz0 : 0 < z) by (rewrite Ez; change 0 with (inject_Z 0);
                           rewrite <- Zlt_Qlt; lia).
  assert (Hzb : z < pow2 53).
  { rewrite Ez, <- pow2_inject by lia. rewrite <- Zlt_Qlt. lia. }
  pose proof (ulp_exp_le z 53 Hz0 Hzb ltac:(lia)) as He.
  rewrite round_pos_eq.
  set (e := ulp_exp z) in *.
  assert (Hy : z / pow2 e == inject_Z (n * 2 ^ (- e))).
  { rewrite inject_Z_mult, pow2_inject by lia.
    apply (Qmult_inj_r _ _ (pow2 e)).
    - pose proof (pow2_pos e). lra.
    - rewrite scaled_back, <- Qmult_assoc, <- pow2_add.
      replace (- e + e)%Z with 0%Z by ring. change (pow2 0) with 1.
      rewrite Ez. ring. }
  rewrite (round_half_even_exact _ _ Hy).
  rewrite inject_Z_mult, pow2_inject by lia.
  rewrite <- Qmult_assoc, <- pow2_add.
  replace (- e + e)%Z with 0%Z by ring. change (pow2 0) with 1. ring.
Qed.

End Rounding.

(** ** The size of the preview *)

Section PreviewSize.

Import Float64.
Local Open Scope Q_scope.

Lemma round_pos_nonneg (x : Q) : 0 <= x -> 0 <= round_pos x.
Proof.
  intros Hx. rewrite round_pos_eq.
  destruct (round_half_even_spec (x / pow2 (ulp_exp x))) as (_ & _ & Hfl).
  apply Qmult_le_0_compat; [|apply Qlt_le_weak, pow2_pos].
  change 0 with (inject_Z 0). rewrite <- Zle_Qle.
  apply Z.le_trans with (Qfloor (x / pow2 (ulp_exp x))); [|exact Hfl].
  rewrite <- (Qfloor_Z 0). apply Qfloor_resp_le.
  apply Qle_shift_div_l; [apply pow2_pos|]. rewrite Qmult_0_l. exact Hx.
Qed.

Lemma round_positive (x : Q) :
  0 < x -> round_pos x < pow2 1024 -> round x = Finite (round_pos x).
Proof.
  intros Hx Hb. unfold round.
  rewrite (proj1 (Qgt_alt x 0) Hx).
  destruct (Qle_bool (pow2 1024) (round_pos x)) eqn:E; [|reflexivity].
  apply Qle_bool_iff in E. lra.
Qed.

Lemma round_zero (x : Q) : x == 0 -> round x = Finite 0.
Proof. intros Hx. unfold round. rewrite (proj1 (Qeq_alt x 0) Hx). reflexivity. Qed.

(** A positive value below 2^52 is rounded by a quarter at most. *)
Lemma round_pos_quarter (x : Q) :
  0 < x -> x < pow2 52 ->
  x - (1 # 4) <= round_pos x /\ round_pos x <= x + (1 # 4).
Proof.
  intros Hx Hb.
  pose proof (ulp_exp_le x 52 Hx Hb ltac:(lia)) as He.
  pose proof (pow2_le _ _ He) as Hp. change (pow2 (52 - 53)) with (1 # 2) in Hp.
  destruct (round_pos_error x) as [Hlo Hhi]. split; lra.
Qed.

Lemma pow2_52_small : pow2 52 + (1 # 4) < pow2 1024.
Proof. vm_compute. reflexivity. Qed.

Lemma min_one_spec (r : Q) :
  Float64.min r 1 <= 1
  /\ Float64.min r 1 <= r
  /\ (1 <= r -> Float64.min r 1 == 1)
  /\ (0 <= r -> 0 <= Float64.min r 1).
Proof.
  unfold Float64.min. destruct (Qcompare 1 r) eqn:E.
  - apply Qeq_alt in E. repeat split; intros; lra.
  - apply Qlt_alt in E. repeat split; intros; lra.
  - apply Qgt_alt in E. repeat split; intros; lra.
Qed.

Lemma inject_bounds (n : Z) :
  (1 <= n < 2 ^ 52)%Z -> 1 <= inject_Z n /\ inject_Z n < pow2 52.
Proof.
  intros Hn. split.
  - change 1 with (inject_Z 1). rewrite <- Zle_Qle. lia.
  - rewrite <- pow2_inject by lia. rewrite <- Zlt_Qlt. lia.
Qed.

(** The scale: it is computed without an exception, lies between 0 and 1,
    is 1 when the image fits, and otherwise exceeds the exact ratio by
    too little to gain a pixel on the longer side. *)
Lemma preview_scale_spec (max_side w h : Z) :
  (0 <= max_side < 2 ^ 52)%Z -> (1 <= w < 2 ^ 52)%Z -> (1 <= h < 2 ^ 52)%Z ->
  exists s,
    preview_scale max_side w h = Ok s
    /\ 0 <= s /\ s <= 1
    /\ ((Z.max w h <= max_side)%Z -> s == 1)
    /\ s * inject_Z (Z.max w h) <= inject_Z (Z.max max_side 1) + (1 # 4).
Proof.
  intros Hp Hw Hh.
  set (m := Z.max w h).
  assert (Hm : (1 <= m < 2 ^ 52)%Z) by (unfold m; lia).
  destruct (inject_bounds m Hm) as [Hm1 Hm2].
  assert (Hmax : inject_Z max_side <= inject_Z (Z.max max_side 1))
    by (rewrite <- Zle_Qle; lia).
  unfold preview_scale, int_truediv. fold m.
  rewrite (proj2 (Z.eqb_neq m 0%Z)) by lia.
  destruct (Z.eq_dec max_side 0%Z) as [->|Hnz].
  - rewrite round_zero by (unfold Qdiv; ring).
    exists (Float64.min 0 1). split; [reflexivity|].
    change (Float64.min 0 1) with 0.
    split; [lra|]. split; [lra|]. split; [intros Hle; lia|].
    rewrite Qmult_0_l. change (inject_Z (Z.max 0 1)) with 1. lra.
  - assert (Hp1 : 1 <= inject_Z max_side /\ inject_Z max_side < pow2 52)
      by (apply inject_bounds; lia).
    set (x := inject_Z max_side / inject_Z m).
    assert (Hx : x * inject_Z m == inject_Z max_side)
      by (unfold x; field; lra).
    assert (Hx0 : 0 < x).
    { unfold x. apply Qlt_shift_div_l; lra. }
    assert (Hxb : x < pow2 52).
    { unfold x. apply Qlt_shift_div_r; [lra|].
      pose proof (pow2_pos 52). nra. }
    destruct (round_pos_quarter x Hx0 Hxb) as [Hq1 Hq2].
    pose proof pow2_52_small as Hsmall.
    rewrite (round_positive x Hx0) by lra.
    exists (Float64.min (round_pos x) 1). split; [reflexivity|].
    destruct (min_one_spec (round_pos x)) as (M1 & M2 & M3 & M4).
    pose proof (round_pos_nonneg x (Qlt_le_weak _ _ Hx0)) as Hr0.
    split; [auto|]. split; [exact M1|]. split.
    + intros Hle. apply M3. apply round_pos_ge_1.
      unfold x. apply Qle_shift_div_l; [lra|].
      rewrite Qmult_1_l. rewrite <- Zle_Qle. exact Hle.
    + destruct (Z_le_gt_dec m max_side) as [Hle|Hgt].
      * apply Qle_trans with (1 * inject_Z m); [|rewrite Qmult_1_l].
        -- apply Qmult_le_r; [lra|exact M1].
        -- apply Qle_trans with (inject_Z max_side); [|lra].
           rewrite <- Zle_Qle. exact Hle.
      * assert (Hx1 : x < pow2 0).
        { change (pow2 0) with 1. unfold x. apply Qlt_shift_div_r; [lra|].
          rewrite Qmult_1_l. rewrite <- Zlt_Qlt. lia. }
        pose proof (ulp_exp_le x 0 Hx0 Hx1 ltac:(lia)) as He.
        pose proof (pow2_le _ _ He) as Hpe.
        change (pow2 (0 - 53)) with (1 # 9007199254740992) in Hpe.
        destruct (round_pos_error x) as [_ Hhi].
        set (p := pow2 (ulp_exp x)) in *.
        set (s := Float64.min (round_pos x) 1) in *.
        assert (Hs : s <= x + (1 # 18014398509481984)) by lra.
        change (pow2 52) with 4503599627370496 in Hm2.
        nra.
Qed.

Lemma truncate_nonneg (q : Q) : 0 <= q -> truncate q = Qfloor q.
Proof.
  intros Hq. unfold truncate.
  rewrite (proj2 (Qle_bool_iff 0 q) Hq). reflexivity.
Qed.

Lemma floor_le_int (q : Q) (b : Z) :
  q < inject_Z b + 1 -> (Qfloor q <= b)%Z.
Proof.
  intros Hq. pose proof (Qfloor_le q) as Hf.
  assert (H : (Qfloor q < b + 1)%Z); [|lia].
  rewrite Zlt_Qlt, inject_Z_plus. change (inject_Z 1) with 1. lra.
Qed.

(** One side: it is scaled without an exception, to at least one pixel
    and at most the side itself; a scale of 1 keeps it. *)
Lemma scaled_side_spec (side : Z) (s : Q) :
  (1 <= side < 2 ^ 52)%Z -> 0 <= s -> s <= 1 ->
  exists n,
    scaled_side side s = Ok n
    /\ (1 <= n <= side)%Z
    /\ (s == 1 -> n = side)
    /\ (forall b : Z, inject_Z side * s <= inject_Z b + (1 # 4) ->
                      (n <= Z.max b 1)%Z).
Proof.
  intros Hside Hs0 Hs1.
  destruct (inject_bounds side Hside) as [Hi1 Hi2].
  pose proof pow2_52_small as Hsmall.
  assert (Hf : round_pos (inject_Z side) == inject_Z side)
    by (apply round_pos_integer; [reflexivity|lia]).
  unfold scaled_side, int_mul, of_int.
  rewrite (round_positive (inject_Z side)) by lra.
  unfold mul.
  set (f := round_pos (inject_Z side)) in *.
  destruct (Qlt_le_dec 0 (f * s)) as [Hpos|Hzero].
  - assert (Hpb : f * s < pow2 52) by nra.
    destruct (round_pos_quarter (f * s) Hpos Hpb) as [Hq1 Hq2].
    rewrite (round_positive (f * s) Hpos) by lra.
    cbn [to_int].
    assert (Hr0 : 0 <= round_pos (f * s))
      by (apply round_pos_nonneg; lra).
    rewrite (truncate_nonneg _ Hr0).
    eexists. split; [reflexivity|].
    split; [|split].
    + split; [lia|]. apply Z.max_lub; [lia|].
      apply floor_le_int. nra.
    + intros Es.
      assert (Hp : f * s == inject_Z side) by (rewrite Es, Hf; ring).
      assert (Hexact : round_pos (f * s) == inject_Z side)
        by (apply round_pos_integer; [exact Hp|lia]).
      rewrite Hexact, Qfloor_Z. lia.
    + intros b Hb. apply Z.max_lub; [lia|].
      apply Z.le_trans with b; [|lia].
      apply floor_le_int.
      assert (Hfs : f * s == inject_Z side * s) by (rewrite Hf; reflexivity).
      lra.
  - assert (Hz : f * s == 0) by nra.
    rewrite (round_zero _ Hz). cbn [to_int].
    change (truncate 0) with 0%Z.
    exists 1%Z. split; [reflexivity|]. split; [lia|]. split.
    + intros Es. rewrite Es, Hf in Hz. lra.
    + intros b _. lia.
Qed.

End PreviewSize.

(** ** The computed size against the exact one *)

Section PreviewExact.

Import Float64.
Local Open Scope Q_scope.





End PreviewExact.



(** The exact formulas on the sample: 360 by 180. *)
Example exact_size_sample :
  exact_side 410 (exact_scale 360 410 205) = 360%Z
  /\ exact_side 205 (exact_scale 360 410 205) = 180%Z.
Proof. split; vm_compute; reflexivity. Qed.

(** Sample sizes, as Python computes them. *)
Example preview_size_fits : preview_size 360 290 290 = Ok (290, 290)%Z.
Proof. vm_compute. reflexivity. Qed.

Example preview_size_shrinks : preview_size 360 410 205 = Ok (360, 180)%Z.
Proof. vm_compute. reflexivity. Qed.

Example preview_size_thin : preview_size 360 1000 10 = Ok (360, 3)%Z.
Proof. vm_compute. reflexivity. Qed.

Example preview_size_no_room : preview_size 0 290 290 = Ok (1, 1)%Z.
Proof. vm_compute. reflexivity. Qed.

(** [set_preview] asks the library to resize the image to that size: with
    numbers in the number fields and an image of [w] by [h], the first
    call is [img.resize((w', h'))]. *)
Lemma set_preview_resizes `{External} (img : Image) (qr : QRCode) (st : QRApp)
    (w h w' h' : Z) (s : QRSpec) :
  widget_spec st = Some s ->
  img_size img = (w, h) ->
  preview_size AppConfig.preview_max w h = Ok (w', h') ->
  exists rest,
    snd (set_preview (Some img) (Some qr) st) = CallResize img (w', h') :: rest.
Proof.
  intros Hs Hsz Hp. unfold widget_spec in Hs.
  unfold set_preview, _build_spec, new_spec. run_m. cbn.
  destruct (box_var st) as [bs|e]; [|discriminate]. cbn.
  destruct (border_var st) as [bd|e]; [|discriminate]. cbn.
  rewrite Hsz, Hp. cbn.
  destruct (img_resize img (w', h')) as [d|e]; cbn; [|eauto].
  destruct (photo_image d) as [ph|e]; cbn; eauto.
Qed.

(** ** The float model against the Standard Library's IEEE-754 *)

Example truediv_agrees_410 :
  result_value (Float64.int_truediv 360 410) = binary64_div 360 410.
Proof. vm_compute. reflexivity. Qed.

Example truediv_agrees_721 :
  result_value (Float64.int_truediv 360 721) = binary64_div 360 721.
Proof. vm_compute. reflexivity. Qed.

Example truediv_agrees_large :
  result_value (Float64.int_truediv 360 2147483647)
  = binary64_div 360 2147483647.
Proof. vm_compute. reflexivity. Qed.

Example of_int_agrees_tie :
  result_value (Float64.of_int (2 ^ 53 + 1))
  = spec_float_value (binary64_of_Z (2 ^ 53 + 1)).
Proof. vm_compute. reflexivity. Qed.

Example of_int_agrees_odd :
  result_value (Float64.of_int (2 ^ 53 + 3))
  = spec_float_value (binary64_of_Z (2 ^ 53 + 3)).
Proof. vm_compute. reflexivity. Qed.

Example of_int_overflows :
  result_value (Float64.of_int (2 ^ 1024)) = None
  /\ binary64_of_Z (2 ^ 1024) = S754_infinity false.
Proof. vm_compute. split; reflexivity. Qed.

Example scaled_agrees_719 :
  (match Float64.int_truediv 360 719 with
   | Ok s => rounded_value (Float64.int_mul 719 s)
   | Err _ => None
   end) = binary64_scaled 719 360 719.
Proof. vm_compute. reflexivity. Qed.

Example scaled_agrees_10 :
  (match Float64.int_truediv 360 1000 with
   | Ok s => rounded_value (Float64.int_mul 10 s)
   | Err _ => None
   end) = binary64_scaled 10 360 1000.
Proof. vm_compute. reflexivity. Qed.

(** * Further properties of the program *)

(** ** Save: the ways it ends *)

Section SaveRuns.

Context {lib : External}.

Lemma string_app_nil_r (s : string) : s ++ "" = s.
Proof.
  induction s as [|c r IH]; [reflexivity|].
  change (String c (r ++ "") = String c r). rewrite IH. reflexivity.
Qed.

Lemma string_app_assoc (a b c : string) : (a ++ b) ++ c = a ++ (b ++ c).
Proof.
  induction a as [|x r IH]; [reflexivity|].
  change (String x ((r ++ b) ++ c) = String x (r ++ (b ++ c))).
  rewrite IH. reflexivity.
Qed.

(** The console only grows when a message goes to the subscribers. *)
Lemma log_lines_extends subs message text :
  exists suffix, log_lines subs message text = text ++ suffix.
Proof.
  revert text. induction subs as [|[] rest IH]; intros text; cbn [log_lines].
  - exists "". rewrite string_app_nil_r. reflexivity.
  - destruct (IH (text ++ (message ++ nl))) as [suffix E].
    exists ((message ++ nl) ++ suffix). rewrite E.
    apply string_app_assoc.
Qed.

(** What a save does, whatever the libraries do: the exceptions it lets
    out are of classes outside [Exception], it puts one message on the
    bus at most, and the state it leaves is the one before, with the
    console lines of that message. *)
Lemma save_summary answer st :
  (forall e, fst (fst (SaveQRCommand_execute answer st)) = Raises e ->
             is_Exception e = false)
  /\ ((published (snd (SaveQRCommand_execute answer st)) = []
       /\ snd (fst (SaveQRCommand_execute answer st)) = st)
      \/ exists m,
           published (snd (SaveQRCommand_execute answer st)) = [m]
           /\ snd (fst (SaveQRCommand_execute answer st))
              = set_console_text
                  (log_lines (bus_subs st) m (console_text st)) st).
Proof.
  destruct (split_last_item "." answer) as [x Hx].
  unfold SaveQRCommand_execute. run_m.
  destruct (current_qr st); cbn [fst snd];
    [|split; [intros ? ?; congruence|auto]].
  destruct (PyStr.truthy answer); cbn [negb fst snd];
    [|split; [intros ? ?; congruence|auto]].
  rewrite Hx. cbn [fst snd app published].
  destruct (current_spec st) as [l|]; cbn [fst snd].
  2:{ exn_cases. rewrite publish_run. cbn [fst snd app published].
      split; [intros ? ?; congruence|eauto]. }
  unfold deref. destruct (specs st !! l) as [s|]; cbn [fst snd];
    [|split; [intros ? ?; congruence|auto]].
  destruct (qr_new _ _ _ _ _) as [q1|e]; cbn [fst snd].
  2:{ exn_cases; rewrite ?publish_run; cbn [fst snd app published];
        (split; [intros ? ?; congruence|eauto]). }
  destruct (qr_add_text q1 _) as [q2|e]; cbn [fst snd].
  2:{ exn_cases; rewrite ?publish_run; cbn [fst snd app published];
        (split; [intros ? ?; congruence|eauto]). }
  destruct (qr_make q2) as [q3|e]; cbn [fst snd].
  2:{ exn_cases; rewrite ?publish_run; cbn [fst snd app published];
        (split; [intros ? ?; congruence|eauto]). }
  destruct (save_calls_only (for_extension x) q3 answer (fill_color s)
              (back_color (background s)) (box_size s) (border s) st)
    as [Hst Hcalls].
  destruct (save _ _ _ _ _ _ _ st) as [[o st1] t1].
  cbn [fst snd] in Hst, Hcalls. subst st1.
  pose proof (calls_published _ Hcalls) as Hp.
  destruct o as [[]|e|]; try exn_cases; cbn [fst snd];
    rewrite ?publish_run;
    cbn [fst snd app published]; rewrite ?(published_app t1), ?Hp;
    cbn [app published]; (split; [intros ? ?; congruence|eauto]).
Qed.

End SaveRuns.

(** X1. A save when no code has been generated shows the "Nothing to
    save" dialog and returns: the file dialog is not opened, no library
    call is made, nothing is published and the state is unchanged. *)
Theorem save_without_preview `{External} (answer : string) (st : QRApp) :
  current_qr st = None ->
  SaveQRCommand_execute answer st
  = (Returns tt, st,
     [ShowInfo "Nothing to save" "Generate a QR code first."]).
Proof.
  intros Hq. unfold SaveQRCommand_execute. run_m. rewrite Hq. reflexivity.
Qed.

Lemma save_without_preview_witness :
  @SaveQRCommand_execute Stub.external "out.png" initial
  = (Returns tt, initial,
     [ShowInfo "Nothing to save" "Generate a QR code first."]).
Proof.
  apply (@save_without_preview Stub.external "out.png" initial). reflexivity.
Defined.

(** X2. A save whose file dialog is cancelled (it gives the empty path)
    ends there: the dialog is the only event, no library call is made,
    nothing is published and the state is unchanged. *)
Theorem save_cancelled `{External} (st : QRApp) (q0 : QRCode) :
  current_qr st = Some q0 ->
  SaveQRCommand_execute "" st = (Returns tt, st, [AskSaveAsFilename ""]).
Proof.
  intros Hq. unfold SaveQRCommand_execute. run_m. rewrite Hq. reflexivity.
Qed.

Lemma save_cancelled_witness :
  let st := fst (@run Stub.external [TypeInput "hello"; PressGenerate] initial) in
  SaveQRCommand_execute "" st = (Returns tt, st, [AskSaveAsFilename ""]).
Proof.
  intros st.
  apply (@save_cancelled Stub.external st
           {| Stub.version := Some 1%Z; Stub.error_correction := ERROR_CORRECT_M;
              Stub.qr_box_size := 10; Stub.qr_border := 4;
              Stub.factory := DefaultFactory; Stub.data_list := ["hello"] |}).
  reflexivity.
Defined.

(** X3. A save whose encoder returns is reported once: the command
    returns, the one message on the bus is "Saved QR to " and the path,
    the dialogs are the file dialog and the "Saved" dialog, and the state
    differs from the one before by the console line only. *)
Theorem save_success_reported `{External}
    (st : QRApp) (answer x : string) (l : ref) (s : QRSpec)
    (q0 q1 q2 q3 : QRCode) :
  current_qr st = Some q0 ->
  answer <> "" ->
  PyStr.last_item (PyStr.split "." answer) = Some x ->
  current_spec st = Some l ->
  specs st !! l = Some s ->
  bus_subs st = [ConsoleWrite] ->
  qr_new None (err_map_get (error_level s)) (box_size s) (border s)
    DefaultFactory = Ok q1 ->
  qr_add_text q1 (data s) = Ok q2 ->
  qr_make q2 = Ok q3 ->
  fst (fst (save (for_extension x) q3 answer (fill_color s)
              (back_color (background s)) (box_size s) (border s) st))
  = Returns tt ->
  fst (fst (SaveQRCommand_execute answer st)) = Returns tt
  /\ published (snd (SaveQRCommand_execute answer st))
     = ["Saved QR to " ++ answer]
  /\ dialogs (snd (SaveQRCommand_execute answer st))
     = [AskSaveAsFilename answer;
        ShowInfo "Saved" ("QR code saved:" ++ nl ++ answer)]
  /\ snd (fst (SaveQRCommand_execute answer st))
     = set_console_text
         (console_text st ++ (("Saved QR to " ++ answer) ++ nl)) st.
Proof.
  intros Hq Ha Hx Hc Hl Hb H1 H2 H3 Hs.
  destruct (save_calls_only (for_extension x) q3 answer (fill_color s)
              (back_color (background s)) (box_size s) (border s) st)
    as [Hst Hcalls].
  destruct (save (for_extension x) q3 answer (fill_color s)
              (back_color (background s)) (box_size s) (border s) st)
    as [[o st1] tr] eqn:Es.
  cbn [fst snd] in Hs, Hst, Hcalls. subst o st1.
  rewrite (save_returns_run st answer x l s q0 q1 q2 q3 tr) by assumption.
  cbn [fst snd]. split; [reflexivity|]. split; [|split; [|reflexivity]].
  - cbn [published setup_calls app]. rewrite published_app.
    rewrite (calls_published _ Hcalls). reflexivity.
  - cbn [dialogs setup_calls app]. rewrite dialogs_app.
    rewrite (calls_dialogs _ Hcalls). reflexivity.
Qed.

Lemma save_success_reported_witness :
  let st := fst (@run Stub.external [TypeInput "hello"; PressGenerate] initial) in
  fst (fst (SaveQRCommand_execute "out.svg" st)) = Returns tt
  /\ published (snd (SaveQRCommand_execute "out.svg" st))
     = ["Saved QR to " ++ "out.svg"]
  /\ dialogs (snd (SaveQRCommand_execute "out.svg" st))
     = [AskSaveAsFilename "out.svg";
        ShowInfo "Saved" ("QR code saved:" ++ nl ++ "out.svg")]
  /\ snd (fst (SaveQRCommand_execute "out.svg" st))
     = set_console_text
         (console_text st ++ (("Saved QR to " ++ "out.svg") ++ nl)) st.
Proof.
  intros st.
  pose (s := {| data := "hello"; error_level := "M"; box_size := 10;
                border := 4; fill_color := "black";
                background := WhiteBackground |}).
  pose (q1 := {| Stub.version := None; Stub.error_correction := ERROR_CORRECT_M;
                 Stub.qr_box_size := 10; Stub.qr_border := 4;
                 Stub.factory := DefaultFactory; Stub.data_list := [] |}).
  pose (q2 := {| Stub.version := None; Stub.error_correction := ERROR_CORRECT_M;
                 Stub.qr_box_size := 10; Stub.qr_border := 4;
                 Stub.factory := DefaultFactory; Stub.data_list := ["hello"] |}).
  pose (q3 := {| Stub.version := Some 1%Z; Stub.error_correction := ERROR_CORRECT_M;
                 Stub.qr_box_size := 10; Stub.qr_border := 4;
                 Stub.factory := DefaultFactory; Stub.data_list := ["hello"] |}).
  assert (H1 : current_qr st = Some q3) by reflexivity.
  assert (H2 : "out.svg" <> "") by discriminate.
  assert (H3 : PyStr.last_item (PyStr.split "." "out.svg") = Some "svg")
    by reflexivity.
  assert (H4 : current_spec st = Some 1%nat) by reflexivity.
  assert (H5 : specs st !! 1%nat = Some s) by reflexivity.
  assert (H6 : bus_subs st = [ConsoleWrite]) by reflexivity.
  assert (H7 : fst (fst (@save Stub.external (for_extension "svg") q3 "out.svg"
                           (fill_color s) (back_color (background s))
                           (box_size s) (border s) st)) = Returns tt)
    by reflexivity.
  exact (@save_success_reported Stub.external st "out.svg" "svg" 1%nat s
           q3 q1 q2 q3 H1 H2 H3 H4 H5 H6 eq_refl eq_refl eq_refl H7).
Defined.

(** X4. Whatever the libraries do and whatever the state is, a save lets
    no exception of a class derived from [Exception] out: every such
    exception of the try block is caught. What leaves the command, if
    anything, is of a class outside [Exception] (KeyboardInterrupt,
    SystemExit, GeneratorExit), which [except Exception] does not take.
    The command puts one message on the bus at most, and the state it
    leaves differs from the one before by text added at the end of the
    console only. *)
Theorem save_catches_every_Exception `{External}
    (answer : string) (st : QRApp) :
  (forall e, fst (fst (SaveQRCommand_execute answer st)) = Raises e ->
             is_Exception e = false)
  /\ (length (published (snd (SaveQRCommand_execute answer st))) <= 1)%nat
  /\ exists text,
       snd (fst (SaveQRCommand_execute answer st))
       = set_console_text (console_text st ++ text) st.
Proof.
  destruct (save_summary answer st) as [Hraise Hcases].
  split; [exact Hraise|].
  destruct Hcases as [[Hp Hs]|(m & Hp & Hs)]; rewrite Hp, Hs.
  - split; [cbn; lia|]. exists "". rewrite string_app_nil_r.
    destruct st; reflexivity.
  - split; [cbn; lia|].
    destruct (log_lines_extends (bus_subs st) m (console_text st))
      as [suffix E].
    exists suffix. rewrite E. reflexivity.
Qed.

(** ** Generate: the ways it ends *)

Section GenerateRuns.

Context {lib : External}.

(** [set_preview] on an image, when the number fields hold numbers: the
    spec is built and the three attributes are set first; then the size
    is computed, the image resized and the photo made, and the first of
    these steps that raises ends the method. *)
Lemma set_preview_some_run img qr st s :
  widget_spec st = Some s ->
  set_preview (Some img) (Some qr) st
  = match preview_size AppConfig.preview_max
            (fst (img_size img)) (snd (img_size img)) with
    | Err e => (Raises e, preview_interrupted img qr s st, [])
    | Ok sz =>
        match img_resize img sz with
        | Err e => (Raises e, preview_interrupted img qr s st,
                    [CallResize img sz])
        | Ok d =>
            match photo_image d with
            | Err e => (Raises e, preview_interrupted img qr s st,
                        [CallResize img sz; CallPhotoImage d])
            | Ok ph => (Returns tt, previewed img qr s ph sz st,
                        [CallResize img sz; CallPhotoImage d])
            end
        end
    end.
Proof.
  unfold widget_spec. intros Hs.
  unfold set_preview, _build_spec, new_spec. run_m. cbn.
  destruct (box_var st) as [bs|e]; [|discriminate]. cbn.
  destruct (border_var st) as [bd|e]; [|discriminate]. cbn.
  injection Hs as <-.
  destruct (img_size img) as [w h]. cbn [fst snd].
  destruct (preview_size AppConfig.preview_max w h) as [sz|e]; cbn;
    [|reflexivity].
  destruct (img_resize img sz) as [d|e]; cbn; [|reflexivity].
  destruct (photo_image d) as [ph|e]; cbn; reflexivity.
Qed.

(** The calls of Generate up to the image of the library. *)
Lemma generate_run st l s ws q1 q2 q3 img img1 tc d ph w h w' h' :
  specs st !! l = Some s ->
  PyStr.strip (data s) <> "" ->
  widget_spec st = Some ws ->
  bus_subs st = [ConsoleWrite] ->
  qr_new None (err_map_get (error_level s)) (box_size s) (border s)
    DefaultFactory = Ok q1 ->
  qr_add_text q1 (data s) = Ok q2 ->
  qr_make q2 = Ok q3 ->
  qr_make_image q3 (fill_color s) (Some (back_color (background s))) = Ok img ->
  (img_convert img "RGBA" = Ok img1 /\ tc = [CallConvert img "RGBA"]
   \/ exists e, img_convert img "RGBA" = Err e
                /\ is_Exception e = true
                /\ img_convert img "RGB" = Ok img1
                /\ tc = [CallConvert img "RGBA"; CallConvert img "RGB"]) ->
  img_size img1 = (w, h) ->
  preview_size AppConfig.preview_max w h = Ok (w', h') ->
  img_resize img1 (w', h') = Ok d ->
  photo_image d = Ok ph ->
  GenerateQRCommand_execute l st
  = (Returns tt,
     logged (generated_message s) (previewed img1 q3 ws ph (w', h') st),
     (setup_calls s q1 q2
      ++ [CallMakeImage q3 (fill_color s) (Some (back_color (background s)))]
      ++ tc
      ++ [CallResize img1 (w', h'); CallPhotoImage d;
          Publish (generated_message s)])%list).
Proof.
  intros Hl Hd Hw Hb H1 H2 H3 H4 Hc Hsz Hps Hr Hph.
  assert (Hb' : bus_subs (previewed img1 q3 ws ph (w', h') st) = [ConsoleWrite])
    by exact Hb.
  unfold GenerateQRCommand_execute. run_m. unfold deref. rewrite Hl. run_m.
  rewrite (truthy_nonempty _ Hd). cbn [negb]. run_m.
  rewrite H1. run_m. rewrite H2. run_m. rewrite H3. run_m. rewrite H4. run_m.
  destruct Hc as [[Hc ->]|(e & Hc1 & He & Hc2 & ->)].
  - rewrite Hc. run_m.
    rewrite (set_preview_some_run img1 q3 st ws Hw), Hsz. cbn [fst snd].
    rewrite Hps, Hr, Hph. cbv beta iota.
    fold (generated_message s). rewrite (publish_console _ _ Hb').
    reflexivity.
  - rewrite Hc1. run_m. rewrite He, Hc2. run_m.
    rewrite (set_preview_some_run img1 q3 st ws Hw), Hsz. cbn [fst snd].
    rewrite Hps, Hr, Hph. cbv beta iota.
    fold (generated_message s). rewrite (publish_console _ _ Hb').
    reflexivity.
Qed.

(** Generate when both conversions raise: the second exception leaves
    the command, before the preview is touched. *)
Lemma generate_convert_fails st l s q1 q2 q3 img e1 e2 :
  specs st !! l = Some s ->
  PyStr.strip (data s) <> "" ->
  qr_new None (err_map_get (error_level s)) (box_size s) (border s)
    DefaultFactory = Ok q1 ->
  qr_add_text q1 (data s) = Ok q2 ->
  qr_make q2 = Ok q3 ->
  qr_make_image q3 (fill_color s) (Some (back_color (background s))) = Ok img ->
  img_convert img "RGBA" = Err e1 ->
  is_Exception e1 = true ->
  img_convert img "RGB" = Err e2 ->
  GenerateQRCommand_execute l st
  = (Raises e2, st,
     (setup_calls s q1 q2
      ++ [CallMakeImage q3 (fill_color s) (Some (back_color (background s)));
          CallConvert img "RGBA"; CallConvert img "RGB"])%list).
Proof.
  intros Hl Hd H1 H2 H3 H4 Hc1 He Hc2.
  unfold GenerateQRCommand_execute. run_m. unfold deref. rewrite Hl. run_m.
  rewrite (truthy_nonempty _ Hd). cbn [negb]. run_m.
  rewrite H1. run_m. rewrite H2. run_m. rewrite H3. run_m. rewrite H4. run_m.
  rewrite Hc1. run_m. rewrite He, Hc2. reflexivity.
Qed.

(** Generate when the conversion to RGBA raises an exception of a class
    outside [Exception]: the clause does not take it, no second
    conversion is asked for. *)
Lemma generate_convert_escapes st l s q1 q2 q3 img e1 :
  specs st !! l = Some s ->
  PyStr.strip (data s) <> "" ->
  qr_new None (err_map_get (error_level s)) (box_size s) (border s)
    DefaultFactory = Ok q1 ->
  qr_add_text q1 (data s) = Ok q2 ->
  qr_make q2 = Ok q3 ->
  qr_make_image q3 (fill_color s) (Some (back_color (background s))) = Ok img ->
  img_convert img "RGBA" = Err e1 ->
  is_Exception e1 = false ->
  GenerateQRCommand_execute l st
  = (Raises e1, st,
     (setup_calls s q1 q2
      ++ [CallMakeImage q3 (fill_color s) (Some (back_color (background s)));
          CallConvert img "RGBA"])%list).
Proof.
  intros Hl Hd H1 H2 H3 H4 Hc1 He.
  unfold GenerateQRCommand_execute. run_m. unfold deref. rewrite Hl. run_m.
  rewrite (truthy_nonempty _ Hd). cbn [negb]. run_m.
  rewrite H1. run_m. rewrite H2. run_m. rewrite H3. run_m. rewrite H4. run_m.
  rewrite Hc1. run_m. rewrite He. reflexivity.
Qed.

Lemma generate_image_failure st l s e tr :
  specs st !! l = Some s ->
  PyStr.strip (data s) <> "" ->
  image_failure s e tr ->
  GenerateQRCommand_execute l st = (Raises e, st, tr).
Proof.
  intros Hl Hd Hf.
  unfold GenerateQRCommand_execute. run_m. unfold deref. rewrite Hl. run_m.
  rewrite (truthy_nonempty _ Hd). cbn [negb]. run_m.
  destruct Hf as [H1|q1 H1 H2|q1 q2 H1 H2 H3|q1 q2 q3 H1 H2 H3 H4].
  - rewrite H1. reflexivity.
  - rewrite H1. run_m. rewrite H2. reflexivity.
  - rewrite H1. run_m. rewrite H2. run_m. rewrite H3. reflexivity.
  - rewrite H1. run_m. rewrite H2. run_m. rewrite H3. run_m. rewrite H4.
    reflexivity.
Qed.

Lemma image_failure_calls s e tr :
  image_failure s e tr -> forallb is_call tr = true.
Proof. intros Hf. destruct Hf; reflexivity. Qed.

End GenerateRuns.

(** X5. An exception of the library while Generate makes the image (in
    [QRCode(...)], [add_data], [make] or [make_image]) is not caught: the
    command raises it. Up to there only library calls were made: no
    dialog is shown, nothing is published, and the state with the old
    preview is unchanged. *)
Theorem generate_library_error_escapes `{External}
    (st : QRApp) (l : ref) (s : QRSpec) (e : Exn) (tr : list Event) :
  specs st !! l = Some s ->
  PyStr.strip (data s) <> "" ->
  image_failure s e tr ->
  GenerateQRCommand_execute l st = (Raises e, st, tr)
  /\ dialogs tr = [] /\ published tr = [].
Proof.
  intros Hl Hd Hf. split; [exact (generate_image_failure st l s e tr Hl Hd Hf)|].
  pose proof (image_failure_calls s e tr Hf) as Hc.
  split; [exact (calls_dialogs tr Hc)|exact (calls_published tr Hc)].
Qed.

Lemma generate_library_error_escapes_witness :
  let st := one_spec_state Stub.external 0 in
  let e := Exception "ValueError"
             "Invalid box size (was 0, expected larger than 0)" in
  let tr := [@CallQRCode Stub.external None ERROR_CORRECT_M 0 4 DefaultFactory] in
  GenerateQRCommand_execute 0 st = (Raises e, st, tr)
  /\ dialogs tr = [] /\ published tr = [].
Proof.
  intros st e tr.
  apply (@generate_library_error_escapes Stub.external st 0%nat
           {| data := "hello"; error_level := "M"; box_size := 0;
              border := 4; fill_color := "black";
              background := WhiteBackground |} e tr).
  - reflexivity.
  - discriminate.
  - apply fails_new. reflexivity.
Defined.

(** X6. A generation in which every library call returns: the command
    returns after the calls [QRCode], [add_data], [make], [make_image],
    [convert("RGBA")], [resize] to the preview size and [PhotoImage], and
    one message. The preview holds the converted image and the QR object,
    [current_spec] refers to a new spec built from the widgets, the label
    shows the photo, the status line reads "Preview" with the size, and
    the console has the line that names the level, box, border and
    background of the spec. *)
Theorem generate_success `{External}
    (st : QRApp) (l : ref) (s ws : QRSpec) (q1 q2 q3 : QRCode)
    (img img1 d : Image) (ph : PhotoImage) (w h w' h' : Z) :
  specs st !! l = Some s ->
  PyStr.strip (data s) <> "" ->
  widget_spec st = Some ws ->
  bus_subs st = [ConsoleWrite] ->
  qr_new None (err_map_get (error_level s)) (box_size s) (border s)
    DefaultFactory = Ok q1 ->
  qr_add_text q1 (data s) = Ok q2 ->
  qr_make q2 = Ok q3 ->
  qr_make_image q3 (fill_color s) (Some (back_color (background s))) = Ok img ->
  img_convert img "RGBA" = Ok img1 ->
  img_size img1 = (w, h) ->
  preview_size AppConfig.preview_max w h = Ok (w', h') ->
  img_resize img1 (w', h') = Ok d ->
  photo_image d = Ok ph ->
  fst (fst (GenerateQRCommand_execute l st)) = Returns tt
  /\ snd (GenerateQRCommand_execute l st)
     = [CallQRCode None (err_map_get (error_level s)) (box_size s) (border s)
          DefaultFactory;
        CallAddText q1 (data s); CallMake q2;
        CallMakeImage q3 (fill_color s) (Some (back_color (background s)));
        CallConvert img "RGBA"; CallResize img1 (w', h'); CallPhotoImage d;
        Publish ("Generated QR (EC=" ++ error_level s
                 ++ ", box=" ++ PyStr.of_Z (box_size s)
                 ++ ", border=" ++ PyStr.of_Z (border s)
                 ++ ", bg=" ++ name (background s) ++ ").")]
  /\ current_image (snd (fst (GenerateQRCommand_execute l st))) = Some img1
  /\ current_qr (snd (fst (GenerateQRCommand_execute l st))) = Some q3
  /\ current_spec (snd (fst (GenerateQRCommand_execute l st)))
     = Some (length (specs st))
  /\ specs (snd (fst (GenerateQRCommand_execute l st)))
     = (specs st ++ [ws])%list
  /\ preview_photo (snd (fst (GenerateQRCommand_execute l st))) = Some ph
  /\ label_image (snd (fst (GenerateQRCommand_execute l st))) = Some ph
  /\ status_var (snd (fst (GenerateQRCommand_execute l st)))
     = "Preview " ++ PyStr.of_Z w' ++ times ++ PyStr.of_Z h'
  /\ console_text (snd (fst (GenerateQRCommand_execute l st)))
     = console_text st ++ (generated_message s ++ nl).
Proof.
  intros Hl Hd Hw Hb H1 H2 H3 H4 Hc Hsz Hps Hr Hph.
  rewrite (generate_run st l s ws q1 q2 q3 img img1
             [CallConvert img "RGBA"] d ph w h w' h')
    by (try assumption; left; auto).
  cbn [fst snd]. split; [reflexivity|]. split; [reflexivity|].
  split; [reflexivity|]. split; [reflexivity|]. split; [reflexivity|].
  split; [reflexivity|]. split; [reflexivity|]. split; [reflexivity|].
  split; reflexivity.
Qed.

Lemma generate_success_witness :
  let st := one_spec_state Stub.external 10 in
  let rgba := {| Stub.mode := "RGBA"; Stub.size := (290, 290)%Z |} in
  fst (fst (GenerateQRCommand_execute 0 st)) = Returns tt
  /\ current_image (snd (fst (GenerateQRCommand_execute 0 st))) = Some rgba
  /\ status_var (snd (fst (GenerateQRCommand_execute 0 st)))
     = "Preview 290" ++ times ++ "290"
  /\ published (snd (GenerateQRCommand_execute 0 st))
     = ["Generated QR (EC=M, box=10, border=4, bg=White)."].
Proof.
  intros st rgba.
  pose (s := {| data := "hello"; error_level := "M"; box_size := 10;
                border := 4; fill_color := "black";
                background := WhiteBackground |}).
  pose (q1 := {| Stub.version := None; Stub.error_correction := ERROR_CORRECT_M;
                 Stub.qr_box_size := 10; Stub.qr_border := 4;
                 Stub.factory := DefaultFactory; Stub.data_list := [] |}).
  pose (q2 := {| Stub.version := None; Stub.error_correction := ERROR_CORRECT_M;
                 Stub.qr_box_size := 10; Stub.qr_border := 4;
                 Stub.factory := DefaultFactory; Stub.data_list := ["hello"] |}).
  pose (q3 := {| Stub.version := Some 1%Z; Stub.error_correction := ERROR_CORRECT_M;
                 Stub.qr_box_size := 10; Stub.qr_border := 4;
                 Stub.factory := DefaultFactory; Stub.data_list := ["hello"] |}).
  pose (img := {| Stub.mode := "1"; Stub.size := (290, 290)%Z |}).
  assert (Hl : specs st !! 0%nat = Some s) by reflexivity.
  assert (Hd : PyStr.strip (data s) <> "") by discriminate.
  assert (Hw : widget_spec st = Some s) by reflexivity.
  assert (Hb : bus_subs st = [ConsoleWrite]) by reflexivity.
  assert (Hps : preview_size AppConfig.preview_max 290 290 = Ok (290, 290)%Z)
    by (vm_compute; reflexivity).
  destruct (@generate_success Stub.external st 0%nat s s q1 q2 q3 img rgba rgba
              rgba 290 290 290 290 Hl Hd Hw Hb eq_refl eq_refl eq_refl eq_refl
              eq_refl eq_refl Hps eq_refl eq_refl)
    as (Ho & Htr & Hi & _ & _ & _ & _ & _ & Hst & _).
  split; [exact Ho|]. split; [exact Hi|]. split; [exact Hst|].
  rewrite Htr. reflexivity.
Defined.

(** X7. When the conversion to RGBA raises an exception of a class
    derived from [Exception], Generate converts to RGB instead, and the
    preview holds the RGB image; both conversions are asked of the
    library, in that order. When the conversion to RGB raises too, its
    exception leaves the command: nothing was published and the state is
    unchanged. When the conversion to RGBA raises an exception of a class
    outside [Exception] (KeyboardInterrupt, SystemExit, GeneratorExit),
    there is no fallback: that exception leaves the command, and the
    conversion to RGB is not asked for. *)
Theorem generate_rgb_fallback `{External}
    (st : QRApp) (l : ref) (s ws : QRSpec) (q1 q2 q3 : QRCode)
    (img : Image) (e1 : Exn) :
  specs st !! l = Some s ->
  PyStr.strip (data s) <> "" ->
  widget_spec st = Some ws ->
  bus_subs st = [ConsoleWrite] ->
  qr_new None (err_map_get (error_level s)) (box_size s) (border s)
    DefaultFactory = Ok q1 ->
  qr_add_text q1 (data s) = Ok q2 ->
  qr_make q2 = Ok q3 ->
  qr_make_image q3 (fill_color s) (Some (back_color (background s))) = Ok img ->
  img_convert img "RGBA" = Err e1 ->
  (is_Exception e1 = true ->
   (forall img1 d ph w h w' h',
      img_convert img "RGB" = Ok img1 ->
      img_size img1 = (w, h) ->
      preview_size AppConfig.preview_max w h = Ok (w', h') ->
      img_resize img1 (w', h') = Ok d ->
      photo_image d = Ok ph ->
      fst (fst (GenerateQRCommand_execute l st)) = Returns tt
      /\ current_image (snd (fst (GenerateQRCommand_execute l st))) = Some img1
      /\ snd (GenerateQRCommand_execute l st)
         = [CallQRCode None (err_map_get (error_level s)) (box_size s)
              (border s) DefaultFactory;
            CallAddText q1 (data s); CallMake q2;
            CallMakeImage q3 (fill_color s) (Some (back_color (background s)));
            CallConvert img "RGBA"; CallConvert img "RGB";
            CallResize img1 (w', h'); CallPhotoImage d;
            Publish (generated_message s)])
   /\ (forall e2,
         img_convert img "RGB" = Err e2 ->
         GenerateQRCommand_execute l st
         = (Raises e2, st,
            [CallQRCode None (err_map_get (error_level s)) (box_size s)
               (border s) DefaultFactory;
             CallAddText q1 (data s); CallMake q2;
             CallMakeImage q3 (fill_color s) (Some (back_color (background s)));
             CallConvert img "RGBA"; CallConvert img "RGB"])))
  /\ (is_Exception e1 = false ->
      GenerateQRCommand_execute l st
      = (Raises e1, st,
         [CallQRCode None (err_map_get (error_level s)) (box_size s)
            (border s) DefaultFactory;
          CallAddText q1 (data s); CallMake q2;
          CallMakeImage q3 (fill_color s) (Some (back_color (background s)));
          CallConvert img "RGBA"])).
Proof.
  intros Hl Hd Hw Hb H1 H2 H3 H4 Hc1. split; [intros He; split|intros He].
  - intros img1 d ph w h w' h' Hc2 Hsz Hps Hr Hph.
    rewrite (generate_run st l s ws q1 q2 q3 img img1
               [CallConvert img "RGBA"; CallConvert img "RGB"]
               d ph w h w' h')
      by (try assumption; right; exists e1; auto).
    cbn [fst snd]. split; [reflexivity|]. split; reflexivity.
  - intros e2 Hc2.
    exact (generate_convert_fails st l s q1 q2 q3 img e1 e2
             Hl Hd H1 H2 H3 H4 Hc1 He Hc2).
  - exact (generate_convert_escapes st l s q1 q2 q3 img e1
             Hl Hd H1 H2 H3 H4 Hc1 He).
Qed.

Lemma generate_rgb_fallback_witness :
  let st := one_spec_state stub_without_alpha 10 in
  let rgb := {| Stub.mode := "RGB"; Stub.size := (290, 290)%Z |} in
  fst (fst (GenerateQRCommand_execute 0 st)) = Returns tt
  /\ current_image (snd (fst (GenerateQRCommand_execute 0 st))) = Some rgb.
Proof.
  intros st rgb.
  pose (s := {| data := "hello"; error_level := "M"; box_size := 10;
                border := 4; fill_color := "black";
                background := WhiteBackground |}).
  pose (q1 := {| Stub.version := None; Stub.error_correction := ERROR_CORRECT_M;
                 Stub.qr_box_size := 10; Stub.qr_border := 4;
                 Stub.factory := DefaultFactory; Stub.data_list := [] |}).
  pose (q2 := {| Stub.version := None; Stub.error_correction := ERROR_CORRECT_M;
                 Stub.qr_box_size := 10; Stub.qr_border := 4;
                 Stub.factory := DefaultFactory; Stub.data_list := ["hello"] |}).
  pose (q3 := {| Stub.version := Some 1%Z; Stub.error_correction := ERROR_CORRECT_M;
                 Stub.qr_box_size := 10; Stub.qr_border := 4;
                 Stub.factory := DefaultFactory; Stub.data_list := ["hello"] |}).
  pose (img := {| Stub.mode := "1"; Stub.size := (290, 290)%Z |}).
  assert (Hl : specs st !! 0%nat = Some s) by reflexivity.
  assert (Hd : PyStr.strip (data s) <> "") by discriminate.
  assert (Hw : widget_spec st = Some s) by reflexivity.
  assert (Hb : bus_subs st = [ConsoleWrite]) by reflexivity.
  assert (Hps : preview_size AppConfig.preview_max 290 290 = Ok (290, 290)%Z)
    by (vm_compute; reflexivity).
  destruct (@generate_rgb_fallback stub_without_alpha st 0%nat s s q1 q2 q3 img
              (Exception "ValueError" "conversion not supported")
              Hl Hd Hw Hb eq_refl eq_refl eq_refl eq_refl eq_refl)
    as [Hcaught _].
  destruct (Hcaught eq_refl) as [Hok _].
  destruct (Hok rgb rgb rgb 290%Z 290%Z 290%Z 290%Z eq_refl eq_refl Hps
              eq_refl eq_refl) as (Ho & Hi & _).
  split; [exact Ho|exact Hi].
Defined.

(** X8. When the box size or the border field holds no number, pressing
    Generate raises the error of reading it (the box size first) before
    anything else happens: no spec is built, no dialog is shown, no
    library call is made and the state is unchanged. *)
Theorem generate_without_number `{External} (st : QRApp) (e : Exn) :
  box_var st = Err e
  \/ (exists bs, box_var st = Ok bs /\ border_var st = Err e) ->
  on_generate st = (Raises e, st, []).
Proof.
  intros [Hb|(bs & Hb & Hd)]; unfold on_generate, _build_spec; run_m.
  - rewrite Hb. reflexivity.
  - rewrite Hb. run_m. rewrite Hd. reflexivity.
Qed.

Lemma generate_without_number_witness :
  let e := Exception "TclError" "expected floating-point number but got x" in
  let st := @set_border_var Stub.external (Err e) initial in
  on_generate st = (Raises e, st, []).
Proof.
  intros e st.
  apply (@generate_without_number Stub.external st e).
  right. exists 10%Z. split; reflexivity.
Defined.

(** ** What every action keeps *)

Section Effects.

Context {lib : External}.

Lemma console_grown_refl st : console_grown st st.
Proof. exists "". rewrite string_app_nil_r. reflexivity. Qed.

Lemma console_grown_trans st1 st2 st3 :
  console_grown st1 st2 -> console_grown st2 st3 -> console_grown st1 st3.
Proof.
  intros [s1 E1] [s2 E2]. exists (s1 ++ s2).
  rewrite E2, E1. apply string_app_assoc.
Qed.

(** What Generate does on a spec of the store, whatever the libraries
    do: it follows no dangling reference, writes no file and publishes
    one message at most; the console only grows; and the preview is
    either kept with the store, or replaced by an image, a QR object and
    a new spec built from the widgets. *)
Lemma generate_summary st l s ws :
  specs st !! l = Some s ->
  widget_spec st = Some ws ->
  fst (fst (GenerateQRCommand_execute l st)) <> Stuck
  /\ writes_no_file (snd (GenerateQRCommand_execute l st)) = true
  /\ (length (published (snd (GenerateQRCommand_execute l st))) <= 1)%nat
  /\ console_grown st (snd (fst (GenerateQRCommand_execute l st)))
  /\ bus_subs (snd (fst (GenerateQRCommand_execute l st))) = bus_subs st
  /\ ((current_image (snd (fst (GenerateQRCommand_execute l st)))
       = current_image st
       /\ current_qr (snd (fst (GenerateQRCommand_execute l st)))
          = current_qr st
       /\ current_spec (snd (fst (GenerateQRCommand_execute l st)))
          = current_spec st
       /\ specs (snd (fst (GenerateQRCommand_execute l st))) = specs st
       /\ published (snd (GenerateQRCommand_execute l st)) = [])
      \/ (exists img qr,
            current_image (snd (fst (GenerateQRCommand_execute l st)))
            = Some img
            /\ current_qr (snd (fst (GenerateQRCommand_execute l st)))
               = Some qr
            /\ current_spec (snd (fst (GenerateQRCommand_execute l st)))
               = Some (length (specs st))
            /\ specs (snd (fst (GenerateQRCommand_execute l st)))
               = (specs st ++ [ws])%list)).
Proof.
  intros Hl Hw.
  pose (P := fun r : Outcome unit * QRApp * list Event =>
    fst (fst r) <> Stuck
    /\ writes_no_file (snd r) = true
    /\ (length (published (snd r)) <= 1)%nat
    /\ console_grown st (snd (fst r))
    /\ bus_subs (snd (fst r)) = bus_subs st
    /\ ((current_image (snd (fst r)) = current_image st
         /\ current_qr (snd (fst r)) = current_qr st
         /\ current_spec (snd (fst r)) = current_spec st
         /\ specs (snd (fst r)) = specs st
         /\ published (snd r) = [])
        \/ (exists img qr,
              current_image (snd (fst r)) = Some img
              /\ current_qr (snd (fst r)) = Some qr
              /\ current_spec (snd (fst r)) = Some (length (specs st))
              /\ specs (snd (fst r)) = (specs st ++ [ws])%list))).
  change (P (GenerateQRCommand_execute l st)).
  assert (Kept : forall o tr,
            o <> Stuck -> writes_no_file tr = true -> published tr = [] ->
            P (o, st, tr)).
  { intros o tr Ho Hf Hp. unfold P. cbn [fst snd]. rewrite Hp.
    split; [exact Ho|]. split; [exact Hf|]. split; [cbn; lia|].
    split; [apply console_grown_refl|]. split; [reflexivity|].
    left. auto 10. }
  assert (Interrupted : forall e img qr tr,
            writes_no_file tr = true -> published tr = [] ->
            P (Raises e, preview_interrupted img qr ws st, tr)).
  { intros e img qr tr Hf Hp. unfold P. cbn [fst snd]. rewrite Hp.
    split; [discriminate|]. split; [exact Hf|]. split; [cbn; lia|].
    split; [exact (console_grown_refl st)|]. split; [reflexivity|].
    right. exists img, qr. auto. }
  assert (Shown : forall img qr ph sz m tr,
            writes_no_file tr = true -> published tr = [m] ->
            P (Returns tt,
               set_console_text
                 (log_lines (bus_subs st) m (console_text st))
                 (previewed img qr ws ph sz st), tr)).
  { intros img qr ph sz m tr Hf Hp. unfold P. cbn [fst snd]. rewrite Hp.
    split; [discriminate|]. split; [exact Hf|]. split; [cbn; lia|].
    split; [apply log_lines_extends|]. split; [reflexivity|].
    right. exists img, qr. auto. }
  assert (Tail : forall img1 q3 pre,
            writes_no_file pre = true -> published pre = [] ->
            P (let '(o, st2, t2) :=
                 bind (set_preview (Some img1) (Some q3))
                   (fun _ => publish (generated_message s)) st in
               (o, st2, (pre ++ t2)%list))).
  { intros img1 q3 pre Hf Hp. unfold bind.
    rewrite (set_preview_some_run img1 q3 st ws Hw).
    destruct (preview_size _ _ _) as [sz|e].
    2:{ rewrite app_nil_r. apply Interrupted; assumption. }
    destruct (img_resize img1 sz) as [d|e].
    2:{ apply Interrupted.
        - unfold writes_no_file in *. rewrite forallb_app, Hf. reflexivity.
        - rewrite published_app, Hp. reflexivity. }
    destruct (photo_image d) as [ph|e].
    2:{ apply Interrupted.
        - unfold writes_no_file in *. rewrite forallb_app, Hf. reflexivity.
        - rewrite published_app, Hp. reflexivity. }
    rewrite publish_run. cbv beta iota. apply Shown.
    - unfold writes_no_file in *. rewrite forallb_app, Hf. reflexivity.
    - rewrite published_app, Hp. reflexivity. }
  unfold GenerateQRCommand_execute. run_m. unfold deref. rewrite Hl. run_m.
  destruct (negb (PyStr.truthy (PyStr.strip (data s)))).
  { apply Kept; [discriminate|reflexivity|reflexivity]. }
  run_m.
  destruct (qr_new _ _ _ _ _) as [q1|e]; run_m;
    [|apply Kept; [discriminate|reflexivity|reflexivity]].
  destruct (qr_add_text q1 _) as [q2|e]; run_m;
    [|apply Kept; [discriminate|reflexivity|reflexivity]].
  destruct (qr_make q2) as [q3|e]; run_m;
    [|apply Kept; [discriminate|reflexivity|reflexivity]].
  destruct (qr_make_image q3 _ _) as [img|e]; run_m;
    [|apply Kept; [discriminate|reflexivity|reflexivity]].
  fold (generated_message s).
  destruct (img_convert img "RGBA") as [img1|e1]; run_m.
  - fold (generated_message s).
    specialize (Tail img1 q3
      [CallQRCode None (err_map_get (error_level s)) (box_size s) (border s)
         DefaultFactory; CallAddText q1 (data s); CallMake q2;
       CallMakeImage q3 (fill_color s) (Some (back_color (background s)));
       CallConvert img "RGBA"] eq_refl eq_refl).
    unfold bind in Tail.
    destruct (set_preview (Some img1) (Some q3) st) as [[o st2] t2].
    destruct o as [[]|e|]; cbn [app] in *; try exact Tail.
    destruct (publish (generated_message s) st2) as [[o3 st3] t3].
    exact Tail.
  - exn_cases; [|apply Kept; [discriminate|reflexivity|reflexivity]].
    destruct (img_convert img "RGB") as [img1|e2]; run_m;
      [|apply Kept; [discriminate|reflexivity|reflexivity]].
    fold (generated_message s).
    specialize (Tail img1 q3
      [CallQRCode None (err_map_get (error_level s)) (box_size s) (border s)
         DefaultFactory; CallAddText q1 (data s); CallMake q2;
       CallMakeImage q3 (fill_color s) (Some (back_color (background s)));
       CallConvert img "RGBA"; CallConvert img "RGB"] eq_refl eq_refl).
    unfold bind in Tail.
    destruct (set_preview (Some img1) (Some q3) st) as [[o st2] t2].
    destruct o as [[]|e|]; cbn [app] in *; try exact Tail.
    destruct (publish (generated_message s) st2) as [[o3 st3] t3].
    exact Tail.
Qed.

Lemma consistent_after_build st s :
  preview_consistent st ->
  preview_consistent (set_specs (specs st ++ [s]) st).
Proof.
  intros [Hnone|(img & qr & l & s0 & Hi & Hq & Hc & Hl)]; [left; exact Hnone|].
  right. exists img, qr, l, s0. repeat split; try assumption.
  cbn [specs set_specs]. apply lookup_app_l_Some. exact Hl.
Qed.

(** The Generate button, whatever the libraries do. *)
Lemma on_generate_summary st :
  fst (fst (on_generate st)) <> Stuck
  /\ writes_no_file (snd (on_generate st)) = true
  /\ (length (published (snd (on_generate st))) <= 1)%nat
  /\ console_grown st (snd (fst (on_generate st)))
  /\ bus_subs (snd (fst (on_generate st))) = bus_subs st
  /\ (preview_consistent st -> preview_consistent (snd (fst (on_generate st)))).
Proof.
  unfold on_generate.
  destruct (widget_spec st) as [ws|] eqn:Hw.
  2:{ destruct (build_spec_raises st Hw) as [e E].
      rewrite (bind_raises _ _ _ _ _ _ E). cbn [fst snd].
      split; [discriminate|]. split; [reflexivity|]. split; [cbn; lia|].
      split; [apply console_grown_refl|]. split; [reflexivity|]. auto. }
  assert (exists bs bd, box_var st = Ok bs /\ border_var st = Ok bd)
    as (bs & bd & Hb & Hd).
  { unfold widget_spec in Hw. destruct (box_var st); [|discriminate].
    destruct (border_var st); [eauto|discriminate]. }
  destruct (build_spec_ok st bs bd Hb Hd) as (s' & Hw' & E).
  rewrite Hw in Hw'. injection Hw' as <-.
  rewrite (bind_returns _ _ _ _ _ _ E). cbn [fst snd app].
  set (st1 := set_specs (specs st ++ [ws]) st).
  assert (Hw1 : widget_spec st1 = Some ws) by exact Hw.
  destruct (generate_summary st1 (length (specs st)) ws ws
              (lookup_new_spec _ _) Hw1)
    as (Hs & Hf & Hp & Hc & Hbus & Hprev).
  split; [exact Hs|]. split; [exact Hf|]. split; [exact Hp|].
  split; [exact Hc|]. split; [exact Hbus|].
  intros Hcons. pose proof (consistent_after_build st ws Hcons) as Hcons1.
  fold st1 in Hcons1.
  destruct Hprev
    as [(Hi & Hq & Hcs & Hsp & _)|(img & qr & Hi & Hq & Hcs & Hsp)].
  - destruct Hcons1 as [(N1 & N2 & N3)|(img & qr & l & s0 & C1 & C2 & C3 & C4)].
    + left. rewrite Hi, Hq, Hcs. auto.
    + right. exists img, qr, l, s0. rewrite Hi, Hq, Hcs, Hsp. auto.
  - right. exists img, qr, (length (specs st1)), ws.
    rewrite Hi, Hq, Hcs, Hsp. repeat split.
    apply lookup_new_spec.
Qed.

(** Clear, step by step: it cannot fail. *)
Lemma on_clear_run st :
  on_clear st = (Returns tt, cleared st, [Publish "Cleared."]).
Proof.
  unfold on_clear, set_preview. run_m. rewrite publish_run. reflexivity.
Qed.

(** With a consistent preview a save follows no dangling reference: it
    returns, or lets out an exception that [except Exception] does not
    take. *)
Lemma save_returns answer st :
  preview_consistent st ->
  fst (fst (SaveQRCommand_execute answer st)) = Returns tt
  \/ exists e, fst (fst (SaveQRCommand_execute answer st)) = Raises e
               /\ is_Exception e = false.
Proof.
  intros Hcons.
  assert (Hns : fst (fst (SaveQRCommand_execute answer st)) <> Stuck).
  { destruct (split_last_item "." answer) as [x Hx].
    unfold SaveQRCommand_execute. run_m.
    destruct Hcons as [(_ & Hq & _)|(img & qr & l & s & _ & Hq & Hc & Hl)];
      rewrite Hq; cbn [fst snd]; [discriminate|].
    destruct (PyStr.truthy answer); cbn [negb fst snd]; [|discriminate].
    rewrite Hx, Hc. unfold deref. rewrite Hl. cbn [fst snd].
    destruct (qr_new _ _ _ _ _) as [q1|e]; cbn [fst snd].
    2:{ exn_cases; rewrite ?publish_run; discriminate. }
    destruct (qr_add_text q1 _) as [q2|e]; cbn [fst snd].
    2:{ exn_cases; rewrite ?publish_run; discriminate. }
    destruct (qr_make q2) as [q3|e]; cbn [fst snd].
    2:{ exn_cases; rewrite ?publish_run; discriminate. }
    destruct (save_calls_only (for_extension x) q3 answer (fill_color s)
                (back_color (background s)) (box_size s) (border s) st)
      as [Hst _].
    assert (Hns : fst (fst (save (for_extension x) q3 answer (fill_color s)
                (back_color (background s)) (box_size s) (border s) st))
                <> Stuck).
    { destruct (for_extension x); cbn [save].
      - unfold PNGEncoder_save. run_m.
        destruct (qr_make_image _ _ _) as [i|e]; cbn; [|discriminate].
        destruct (String.eqb _ _); cbn.
        + destruct (img_convert i "RGBA") as [i'|e]; cbn; [|discriminate].
          destruct (img_save_png i' answer); cbn; discriminate.
        + destruct (img_save_png i answer); cbn; discriminate.
      - unfold SVGEncoder_save. run_m.
        destruct (qr_new _ _ _ _ SvgImage) as [a1|e]; cbn; [|discriminate].
        destruct (qr_add_list a1 _) as [a2|e]; cbn; [|discriminate].
        destruct (qr_make a2) as [a3|e]; cbn; [|discriminate].
        destruct (qr_make_image a3 _ None) as [i|e]; cbn; [|discriminate].
        destruct (file_open_wb answer) as [u|e]; cbn; [|discriminate].
        destruct (img_save_file i answer); cbn; discriminate. }
    destruct (save _ _ _ _ _ _ _ st) as [[o st1] t1].
    cbn [fst snd] in Hst, Hns. subst st1.
    destruct o as [[]|e|]; cbn [fst snd]; [| |contradiction].
    - rewrite publish_run. discriminate.
    - exn_cases; rewrite ?publish_run; discriminate. }
  destruct (save_summary answer st) as [Hraise _].
  destruct (fst (fst (SaveQRCommand_execute answer st))) as [[]|e|].
  - left. reflexivity.
  - right. exists e. split; [reflexivity|exact (Hraise e eq_refl)].
  - contradiction.
Qed.

(** What one action of the user does, whatever the libraries do. *)
Lemma step_effect (a : UserAction) (st : QRApp) :
  console_grown st (fst (step a st))
  /\ (length (published (snd (step a st))) <= 1)%nat
  /\ (is_save a = false -> writes_no_file (snd (step a st)) = true)
  /\ bus_subs (fst (step a st)) = bus_subs st
  /\ (preview_consistent st -> preview_consistent (fst (step a st))).
Proof.
  destruct a; cbn [step is_save].
  1-6: try (destruct (ec_values !! index));
       (split; [exact (console_grown_refl st)|]); (split; [cbn; lia|]);
       (split; [reflexivity|]); (split; [reflexivity|]); auto.
  - destruct (on_generate_summary st) as (_ & Hf & Hp & Hc & Hb & Hcons).
    unfold run_callback.
    destruct (on_generate st) as [[o st'] tr]. cbn [fst snd] in *. auto.
  - unfold run_callback, on_save.
    destruct (save_summary answer st) as [_ Hcases].
    destruct (SaveQRCommand_execute answer st) as [[o st'] tr].
    cbn [fst snd] in *.
    destruct Hcases as [[Hp ->]|(m & Hp & ->)]; rewrite Hp.
    + split; [apply console_grown_refl|]. split; [cbn; lia|].
      split; [discriminate|]. split; [reflexivity|]. auto.
    + split; [apply log_lines_extends|]. split; [cbn; lia|].
      split; [discriminate|]. split; [reflexivity|]. auto.
  - unfold run_callback. rewrite on_clear_run.
    split; [apply log_lines_extends|]. split; [cbn; lia|].
    split; [reflexivity|]. split; [reflexivity|].
    intros _. left. repeat split.
Qed.

(** The invariant of the running application. *)
Lemma reachable_consistent st :
  reachable st -> preview_consistent st /\ bus_subs st = [ConsoleWrite].
Proof.
  induction 1 as [|a st Hr [IHc IHb]].
  - split; [left; repeat split|reflexivity].
  - destruct (step_effect a st) as (_ & _ & _ & Hb & Hc).
    split; [exact (Hc IHc)|congruence].
Qed.

(** The specs that Generate builds and the one it leaves as current:
    none without numbers in the number fields; else one for the command,
    and when the preview is set a second one, to which [current_spec]
    then refers. The message of a generation is published in that last
    case only. *)
Lemma on_generate_store st :
  (widget_spec st = None
   /\ snd (fst (on_generate st)) = st)
  \/ exists s,
       widget_spec st = Some s
       /\ ((specs (snd (fst (on_generate st))) = (specs st ++ [s])%list
            /\ current_spec (snd (fst (on_generate st))) = current_spec st
            /\ published (snd (on_generate st)) = [])
           \/ (specs (snd (fst (on_generate st))) = (specs st ++ [s; s])%list
               /\ current_spec (snd (fst (on_generate st)))
                  = Some (S (length (specs st))))).
Proof.
  unfold on_generate.
  destruct (widget_spec st) as [ws|] eqn:Hw.
  2:{ left. destruct (build_spec_raises st Hw) as [e E].
      rewrite (bind_raises _ _ _ _ _ _ E). auto. }
  right. exists ws. split; [reflexivity|].
  assert (exists bs bd, box_var st = Ok bs /\ border_var st = Ok bd)
    as (bs & bd & Hb & Hd).
  { unfold widget_spec in Hw. destruct (box_var st); [|discriminate].
    destruct (border_var st); [eauto|discriminate]. }
  destruct (build_spec_ok st bs bd Hb Hd) as (s' & Hw' & E).
  rewrite Hw in Hw'. injection Hw' as <-.
  rewrite (bind_returns _ _ _ _ _ _ E). cbn [fst snd app].
  set (st1 := set_specs (specs st ++ [ws]) st).
  assert (Hw1 : widget_spec st1 = Some ws) by exact Hw.
  destruct (generate_summary st1 (length (specs st)) ws ws
              (lookup_new_spec _ _) Hw1)
    as (_ & _ & _ & _ & _ & Hprev).
  destruct (GenerateQRCommand_execute (length (specs st)) st1)
    as [[o st2] t2].
  cbn [fst snd] in *.
  destruct Hprev as [(_ & _ & Hcs & Hsp & Hp)|(img & qr & _ & _ & Hcs & Hsp)].
  - left. rewrite Hsp, Hcs, Hp. auto.
  - right. rewrite Hsp, Hcs. unfold st1. cbn [specs set_specs].
    rewrite <- app_assoc, length_app. cbn [app length].
    split; [reflexivity|]. f_equal. lia.
Qed.

(** A save that gets as far as the encoder: every request it makes of
    the library is made of the fields of the stored spec. *)
Lemma save_trace_from_spec st answer l s q0 q1 q2 q3 :
  current_qr st = Some q0 ->
  answer <> "" ->
  current_spec st = Some l ->
  specs st !! l = Some s ->
  qr_new None (err_map_get (error_level s)) (box_size s) (border s)
    DefaultFactory = Ok q1 ->
  qr_add_text q1 (data s) = Ok q2 ->
  qr_make q2 = Ok q3 ->
  exists x tail,
    PyStr.last_item (PyStr.split "." answer) = Some x
    /\ snd (SaveQRCommand_execute answer st)
       = (AskSaveAsFilename answer :: setup_calls s q1 q2
          ++ snd (save (for_extension x) q3 answer (fill_color s)
                    (back_color (background s)) (box_size s) (border s) st)
          ++ tail)%list.
Proof.
  intros Hq Ha Hc Hl H1 H2 H3.
  destruct (split_last_item "." answer) as [x Hx]. exists x.
  unfold SaveQRCommand_execute. run_m.
  rewrite Hq, (truthy_nonempty _ Ha), Hx. cbn [negb]. run_m.
  rewrite Hc. unfold deref. rewrite Hl. run_m.
  rewrite H1. run_m. rewrite H2. run_m. rewrite H3. run_m.
  destruct (save (for_extension x) q3 answer (fill_color s)
              (back_color (background s)) (box_size s) (border s) st)
    as [[o st1] t1].
  destruct o as [[]|e|]; try exn_cases; rewrite ?publish_run;
    cbn [fst snd setup_calls app].
  - eexists. split; [reflexivity|]. rewrite <- ?app_assoc. reflexivity.
  - eexists. split; [reflexivity|]. rewrite <- ?app_assoc. reflexivity.
  - exists []. split; [reflexivity|]. rewrite app_nil_r. reflexivity.
  - exists []. split; [reflexivity|]. rewrite app_nil_r. reflexivity.
Qed.

End Effects.

(** C3. No action changes a field of a spec that exists: the store after
    an action is the store before, followed by what the action has built,
    so every reference reads the same fields as before. Generate builds
    fresh specs, each holding the values of the widgets: none when a
    number field holds no number (the state is then unchanged), else one
    for the command, and when the preview is set a second one, which
    [set_preview] stores as [current_spec]; whenever the message of a
    generation is published, both were built. Save builds none and keeps
    [current_spec]: once the dialog has given a path, it asks the library
    for a QR object at the level, box size and border of the spec that
    [current_spec] refers to, adds the data of that spec, and calls the
    encoder with its fill color and background. Clear builds none and
    sets [current_spec] to [None]. The other actions build none and keep
    [current_spec]. *)
Theorem specs_never_mutated `{External} (a : UserAction) (st : QRApp) :
  exists added,
    specs (fst (step a st)) = (specs st ++ added)%list
    /\ (forall l s, specs st !! l = Some s ->
                    specs (fst (step a st)) !! l = Some s)
    /\ match a with
       | PressGenerate =>
           (widget_spec st = None /\ added = []
            /\ fst (step PressGenerate st) = st)
           \/ exists s,
                widget_spec st = Some s
                /\ ((added = [s]
                     /\ current_spec (fst (step PressGenerate st))
                        = current_spec st
                     /\ published (snd (step PressGenerate st)) = [])
                    \/ (added = [s; s]
                        /\ current_spec (fst (step PressGenerate st))
                           = Some (S (length (specs st)))
                        /\ specs (fst (step PressGenerate st))
                             !! S (length (specs st)) = Some s))
       | PressSave answer =>
           added = []
           /\ current_spec (fst (step (PressSave answer) st)) = current_spec st
           /\ (forall q0 l s,
                 current_qr st = Some q0 ->
                 answer <> "" ->
                 current_spec st = Some l ->
                 specs st !! l = Some s ->
                 (exists rest,
                    snd (step (PressSave answer) st)
                    = AskSaveAsFilename answer
                      :: CallQRCode None (err_map_get (error_level s))
                           (box_size s) (border s) DefaultFactory :: rest)
                 /\ (forall q1 q2 q3,
                       qr_new None (err_map_get (error_level s)) (box_size s)
                         (border s) DefaultFactory = Ok q1 ->
                       qr_add_text q1 (data s) = Ok q2 ->
                       qr_make q2 = Ok q3 ->
                       exists x tail,
                         PyStr.last_item (PyStr.split "." answer) = Some x
                         /\ snd (step (PressSave answer) st)
                            = (AskSaveAsFilename answer :: setup_calls s q1 q2
                               ++ snd (save (for_extension x) q3 answer
                                         (fill_color s)
                                         (back_color (background s))
                                         (box_size s) (border s) st)
                               ++ tail)%list))
       | PressClear =>
           added = [] /\ current_spec (fst (step PressClear st)) = None
       | _ => added = [] /\ current_spec (fst (step a st)) = current_spec st
       end.
Proof.
  assert (Hgrow : forall added,
            specs (fst (step a st)) = (specs st ++ added)%list ->
            forall l s, specs st !! l = Some s ->
                        specs (fst (step a st)) !! l = Some s).
  { intros added Hs l s Hl. rewrite Hs. apply lookup_app_l_Some. exact Hl. }
  destruct a.
  1-6: exists []; (split; [|split; [apply (Hgrow [])|]]);
       cbn [step]; rewrite ?app_nil_r;
       try (destruct (ec_values !! index)); auto.
  - (* Generate *)
    assert (Hfst : fst (step PressGenerate st) = snd (fst (on_generate st))
                   /\ snd (step PressGenerate st) = snd (on_generate st)).
    { cbn [step]. unfold run_callback.
      destruct (on_generate st) as [[o st'] tr]. auto. }
    destruct Hfst as [Hfst Hsnd].
    destruct (on_generate_store st)
      as [[Hw Hst]|(s & Hw & [(Hsp & Hcs & Hp)|(Hsp & Hcs)])].
    + exists []. rewrite Hfst, Hst, app_nil_r.
      split; [reflexivity|]. split; [auto|]. left. auto.
    + exists [s]. rewrite Hsnd, Hfst, Hsp.
      split; [reflexivity|].
      split; [intros l s0 Hl; apply lookup_app_l_Some; exact Hl|].
      right. exists s. split; [exact Hw|]. left.
      rewrite Hcs, Hp. auto.
    + exists [s; s]. rewrite Hfst, Hsp.
      split; [reflexivity|].
      split; [intros l s0 Hl; apply lookup_app_l_Some; exact Hl|].
      right. exists s. split; [exact Hw|]. right.
      rewrite Hcs. split; [reflexivity|]. split; [reflexivity|].
      change (specs st ++ [s; s])%list
        with (specs st ++ ([s] ++ [s]))%list.
      rewrite app_assoc.
      replace (S (length (specs st))) with (length (specs st ++ [s])%list)
        by (rewrite length_app; cbn [length]; lia).
      apply lookup_new_spec.
  - (* Save *)
    pose proof (on_save_frame answer st)
      as (_ & _ & _ & _ & _ & _ & _ & Hsp).
    destruct (save_command_state answer st) as [text Est].
    assert (Hfst : fst (step (PressSave answer) st)
                   = snd (fst (SaveQRCommand_execute answer st))
                   /\ snd (step (PressSave answer) st)
                      = snd (SaveQRCommand_execute answer st)).
    { cbn [step]. unfold run_callback, on_save.
      destruct (SaveQRCommand_execute answer st) as [[o st'] tr]. auto. }
    destruct Hfst as [Hfst Hsnd].
    exists []. split; [exact Hsp|].
    split; [apply (Hgrow []); exact Hsp|].
    split; [reflexivity|].
    split; [rewrite Hfst, Est; reflexivity|].
    intros q0 l s Hq Ha Hc Hl. rewrite Hsnd. split.
    + exact (save_first_calls st answer l s q0 Hq Ha Hc Hl).
    + intros q1 q2 q3 H1 H2 H3.
      exact (save_trace_from_spec st answer l s q0 q1 q2 q3
               Hq Ha Hc Hl H1 H2 H3).
  - (* Clear *)
    pose proof (on_clear_frame st)
      as (_ & _ & _ & _ & _ & _ & _ & Hsp).
    exists []. split; [exact Hsp|].
    split; [apply (Hgrow []); exact Hsp|].
    split; [reflexivity|].
    cbn [step]. unfold run_callback. rewrite on_clear_run. reflexivity.
Qed.

Lemma specs_never_mutated_witness :
  let st := fst (@run Stub.external [TypeInput "hello"; PressGenerate] initial) in
  let s := {| data := "hello"; error_level := "M"; box_size := 10; border := 4;
              fill_color := "black"; background := WhiteBackground |} in
  specs st !! 1%nat = Some s
  /\ specs (fst (step (PressSave "out.png") st)) !! 1%nat = Some s.
Proof.
  intros st s. split; [reflexivity|].
  destruct (@specs_never_mutated Stub.external (PressSave "out.png") st)
    as (added & _ & Hkeep & _).
  apply Hkeep. reflexivity.
Defined.

(** X9. In every state the user can reach the three attributes of the
    preview agree: [current_image], [current_qr] and [current_spec] are
    all unset, or all set with [current_spec] a spec of the store. A
    Generate that fails half-way, a failed save and Clear all keep it so. *)
Theorem reachable_preview_consistent `{External} (st : QRApp) :
  reachable st -> preview_consistent st.
Proof.
  intros Hr. exact (proj1 (reachable_consistent st Hr)).
Qed.

Lemma reachable_preview_consistent_witness :
  preview_consistent
    (fst (@run Stub.external [TypeInput "hello"; PressGenerate] initial)).
Proof.
  apply (@reachable_preview_consistent Stub.external).
  apply reachable_run. apply reachable_initial.
Defined.

(** X10. In every state the user can reach, Save never reads a spec
    that is not there. Whatever path the dialog gives and whatever the
    libraries do, the command returns normally, or lets out an exception
    of a class outside [Exception], which its [except Exception] does not
    take. When there is a QR object to save and the dialog gives a path,
    [current_spec] is a spec of the store, and the command goes on to ask
    the library for a QR object with the level, box size and border of
    that spec: the AttributeError of reading a field of [None] does not
    occur. *)
Theorem save_finds_its_spec_when_reachable `{External}
    (st : QRApp) (answer : string) :
  reachable st ->
  (fst (fst (on_save answer st)) = Returns tt
   \/ exists e, fst (fst (on_save answer st)) = Raises e
                /\ is_Exception e = false)
  /\ (forall q, current_qr st = Some q -> answer <> "" ->
      exists l s rest,
        current_spec st = Some l
        /\ specs st !! l = Some s
        /\ snd (on_save answer st)
           = AskSaveAsFilename answer
             :: CallQRCode None (err_map_get (error_level s)) (box_size s)
                  (border s) DefaultFactory :: rest).
Proof.
  intros Hr.
  pose proof (proj1 (reachable_consistent st Hr)) as Hcons.
  split; [unfold on_save; apply save_returns; exact Hcons|].
  intros q Hq Ha.
  destruct Hcons as [(_ & Hnone & _)|(img & qr & l & s & _ & _ & Hc & Hl)];
    [congruence|].
  destruct (save_first_calls st answer l s q Hq Ha Hc Hl) as [rest Hrest].
  exists l, s, rest. auto.
Qed.

Lemma save_finds_its_spec_when_reachable_witness :
  let st := fst (@run Stub.external [TypeInput "hello"; PressGenerate]
                   initial) in
  (fst (fst (on_save "/missing/out.png" st)) = Returns tt
   \/ exists e, fst (fst (on_save "/missing/out.png" st)) = Raises e
                /\ is_Exception e = false)
  /\ exists l s rest,
       current_spec st = Some l
       /\ specs st !! l = Some s
       /\ snd (on_save "/missing/out.png" st)
          = AskSaveAsFilename "/missing/out.png"
            :: CallQRCode None (err_map_get (error_level s)) (box_size s)
                 (border s) DefaultFactory :: rest.
Proof.
  intros st.
  assert (Hr : reachable st) by (apply reachable_run; apply reachable_initial).
  destruct (@save_finds_its_spec_when_reachable Stub.external st
              "/missing/out.png" Hr) as [Hout Hspec].
  split; [exact Hout|].
  apply (Hspec {| Stub.version := Some 1%Z;
                  Stub.error_correction := ERROR_CORRECT_M;
                  Stub.qr_box_size := 10; Stub.qr_border := 4;
                  Stub.factory := DefaultFactory;
                  Stub.data_list := ["hello"] |}).
  - reflexivity.
  - discriminate.
Defined.

Section Runs.

Context {lib : External}.

Lemma writes_no_file_app t1 t2 :
  writes_no_file (t1 ++ t2) = writes_no_file t1 && writes_no_file t2.
Proof. unfold writes_no_file. apply forallb_app. Qed.

(** What a sequence of actions does, whatever the libraries do. *)
Lemma run_effect (acts : list UserAction) (st : QRApp) :
  console_grown st (fst (run acts st))
  /\ (length (published (snd (run acts st))) <= length acts)%nat
  /\ (Forall (fun a => is_save a = false) acts ->
      writes_no_file (snd (run acts st)) = true).
Proof.
  revert st. induction acts as [|a rest IH]; intros st.
  - split; [apply console_grown_refl|]. split; [cbn; lia|]. reflexivity.
  - cbn [run].
    destruct (step_effect a st) as (Hc & Hp & Hf & _ & _).
    destruct (step a st) as [st1 t1]. cbn [fst snd] in Hc, Hp, Hf.
    destruct (IH st1) as (Hc' & Hp' & Hf').
    destruct (run rest st1) as [st2 t2]. cbn [fst snd] in *.
    split; [exact (console_grown_trans _ _ _ Hc Hc')|]. split.
    + rewrite published_app, length_app. cbn [length]. lia.
    + intros Hall. inversion Hall as [|? ? Ha Hrest]; subst.
      rewrite writes_no_file_app, (Hf Ha), (Hf' Hrest). reflexivity.
Qed.

Lemma widget_spec_fill st s :
  widget_spec st = Some s -> fill_color s <> "".
Proof.
  unfold widget_spec.
  destruct (box_var st); [|discriminate].
  destruct (border_var st); [|discriminate].
  intros [= <-]. cbn [fill_color]. unfold PyStr.or_else.
  destruct (fill_var st); cbn; discriminate.
Qed.

Lemma reachable_fill st :
  reachable st -> Forall (fun s => fill_color s <> "") (specs st).
Proof.
  induction 1 as [|a st Hr IH]; [apply Forall_nil_2|].
  destruct (step_specs a st) as (added & -> & _ & _ & Ha).
  apply Forall_app. split; [exact IH|].
  assert (Hadd : added = []
                 \/ exists s, widget_spec st = Some s
                              /\ (added = [s] \/ added = [s; s])).
  { destruct a; auto. }
  destruct Hadd as [->|(s & Hw & [->| ->])]; [apply Forall_nil_2| |];
    pose proof (widget_spec_fill st s Hw) as Hs;
    repeat (apply Forall_cons_2; [exact Hs|]); apply Forall_nil_2.
Qed.

Lemma save_nothing answer st :
  current_qr st = None ->
  SaveQRCommand_execute answer st
  = (Returns tt, st,
     [ShowInfo "Nothing to save" "Generate a QR code first."]).
Proof.
  intros Hq. unfold SaveQRCommand_execute. run_m. rewrite Hq. reflexivity.
Qed.

End Runs.

(** X11. The console is append-only: after any sequence of actions its
    text is the text before with text added at the end. No action, Clear
    included, removes or rewrites a line of the log. *)
Theorem console_append_only `{External}
    (acts : list UserAction) (st : QRApp) :
  console_grown st (fst (run acts st)).
Proof.
  exact (proj1 (run_effect acts st)).
Qed.

(** X12. Only Save touches the file system: a sequence of actions with no
    Save in it creates and writes no file, whatever the libraries do. *)
Theorem only_save_writes_files `{External}
    (acts : list UserAction) (st : QRApp) :
  Forall (fun a => is_save a = false) acts ->
  writes_no_file (snd (run acts st)) = true.
Proof.
  exact (proj2 (proj2 (run_effect acts st))).
Qed.

Lemma only_save_writes_files_witness :
  writes_no_file
    (snd (@run Stub.external
            [TypeInput "hello"; PressGenerate; ChooseBackground TransparentBackground;
             PressGenerate; PressClear] initial))
  = true.
Proof.
  apply (@only_save_writes_files Stub.external).
  repeat (apply Forall_cons_2; [reflexivity|]). apply Forall_nil_2.
Defined.

(** X13. Every action puts one message on the bus at most: after a
    sequence of actions the number of published messages is at most the
    number of actions. *)
Theorem one_message_per_action `{External}
    (acts : list UserAction) (st : QRApp) :
  (length (published (snd (run acts st))) <= length acts)%nat.
Proof.
  exact (proj1 (proj2 (run_effect acts st))).
Qed.

(** X14. Clear cannot fail, and a save after it finds nothing to save:
    from any state, Clear followed by Save leaves the state that Clear
    leaves (empty input, no preview, one more console line, status
    "Cleared"), and what is observed is the message "Cleared." and the
    "Nothing to save" dialog; no file dialog is opened. *)
Theorem clear_then_save `{External} (answer : string) (st : QRApp) :
  run [PressClear; PressSave answer] st
  = (cleared st,
     [Publish "Cleared.";
      ShowInfo "Nothing to save" "Generate a QR code first."]).
Proof.
  cbn [run step]. unfold run_callback. rewrite on_clear_run.
  unfold on_save. rewrite (save_nothing answer (cleared st) eq_refl).
  reflexivity.
Qed.

(** X15. No spec of a reachable state has an empty fill color: an empty
    fill field is replaced by "black" when the spec is built. *)
Theorem stored_fill_color_never_empty `{External}
    (st : QRApp) (l : ref) (s : QRSpec) :
  reachable st -> specs st !! l = Some s -> fill_color s <> "".
Proof.
  intros Hr Hl.
  pose proof (reachable_fill st Hr) as Hall.
  rewrite Forall_lookup in Hall. exact (Hall l s Hl).
Qed.

Lemma stored_fill_color_never_empty_witness :
  let st := fst (@run Stub.external
                   [TypeInput "hello"; TypeFill ""; PressGenerate] initial) in
  let s := {| data := "hello"; error_level := "M"; box_size := 10; border := 4;
              fill_color := "black"; background := WhiteBackground |} in
  specs st !! 0%nat = Some s /\ fill_color s <> "".
Proof.
  intros st s. split; [reflexivity|].
  apply (@stored_fill_color_never_empty Stub.external st 0%nat s).
  - apply reachable_run. apply reachable_initial.
  - reflexivity.
Defined.

(** ** The event bus with any subscribers *)

Section BusFacts.

Context {lib : External}.

Lemma call_each_app (subs rest : list Callback) (message : string) st :
  call_each (subs ++ rest) message st
  = bind (call_each subs message) (fun _ => call_each rest message) st.
Proof.
  revert st. induction subs as [|fn subs IH]; intros st.
  - cbn [app call_each]. unfold bind, ret.
    destruct (call_each rest message st) as [[o st2] t2]. reflexivity.
  - cbn [app call_each]. unfold bind.
    destruct (fn message st) as [[[u|e|] st1] t1]; try reflexivity.
    rewrite IH. unfold bind.
    destruct (call_each subs message st1) as [[[u'|e'|] st2] t2];
      try reflexivity.
    destruct (call_each rest message st2) as [[o st3] t3].
    rewrite app_assoc. reflexivity.
Qed.

(** The bus of the application is the loop over its subscribers. *)
Lemma publish_to_call_each (subs : list Subscriber) (message : string) :
  publish_to subs message = call_each (map notify subs) message.
Proof.
  induction subs as [|fn subs IH]; [reflexivity|].
  cbn [publish_to map call_each]. rewrite IH. reflexivity.
Qed.

End BusFacts.

(** X16. [EventBus.publish] delivers in the order of subscription: when
    the first subscribers all return, the message then goes to the later
    ones, from the state the first have left, and what is observed is what
    the first did followed by what the later ones do. *)
Theorem delivery_in_subscription_order `{External}
    (subs rest : list Callback) (message : string)
    (st st1 : QRApp) (t1 : list Event) :
  call_each subs message st = (Returns tt, st1, t1) ->
  call_each (subs ++ rest) message st
  = (fst (fst (call_each rest message st1)),
     snd (fst (call_each rest message st1)),
     (t1 ++ snd (call_each rest message st1))%list).
Proof.
  intros E. rewrite call_each_app. unfold bind. rewrite E.
  destruct (call_each rest message st1) as [[o st2] t2]. reflexivity.
Qed.

Lemma delivery_in_subscription_order_witness :
  let first := fun m : string => emit (ShowInfo "first" m) in
  let second := fun m : string => emit (ShowInfo "second" m) in
  @call_each Stub.external ([first; GuiLogger_write] ++ [second]) "hello" initial
  = (fst (fst (call_each [second] "hello" (logged "hello" initial))),
     snd (fst (call_each [second] "hello" (logged "hello" initial))),
     ([ShowInfo "first" "hello"]
      ++ snd (call_each [second] "hello" (logged "hello" initial)))%list).
Proof.
  intros first second.
  apply (@delivery_in_subscription_order Stub.external
           [first; GuiLogger_write] [second] "hello" initial
           (logged "hello" initial) [ShowInfo "first" "hello"]).
  reflexivity.
Defined.

(** X17. A subscriber that raises ends the delivery: the exception leaves
    [publish] and the subscribers after it never get the message. *)
Theorem delivery_stops_at_raise `{External}
    (subs rest : list Callback) (message : string)
    (st st1 : QRApp) (t1 : list Event) (e : Exn) :
  call_each subs message st = (Raises e, st1, t1) ->
  call_each (subs ++ rest) message st = (Raises e, st1, t1).
Proof.
  intros E. rewrite call_each_app. unfold bind. rewrite E. reflexivity.
Qed.

Lemma delivery_stops_at_raise_witness :
  let failing := fun _ : string => raise (Exception "RuntimeError" "closed") in
  @call_each Stub.external ([GuiLogger_write; failing] ++ [GuiLogger_write])
    "hello" initial
  = (Raises (Exception "RuntimeError" "closed"), logged "hello" initial, []).
Proof.
  intros failing.
  apply (@delivery_stops_at_raise Stub.external
           [GuiLogger_write; failing] [GuiLogger_write] "hello" initial).
  reflexivity.
Defined.

(** ** The singleton metaclass *)

Lemma singleton_call_spec (cls : string) (w : Singleton.World) :
  Singleton.consistent w ->
  Singleton.consistent (snd (Singleton.__call__ cls w))
  /\ Singleton._instances (snd (Singleton.__call__ cls w)) !! cls
     = Some (fst (Singleton.__call__ cls w))
  /\ (forall c o, Singleton._instances w !! c = Some o ->
                  Singleton._instances (snd (Singleton.__call__ cls w)) !! c
                  = Some o).
Proof.
  intros [Hlt Hinj]. unfold Singleton.__call__, Singleton.consistent.
  cbv zeta.
  destruct (Singleton._instances w !! cls) as [o|] eqn:E; cbn [fst snd].
  - split; [split; assumption|]. split; [exact E|]. auto.
  - cbn [Singleton._instances Singleton.next_object].
    split; [split|split].
    + intros c o. rewrite lookup_insert_Some.
      intros [[_ <-]|[_ Hc]]; [lia|]. specialize (Hlt c o Hc). lia.
    + intros c c' o. rewrite !lookup_insert_Some.
      intros [[<- <-]|[Hn Hc]] [[<- Ho]|[Hn' Hc']].
      * reflexivity.
      * specialize (Hlt c' _ Hc'). lia.
      * subst o. specialize (Hlt c _ Hc). lia.
      * exact (Hinj c c' o Hc Hc').
    + rewrite lookup_insert_Some. left. split; reflexivity.
    + intros c o Hc. rewrite lookup_insert_Some. right. split; [|exact Hc].
      intros ->. congruence.
Qed.

Lemma singleton_calls_spec (classes : list string) (w : Singleton.World) :
  Singleton.consistent w ->
  Singleton.consistent (snd (Singleton.calls classes w))
  /\ (forall c o, Singleton._instances w !! c = Some o ->
                  Singleton._instances (snd (Singleton.calls classes w)) !! c
                  = Some o)
  /\ (forall i c o, classes !! i = Some c ->
                    fst (Singleton.calls classes w) !! i = Some o ->
                    Singleton._instances (snd (Singleton.calls classes w)) !! c
                    = Some o).
Proof.
  revert w. induction classes as [|cls rest IH]; intros w Hw.
  - cbn. split; [exact Hw|]. split; [auto|]. intros i c o Hi.
    rewrite lookup_nil in Hi. discriminate.
  - cbn [Singleton.calls].
    destruct (singleton_call_spec cls w Hw) as (Hw1 & Hnew & Hmono).
    destruct (Singleton.__call__ cls w) as [o1 w1]. cbn [fst snd] in *.
    destruct (IH w1 Hw1) as (Hw2 & Hmono2 & Hall).
    destruct (Singleton.calls rest w1) as [os w2]. cbn [fst snd] in *.
    split; [exact Hw2|]. split; [auto|].
    intros [|i] c o Hi Ho; cbn in Hi, Ho.
    + injection Hi as <-. injection Ho as <-. auto.
    + exact (Hall i c o Hi Ho).
Qed.

Lemma singleton_empty_consistent : Singleton.consistent Singleton.empty.
Proof.
  split.
  - intros c o Hc. cbn in Hc. rewrite lookup_empty in Hc. discriminate.
  - intros c c' o Hc. cbn in Hc. rewrite lookup_empty in Hc. discriminate.
Qed.

(** X18. One instance per class: in any sequence of instantiations of
    classes that have [_Singleton] as metaclass, two calls evaluate to
    the same object exactly when they are calls of the same class. *)
Theorem singleton_one_instance_per_class
    (classes : list string) (i j : nat) (c c' : string) (o o' : nat) :
  classes !! i = Some c ->
  classes !! j = Some c' ->
  fst (Singleton.calls classes Singleton.empty) !! i = Some o ->
  fst (Singleton.calls classes Singleton.empty) !! j = Some o' ->
  (o = o' <-> c = c').
Proof.
  intros Hi Hj Ho Ho'.
  destruct (singleton_calls_spec classes Singleton.empty
              singleton_empty_consistent) as ([_ Hinj] & _ & Hall).
  pose proof (Hall i c o Hi Ho) as H1.
  pose proof (Hall j c' o' Hj Ho') as H2.
  split.
  - intros <-. exact (Hinj c c' o H1 H2).
  - intros <-. congruence.
Qed.

Lemma singleton_one_instance_per_class_witness :
  fst (Singleton.calls ["AppConfig"; "Other"; "AppConfig"] Singleton.empty)
  = [0; 1; 0]%nat
  /\ (0%nat = 0%nat <-> "AppConfig" = "AppConfig").
Proof.
  split; [reflexivity|].
  apply (singleton_one_instance_per_class
           ["AppConfig"; "Other"; "AppConfig"] 0 2); reflexivity.
Defined.

(** ** Paths and extensions *)

Lemma lower_char_idempotent (c : ascii) :
  PyStr.lower_char (PyStr.lower_char c) = PyStr.lower_char c.
Proof.
  destruct c as [[] [] [] [] [] [] [] []]; vm_compute; reflexivity.
Qed.

Lemma lower_idempotent (s : string) : PyStr.lower (PyStr.lower s) = PyStr.lower s.
Proof.
  induction s as [|c r IH]; [reflexivity|].
  cbn [PyStr.lower]. rewrite lower_char_idempotent, IH. reflexivity.
Qed.







(** X20. The factory does not tell letter cases or leading dots apart:
    lowercasing an extension, or putting a dot before it, gives the same
    encoder. *)
Theorem for_extension_ignores_case_and_dots (x : string) :
  for_extension (PyStr.lower x) = for_extension x
  /\ for_extension (String "." x) = for_extension x.
Proof.
  split.
  - rewrite !for_extension_cases, lower_idempotent. reflexivity.
  - rewrite !for_extension_cases. reflexivity.
Qed.

(** ** The preview of an image that does not fit *)

Section PreviewFill.

Import Float64.
Local Open Scope Q_scope.

(** The scale of an image that does not fit falls short of the exact
    ratio by too little to lose more than one pixel on the longer side. *)
Lemma preview_scale_lower (max_side w h : Z) (s : Q) :
  (1 <= max_side < 2 ^ 52)%Z -> (1 <= w < 2 ^ 52)%Z -> (1 <= h < 2 ^ 52)%Z ->
  (max_side < Z.max w h)%Z ->
  preview_scale max_side w h = Ok s ->
  inject_Z max_side - (1 # 4) <= inject_Z (Z.max w h) * s.
Proof.
  intros Hp Hw Hh Hbig.
  set (m := Z.max w h) in *.
  assert (Hm : (1 <= m < 2 ^ 52)%Z) by (unfold m; lia).
  destruct (inject_bounds m Hm) as [Hm1 Hm2].
  destruct (inject_bounds max_side Hp) as [Hp1 Hp2].
  unfold preview_scale, int_truediv. fold m.
  rewrite (proj2 (Z.eqb_neq m 0%Z)) by lia.
  set (x := inject_Z max_side / inject_Z m).
  assert (Hx : x * inject_Z m == inject_Z max_side)
    by (unfold x; field; lra).
  assert (Hx0 : 0 < x).
  { unfold x. apply Qlt_shift_div_l; lra. }
  assert (Hx1 : x < pow2 0).
  { change (pow2 0) with 1. unfold x. apply Qlt_shift_div_r; [lra|].
    rewrite Qmult_1_l. rewrite <- Zlt_Qlt. exact Hbig. }
  assert (Hxb : x < pow2 52).
  { change (pow2 0) with 1 in Hx1. change (pow2 52) with 4503599627370496.
    lra. }
  destruct (round_pos_quarter x Hx0 Hxb) as [Hq1 Hq2].
  pose proof pow2_52_small as Hsmall.
  rewrite (round_positive x Hx0) by lra.
  intros [= <-].
  pose proof (ulp_exp_le x 0 Hx0 Hx1 ltac:(lia)) as He.
  pose proof (pow2_le _ _ He) as Hpe.
  change (pow2 (0 - 53)) with (1 # 9007199254740992) in Hpe.
  destruct (round_pos_error x) as [Hlo _].
  change (pow2 0) with 1 in Hx1.
  set (p := pow2 (ulp_exp x)) in *.
  assert (Hs : x - (1 # 18014398509481984) <= Float64.min (round_pos x) 1).
  { unfold Float64.min. destruct (Qcompare 1 (round_pos x)); lra. }
  set (s := Float64.min (round_pos x) 1) in *.
  change (pow2 52) with 4503599627370496 in Hm2.
  nra.
Qed.

(** One side, from below. *)
Lemma scaled_side_lower (side : Z) (s : Q) (n b : Z) :
  (1 <= side < 2 ^ 52)%Z -> 0 <= s -> s <= 1 ->
  scaled_side side s = Ok n ->
  inject_Z b - (1 # 4) <= inject_Z side * s ->
  (b - 1 <= n)%Z.
Proof.
  intros Hside Hs0 Hs1.
  destruct (inject_bounds side Hside) as [Hi1 Hi2].
  pose proof pow2_52_small as Hsmall.
  assert (Hf : round_pos (inject_Z side) == inject_Z side)
    by (apply round_pos_integer; [reflexivity|lia]).
  unfold scaled_side, int_mul, of_int.
  rewrite (round_positive (inject_Z side)) by lra.
  unfold mul.
  set (f := round_pos (inject_Z side)) in *.
  destruct (Qlt_le_dec 0 (f * s)) as [Hpos|Hzero].
  - assert (Hpb : f * s < pow2 52) by nra.
    destruct (round_pos_quarter (f * s) Hpos Hpb) as [Hq1 Hq2].
    rewrite (round_positive (f * s) Hpos) by lra.
    cbn [to_int].
    assert (Hr0 : 0 <= round_pos (f * s))
      by (apply round_pos_nonneg; lra).
    rewrite (truncate_nonneg _ Hr0).
    intros [= <-] Hb.
    assert (Hfs : f * s == inject_Z side * s) by (rewrite Hf; reflexivity).
    assert (Hge : inject_Z (b - 1) <= round_pos (f * s)).
    { unfold Z.sub. rewrite inject_Z_plus, inject_Z_opp.
      change (inject_Z 1) with 1. lra. }
    apply Qfloor_resp_le in Hge. rewrite Qfloor_Z in Hge. lia.
  - assert (Hz : f * s == 0) by nra.
    rewrite (round_zero _ Hz). cbn [to_int].
    change (truncate 0) with 0%Z.
    intros [= <-] Hb.
    assert (Hfs : f * s == inject_Z side * s) by (rewrite Hf; reflexivity).
    assert (Hb1 : inject_Z b < inject_Z 1) by (change (inject_Z 1) with 1; lra).
    rewrite <- Zlt_Qlt in Hb1. lia.
Qed.

(** An image that does not fit: the size of its preview. *)
Lemma preview_size_large (max_side w h : Z) :
  (1 <= max_side < 2 ^ 52)%Z -> (1 <= w < 2 ^ 52)%Z -> (1 <= h < 2 ^ 52)%Z ->
  (max_side < Z.max w h)%Z ->
  exists w' h',
    preview_size max_side w h = Ok (w', h')
    /\ (1 <= w' <= max_side)%Z /\ (1 <= h' <= max_side)%Z
    /\ (h <= w -> max_side - 1 <= w')%Z
    /\ (w <= h -> max_side - 1 <= h')%Z.
Proof.
  intros Hp Hw Hh Hbig.
  destruct (preview_scale_spec max_side w h ltac:(lia) Hw Hh)
    as (s & Es & Hs0 & Hs1 & _ & Hlong).
  pose proof (preview_scale_lower max_side w h s Hp Hw Hh Hbig Es) as Hlow.
  destruct (scaled_side_spec w s Hw Hs0 Hs1) as (w' & Ew & Hw' & _ & Hwb).
  destruct (scaled_side_spec h s Hh Hs0 Hs1) as (h' & Eh & Hh' & _ & Hhb).
  exists w', h'.
  assert (Hwm : inject_Z w <= inject_Z (Z.max w h))
    by (rewrite <- Zle_Qle; lia).
  assert (Hhm : inject_Z h <= inject_Z (Z.max w h))
    by (rewrite <- Zle_Qle; lia).
  assert (Hw1 : (w' <= Z.max (Z.max max_side 1) 1)%Z) by (apply Hwb; nra).
  assert (Hh1 : (h' <= Z.max (Z.max max_side 1) 1)%Z) by (apply Hhb; nra).
  split; [unfold preview_size; rewrite Es, Ew, Eh; reflexivity|].
  split; [lia|]. split; [lia|]. split.
  - intros Hle. apply (scaled_side_lower w s w' max_side Hw Hs0 Hs1 Ew).
    replace (Z.max w h) with w in Hlow by lia. exact Hlow.
  - intros Hle. apply (scaled_side_lower h s h' max_side Hh Hs0 Hs1 Eh).
    replace (Z.max w h) with h in Hlow by lia. exact Hlow.
Qed.

End PreviewFill.

(** X21. An image that does not fit fills the preview up to one pixel:
    when the longer side of the image exceeds [max_side], the size of the
    preview is computed without an exception, both sides lie between 1
    and [max_side], and the side that was the longer one comes out as
    [max_side] or as [max_side - 1] (the rounded scale can fall just short
    of the exact ratio). *)
Theorem preview_longer_side_fills (max_side w h : Z) :
  (1 <= max_side < 2 ^ 52)%Z -> (1 <= w < 2 ^ 52)%Z -> (1 <= h < 2 ^ 52)%Z ->
  (max_side < Z.max w h)%Z ->
  exists w' h',
    preview_size max_side w h = Ok (w', h')
    /\ (1 <= w' <= max_side)%Z /\ (1 <= h' <= max_side)%Z
    /\ (max_side - 1 <= Z.max w' h' <= max_side)%Z.
Proof.
  intros Hp Hw Hh Hbig.
  destruct (preview_size_large max_side w h Hp Hw Hh Hbig)
    as (w' & h' & E & Hw' & Hh' & Hlw & Hlh).
  exists w', h'. split; [exact E|]. split; [exact Hw'|]. split; [exact Hh'|].
  destruct (Z_le_gt_dec h w) as [Hle|Hgt].
  - specialize (Hlw Hle). lia.
  - specialize (Hlh ltac:(lia)). lia.
Qed.

Lemma preview_longer_side_fills_witness :
  exists w' h',
    preview_size 360 571 571 = Ok (w', h')
    /\ (1 <= w' <= 360)%Z /\ (1 <= h' <= 360)%Z
    /\ (360 - 1 <= Z.max w' h' <= 360)%Z.
Proof. apply (preview_longer_side_fills 360 571 571); lia. Defined.

(** The short fall happens: an image of 571 by 571 is shown at 359 by
    359, as Python computes it. *)
Example preview_size_one_short : preview_size 360 571 571 = Ok (359, 359)%Z.
Proof. vm_compute. reflexivity. Qed.

(** ** Files, options and a preview that cannot be shown *)

Section FileFacts.

Context {lib : External}.

Lemma written_paths_app t1 t2 :
  written_paths (t1 ++ t2) = (written_paths t1 ++ written_paths t2)%list.
Proof.
  induction t1 as [|ev t1 IH]; [reflexivity|].
  destruct ev; cbn [app written_paths]; rewrite IH; reflexivity.
Qed.

Lemma no_file_no_path tr : writes_no_file tr = true -> written_paths tr = [].
Proof.
  induction tr as [|ev tr IH]; [reflexivity|].
  unfold writes_no_file in *. cbn [forallb].
  destruct ev; cbn [is_file_write negb andb written_paths];
    try discriminate; exact IH.
Qed.

(** An encoder touches no other path than the one it is given. *)
Lemma save_paths enc qr path fill back bs bd st :
  Forall (fun p => p = path)
    (written_paths (snd (save enc qr path fill back bs bd st))).
Proof.
  destruct enc; cbn [save].
  - unfold PNGEncoder_save. run_m.
    destruct (qr_make_image qr fill (Some back)) as [img|e]; cbn;
      [|apply Forall_nil_2].
    destruct (String.eqb back "transparent"); cbn.
    + destruct (img_convert img "RGBA") as [img'|e]; cbn;
        [|apply Forall_nil_2].
      destruct (img_save_png img' path); cbn;
        (apply Forall_cons_2; [reflexivity|apply Forall_nil_2]).
    + destruct (img_save_png img path); cbn;
        (apply Forall_cons_2; [reflexivity|apply Forall_nil_2]).
  - unfold SVGEncoder_save. run_m.
    destruct (qr_new _ _ bs bd SvgImage) as [q1|e]; cbn; [|apply Forall_nil_2].
    destruct (qr_add_list q1 _) as [q2|e]; cbn; [|apply Forall_nil_2].
    destruct (qr_make q2) as [q3|e]; cbn; [|apply Forall_nil_2].
    destruct (qr_make_image q3 fill None) as [img|e]; cbn;
      [|apply Forall_nil_2].
    destruct (file_open_wb path) as [u|e]; cbn;
      [|apply Forall_cons_2; [reflexivity|apply Forall_nil_2]].
    destruct (img_save_file img path); cbn;
      (apply Forall_cons_2;
       [reflexivity|apply Forall_cons_2; [reflexivity|apply Forall_nil_2]]).
Qed.

(** Nor does the command. *)
Lemma save_command_paths answer st :
  Forall (fun p => p = answer)
    (written_paths (snd (SaveQRCommand_execute answer st))).
Proof.
  destruct (split_last_item "." answer) as [x Hx].
  unfold SaveQRCommand_execute. run_m.
  destruct (current_qr st); cbn [fst snd]; [|apply Forall_nil_2].
  destruct (PyStr.truthy answer); cbn [negb fst snd]; [|apply Forall_nil_2].
  rewrite Hx. cbn [fst snd app written_paths].
  destruct (current_spec st) as [l|]; cbn [fst snd].
  2:{ exn_cases. rewrite publish_run. cbn [fst snd app written_paths].
      apply Forall_nil_2. }
  unfold deref. destruct (specs st !! l) as [s|]; cbn [fst snd];
    [|apply Forall_nil_2].
  destruct (qr_new _ _ _ _ _) as [q1|e]; cbn [fst snd].
  2:{ exn_cases; rewrite ?publish_run; cbn [fst snd app written_paths];
        apply Forall_nil_2. }
  destruct (qr_add_text q1 _) as [q2|e]; cbn [fst snd].
  2:{ exn_cases; rewrite ?publish_run; cbn [fst snd app written_paths];
        apply Forall_nil_2. }
  destruct (qr_make q2) as [q3|e]; cbn [fst snd].
  2:{ exn_cases; rewrite ?publish_run; cbn [fst snd app written_paths];
        apply Forall_nil_2. }
  pose proof (save_paths (for_extension x) q3 answer (fill_color s)
                (back_color (background s)) (box_size s) (border s) st)
    as Hpaths.
  destruct (save_calls_only (for_extension x) q3 answer (fill_color s)
              (back_color (background s)) (box_size s) (border s) st)
    as [Hst _].
  destruct (save _ _ _ _ _ _ _ st) as [[o st1] t1].
  cbn [fst snd] in Hst, Hpaths. subst st1.
  destruct o as [[]|e|]; try exn_cases; cbn [fst snd]; rewrite ?publish_run;
    cbn [fst snd app written_paths]; rewrite ?(written_paths_app t1);
    cbn [app written_paths]; rewrite ?app_nil_r; exact Hpaths.
Qed.

Lemma run_paths (acts : list UserAction) (st : QRApp) :
  Forall (fun p => p ∈ save_answers acts) (written_paths (snd (run acts st))).
Proof.
  revert st. induction acts as [|a rest IH]; intros st; [apply Forall_nil_2|].
  cbn [run].
  destruct (step_effect a st) as (_ & _ & Hf & _ & _).
  assert (Hstep : Forall (fun p => p ∈ save_answers (a :: rest))
                    (written_paths (snd (step a st)))).
  { destruct (is_save a) eqn:Ea.
    - destruct a; try discriminate. cbn [step save_answers].
      unfold run_callback, on_save.
      pose proof (save_command_paths answer st) as Hp.
      destruct (SaveQRCommand_execute answer st) as [[o st'] tr].
      cbn [fst snd] in *.
      eapply Forall_impl; [exact Hp|]. intros p ->. apply list_elem_of_here.
    - rewrite (no_file_no_path _ (Hf eq_refl)). apply Forall_nil_2. }
  destruct (step a st) as [st1 t1]. cbn [fst snd] in Hstep.
  specialize (IH st1).
  destruct (run rest st1) as [st2 t2]. cbn [fst snd] in *.
  rewrite written_paths_app. apply Forall_app. split; [exact Hstep|].
  eapply Forall_impl; [exact IH|]. intros p Hp.
  destruct a; cbn [save_answers]; try exact Hp.
  apply list_elem_of_further. exact Hp.
Qed.

(** Generate when the preview cannot be shown: the image was made and
    converted, and [set_preview] raises at the resizing or at the photo. *)
Lemma generate_display_fails st l s ws q1 q2 q3 img img1 sz e tp :
  specs st !! l = Some s ->
  PyStr.strip (data s) <> "" ->
  widget_spec st = Some ws ->
  qr_new None (err_map_get (error_level s)) (box_size s) (border s)
    DefaultFactory = Ok q1 ->
  qr_add_text q1 (data s) = Ok q2 ->
  qr_make q2 = Ok q3 ->
  qr_make_image q3 (fill_color s) (Some (back_color (background s))) = Ok img ->
  img_convert img "RGBA" = Ok img1 ->
  preview_size AppConfig.preview_max (fst (img_size img1)) (snd (img_size img1))
  = Ok sz ->
  (img_resize img1 sz = Err e /\ tp = [CallResize img1 sz]
   \/ exists d, img_resize img1 sz = Ok d /\ photo_image d = Err e
                /\ tp = [CallResize img1 sz; CallPhotoImage d]) ->
  GenerateQRCommand_execute l st
  = (Raises e, preview_interrupted img1 q3 ws st,
     (setup_calls s q1 q2
      ++ [CallMakeImage q3 (fill_color s) (Some (back_color (background s)));
          CallConvert img "RGBA"]
      ++ tp)%list).
Proof.
  intros Hl Hd Hw H1 H2 H3 H4 Hc Hps Hfail.
  unfold GenerateQRCommand_execute. run_m. unfold deref. rewrite Hl. run_m.
  rewrite (truthy_nonempty _ Hd). cbn [negb]. run_m.
  rewrite H1. run_m. rewrite H2. run_m. rewrite H3. run_m. rewrite H4. run_m.
  rewrite Hc. run_m.
  rewrite (set_preview_some_run img1 q3 st ws Hw), Hps.
  destruct Hfail as [[Hr ->]|(d & Hr & Hph & ->)].
  - rewrite Hr. reflexivity.
  - rewrite Hr, Hph. reflexivity.
Qed.

Lemma on_generate_options st :
  same_options st (fst (step PressGenerate st))
  /\ input_var (fst (step PressGenerate st)) = input_var st.
Proof.
  destruct (on_generate_frame st) as (added & Hext & _).
  destruct Hext as (A1 & A2 & A3 & A4 & A5 & A6 & _).
  unfold same_options. cbn [step]. auto 10.
Qed.

End FileFacts.

(** X22. The program writes files only where the user chose to: after
    any sequence of actions, every path at which a file was created or
    written is a path that the save dialog gave in one of the Saves of
    the sequence, whatever the libraries do. *)
Theorem files_written_only_where_chosen `{External}
    (acts : list UserAction) (st : QRApp) :
  Forall (fun p => p ∈ save_answers acts) (written_paths (snd (run acts st))).
Proof.
  exact (run_paths acts st).
Qed.

(** X23. A Generate whose preview cannot be shown (the resizing or the
    making of the Tk photo raises) lets the exception out, publishes
    nothing and shows no dialog, but has already replaced what a later
    Save reads: [current_image], [current_qr] and [current_spec] are the
    new ones, while the photo, the label, the status line and the console
    are the old ones. *)
Theorem generate_display_failure `{External}
    (st : QRApp) (l : ref) (s ws : QRSpec) (q1 q2 q3 : QRCode)
    (img img1 : Image) (sz : Z * Z) (e : Exn) (tp : list Event) :
  specs st !! l = Some s ->
  PyStr.strip (data s) <> "" ->
  widget_spec st = Some ws ->
  qr_new None (err_map_get (error_level s)) (box_size s) (border s)
    DefaultFactory = Ok q1 ->
  qr_add_text q1 (data s) = Ok q2 ->
  qr_make q2 = Ok q3 ->
  qr_make_image q3 (fill_color s) (Some (back_color (background s))) = Ok img ->
  img_convert img "RGBA" = Ok img1 ->
  preview_size AppConfig.preview_max (fst (img_size img1)) (snd (img_size img1))
  = Ok sz ->
  (img_resize img1 sz = Err e /\ tp = [CallResize img1 sz]
   \/ exists d, img_resize img1 sz = Ok d /\ photo_image d = Err e
                /\ tp = [CallResize img1 sz; CallPhotoImage d]) ->
  fst (fst (GenerateQRCommand_execute l st)) = Raises e
  /\ published (snd (GenerateQRCommand_execute l st)) = []
  /\ dialogs (snd (GenerateQRCommand_execute l st)) = []
  /\ current_image (snd (fst (GenerateQRCommand_execute l st))) = Some img1
  /\ current_qr (snd (fst (GenerateQRCommand_execute l st))) = Some q3
  /\ (current_spec (snd (fst (GenerateQRCommand_execute l st)))
        ≫= (specs (snd (fst (GenerateQRCommand_execute l st))) !!.)) = Some ws
  /\ preview_photo (snd (fst (GenerateQRCommand_execute l st)))
     = preview_photo st
  /\ label_image (snd (fst (GenerateQRCommand_execute l st))) = label_image st
  /\ status_var (snd (fst (GenerateQRCommand_execute l st))) = status_var st
  /\ console_text (snd (fst (GenerateQRCommand_execute l st)))
     = console_text st.
Proof.
  intros Hl Hd Hw H1 H2 H3 H4 Hc Hps Hfail.
  rewrite (generate_display_fails st l s ws q1 q2 q3 img img1 sz e tp)
    by assumption.
  cbn [fst snd]. split; [reflexivity|].
  assert (Htp : published tp = [] /\ dialogs tp = []).
  { destruct Hfail as [[_ ->]|(d & _ & _ & ->)]; split; reflexivity. }
  destruct Htp as [Hp1 Hp2].
  split; [rewrite !published_app, Hp1; reflexivity|].
  split; [rewrite !dialogs_app, Hp2; reflexivity|].
  split; [reflexivity|]. split; [reflexivity|].
  split; [|repeat split; reflexivity].
  unfold preview_interrupted.
  cbn [current_spec specs set_current_spec set_specs set_current_qr
       set_current_image mbind option_bind].
  apply lookup_new_spec.
Qed.

Lemma generate_display_failure_witness :
  let st := one_spec_state stub_without_photo 10 in
  let st' := snd (fst (GenerateQRCommand_execute 0 st)) in
  fst (fst (GenerateQRCommand_execute 0 st))
  = Raises (Exception "TclError" "not enough free memory for image buffer")
  /\ published (snd (GenerateQRCommand_execute 0 st)) = []
  /\ current_qr st'
     = Some {| Stub.version := Some 1%Z;
               Stub.error_correction := ERROR_CORRECT_M;
               Stub.qr_box_size := 10; Stub.qr_border := 4;
               Stub.factory := DefaultFactory; Stub.data_list := ["hello"] |}
  /\ preview_photo st' = None.
Proof.
  intros st st'.
  pose (s := {| data := "hello"; error_level := "M"; box_size := 10;
                border := 4; fill_color := "black";
                background := WhiteBackground |}).
  pose (q1 := {| Stub.version := None; Stub.error_correction := ERROR_CORRECT_M;
                 Stub.qr_box_size := 10; Stub.qr_border := 4;
                 Stub.factory := DefaultFactory; Stub.data_list := [] |}).
  pose (q2 := {| Stub.version := None; Stub.error_correction := ERROR_CORRECT_M;
                 Stub.qr_box_size := 10; Stub.qr_border := 4;
                 Stub.factory := DefaultFactory; Stub.data_list := ["hello"] |}).
  pose (q3 := {| Stub.version := Some 1%Z; Stub.error_correction := ERROR_CORRECT_M;
                 Stub.qr_box_size := 10; Stub.qr_border := 4;
                 Stub.factory := DefaultFactory; Stub.data_list := ["hello"] |}).
  pose (img := {| Stub.mode := "1"; Stub.size := (290, 290)%Z |}).
  pose (img1 := {| Stub.mode := "RGBA"; Stub.size := (290, 290)%Z |}).
  pose (e := Exception "TclError" "not enough free memory for image buffer").
  assert (Hl : specs st !! 0%nat = Some s) by reflexivity.
  assert (Hd : PyStr.strip (data s) <> "") by discriminate.
  assert (Hw : widget_spec st = Some s) by reflexivity.
  assert (Hps : preview_size AppConfig.preview_max 290 290 = Ok (290, 290)%Z)
    by (vm_compute; reflexivity).
  assert (Hfail :
    @img_resize stub_without_photo img1 (290, 290)%Z = Err e
    /\ [@CallResize stub_without_photo img1 (290, 290)%Z;
        @CallPhotoImage stub_without_photo img1]
       = [@CallResize stub_without_photo img1 (290, 290)%Z]
    \/ exists d, @img_resize stub_without_photo img1 (290, 290)%Z = Ok d
                 /\ @photo_image stub_without_photo d = Err e
                 /\ [@CallResize stub_without_photo img1 (290, 290)%Z;
                     @CallPhotoImage stub_without_photo img1]
                    = [@CallResize stub_without_photo img1 (290, 290)%Z;
                       @CallPhotoImage stub_without_photo d]).
  { right. exists img1. split; [reflexivity|]. split; reflexivity. }
  destruct (@generate_display_failure stub_without_photo st 0%nat s s q1 q2 q3
              img img1 (290, 290)%Z e
              [@CallResize stub_without_photo img1 (290, 290)%Z;
               @CallPhotoImage stub_without_photo img1]
              Hl Hd Hw eq_refl eq_refl eq_refl eq_refl eq_refl Hps Hfail)
    as (Ho & Hp & _ & _ & Hq & _ & Hph & _).
  split; [exact Ho|]. split; [exact Hp|]. split; [exact Hq|].
  exact Hph.
Defined.

(** X24. The three commands leave the option widgets alone: after
    Generate, Save or Clear the error level, the box size, the border,
    the fill color and the background are what the user set. Generate and
    Save keep the text too; Clear empties the text and nothing else of
    what the user entered. *)
Theorem commands_keep_the_options `{External} (st : QRApp) (answer : string) :
  (same_options st (fst (step PressGenerate st))
   /\ input_var (fst (step PressGenerate st)) = input_var st)
  /\ (same_options st (fst (step (PressSave answer) st))
      /\ input_var (fst (step (PressSave answer) st)) = input_var st)
  /\ (same_options st (fst (step PressClear st))
      /\ input_var (fst (step PressClear st)) = "").
Proof.
  split; [exact (on_generate_options st)|]. split.
  - pose proof (on_save_frame answer st) as (A1 & A2 & A3 & A4 & A5 & A6 & _).
    unfold same_options. cbn [step]. auto 10.
  - pose proof (on_clear_frame st) as (A1 & A2 & A3 & A4 & A5 & A6 & _).
    unfold same_options. cbn [step]. auto 10.
Qed.
